(** * Viz: session model, query compiler and dialogue controller

    A shallow embedding of [src/dataset_registry.py], [src/data_agent.py]
    and [src/chatbot.py], and of the label helper of [src/visualization.py].

    Conventions of the embedding.
    - Python [str] is [string]; the text primitives ([lower], [strip],
      [split], [int], the regular expressions) are written for ASCII text:
      a byte above 127 is neither white space nor a word character nor a
      digit and has no case. Python's own classes are wider there (U+00A0
      is white space, U+212A lowers to k), so every statement about what is
      read from a text carries the hypothesis [ascii_text].
    - A Python [dict] is an association list in insertion order with
      unique keys ([PyDict]); assignment to an existing key keeps its place.
    - Mutable session state is threaded through a state-and-exception
      monad [M]: a computation returns an [outcome] together with the state
      as it is when the computation returns or raises.
    - Python [float] values and the two collaborators of the dialogue
      (query backend, chart renderer) are interfaces ([PyFloat],
      [Collaborators]). *)

From Stdlib Require Import String Ascii List ZArith Bool Arith Lia FinFun.
From Stdlib Require Import DecimalString DecimalNat DecimalZ.
Import ListNotations.
Open Scope string_scope.

Set Implicit Arguments.

(* ================================================================== *)
(** * Text primitives *)
(* ================================================================== *)

Module Text.

(** The new-line character used in multi-line messages. *)
Definition nl : string := String (ascii_of_nat 10) EmptyString.

Definition code (c : ascii) : nat := nat_of_ascii c.

Definition between (lo hi n : nat) : bool := Nat.leb lo n && Nat.leb n hi.

(** [str.isspace] and the class [\s] of [re] on ASCII: TAB..CR, FS..US, SPACE. *)
Definition isspace (c : ascii) : bool :=
  between 9 13 (code c) || between 28 32 (code c).

Definition isupper (c : ascii) : bool := between 65 90 (code c).
Definition islower (c : ascii) : bool := between 97 122 (code c).
Definition isdigit (c : ascii) : bool := between 48 57 (code c).

(** The class [\w] of [re] on ASCII. *)
Definition isword (c : ascii) : bool :=
  isupper c || islower c || isdigit c || Ascii.eqb c "_".

Definition lower_char (c : ascii) : ascii :=
  if isupper c then ascii_of_nat (code c + 32) else c.

Definition upper_char (c : ascii) : ascii :=
  if islower c then ascii_of_nat (code c - 32) else c.

Fixpoint map_chars (f : ascii -> ascii) (s : string) : string :=
  match s with
  | EmptyString => EmptyString
  | String c r => String (f c) (map_chars f r)
  end.

(** [str.lower] and [str.upper] on ASCII text: only A-Z and a-z have a
    case (Python also maps letters above 127). *)
Definition lower : string -> string := map_chars lower_char.
Definition upper : string -> string := map_chars upper_char.

Fixpoint lstrip (s : string) : string :=
  match s with
  | EmptyString => EmptyString
  | String c r => if isspace c then lstrip r else s
  end.

Fixpoint rstrip (s : string) : string :=
  match s with
  | EmptyString => EmptyString
  | String c r =>
      match rstrip r with
      | EmptyString => if isspace c then EmptyString else String c EmptyString
      | r' => String c r'
      end
  end.

(** [str.strip] without argument. *)
Definition strip (s : string) : string := rstrip (lstrip s).

(** Python truthiness of a [str]. *)
Definition nonempty (s : string) : bool :=
  match s with EmptyString => false | _ => true end.

(** [sub in s] for strings. *)
Fixpoint str_in (sub s : string) : bool :=
  prefix sub s ||
  match s with
  | EmptyString => false
  | String _ r => str_in sub r
  end.

(** [s.startswith(p)]. *)
Definition startswith (p s : string) : bool := prefix p s.

(** [s.split(sep, 1)] for a one-character [sep]: [None] when [sep] does not
    occur (Python then returns the one-element list [[s]]). *)
Fixpoint split_once (sep : ascii) (s : string) : option (string * string) :=
  match s with
  | EmptyString => None
  | String c r =>
      if Ascii.eqb c sep then Some (EmptyString, r)
      else match split_once sep r with
           | Some (a, b) => Some (String c a, b)
           | None => None
           end
  end.

(** [s.split(sep)] for a one-character [sep]. *)
Fixpoint split (sep : ascii) (s : string) : list string :=
  match s with
  | EmptyString => [EmptyString]
  | String c r =>
      if Ascii.eqb c sep then EmptyString :: split sep r
      else match split sep r with
           | h :: t => String c h :: t
           | [] => [String c EmptyString]
           end
  end.

(** [sep.join(items)]. *)
Definition join (sep : string) (items : list string) : string :=
  String.concat sep items.

(** [[item.strip() for item in s.split(",") if item.strip()]]. *)
Definition comma_list (s : string) : list string :=
  map strip (filter (fun item => nonempty (strip item)) (split "," s)).

(** [x in xs] for a list or set of strings. *)
Definition mem (x : string) (xs : list string) : bool :=
  existsb (String.eqb x) xs.

(** [str(n)] for a Python [int]. *)
Definition str_int (z : Z) : string := NilZero.string_of_int (Z.to_int z).
Definition str_nat (n : nat) : string := NilZero.string_of_uint (Nat.to_uint n).

Definition digit_value (c : ascii) : Z := Z.of_nat (code c - 48).

(** The digits of an [int] literal: ASCII digits with single underscores
    between. *)
Fixpoint int_digits (acc : Z) (after_digit : bool) (s : string) : option Z :=
  match s with
  | EmptyString => if after_digit then Some acc else None
  | String c r =>
      if isdigit c then int_digits (10 * acc + digit_value c) true r
      else if Ascii.eqb c "_" then
             if after_digit then int_digits acc false r else None
      else None
  end.

(** The digit characters of [s], as [int] counts them against its limit:
    sign, underscores and surrounding white space do not count, leading
    zeros do. *)
Fixpoint digit_count (s : string) : Z :=
  match s with
  | EmptyString => 0%Z
  | String c r => ((if isdigit c then 1 else 0) + digit_count r)%Z
  end.

(** The limit of [int] on the digits of a decimal literal
    ([sys.int_info.default_max_str_digits]). *)
Definition max_str_digits : Z := 4300%Z.

(** The digits of a literal within the limit. *)
Definition checked_digits (r : string) : option Z :=
  if Z.ltb max_str_digits (digit_count r) then None
  else int_digits 0 false r.

(** [int(s)] for a [str]: [None] stands for [ValueError], which is also
    raised for a literal of more than [max_str_digits] digits. *)
Definition int_of_str (s : string) : option Z :=
  match strip s with
  | String "-"%char r => option_map Z.opp (checked_digits r)
  | String "+"%char r => checked_digits r
  | r => checked_digits r
  end.

End Text.

(* ================================================================== *)
(** * Python dictionaries: insertion-ordered, keyed by strings *)
(* ================================================================== *)

Module PyDict.

Section Dict.
Variable V : Type.

Definition t := list (string * V).

Definition empty : t := [].

(** [d.get(k)]. *)
Fixpoint get (k : string) (d : t) : option V :=
  match d with
  | [] => None
  | (k', v) :: r => if String.eqb k k' then Some v else get k r
  end.

(** [d[k] = v]: an existing key keeps its position, a new key goes last. *)
Fixpoint set (k : string) (v : V) (d : t) : t :=
  match d with
  | [] => [(k, v)]
  | (k', v') :: r =>
      if String.eqb k k' then (k', v) :: r else (k', v') :: set k v r
  end.

Definition keys (d : t) : list string := map fst d.
Definition items (d : t) : list (string * V) := d.

(** [{k: v for k, v in pairs}] and [dict(pairs)]. *)
Definition of_pairs (pairs : list (string * V)) : t :=
  fold_left (fun d kv => set (fst kv) (snd kv) d) pairs empty.
End Dict.

(** [dict.fromkeys(ks)]: every key bound to [None]. *)
Definition fromkeys (ks : list string) : t unit :=
  fold_left (fun d k => set k tt d) ks (empty unit).

End PyDict.

(* ================================================================== *)
(** * [dataset_registry.py] *)
(* ================================================================== *)

Module Column.
Record t : Type := make
  { name : string; type : string; role : string; description : option string }.
End Column.

Module Dataset.
Record t : Type := make
  { name : string;
    table : string;
    columns : list Column.t;
    related : list string;
    default_order_by : option string }.
End Dataset.

Definition DATASETS : PyDict.t Dataset.t :=
  [ ("subscribers",
     Dataset.make "subscribers" "subscribers"
       [ Column.make "user_id" "uuid" "identifier" (Some "Unique user identifier.");
         Column.make "region" "string" "category" (Some "Geographic region for the user.");
         Column.make "plan_type" "string" "category" (Some "Subscription plan type.");
         Column.make "join_date" "date" "temporal" (Some "Date the user joined.");
         Column.make "status" "string" "category" (Some "Current lifecycle status.");
         Column.make "monthly_spend" "numeric" "measure" (Some "Average monthly revenue.") ]
       ["payments"; "logins"] (Some "join_date DESC"));
    ("payments",
     Dataset.make "payments" "payments"
       [ Column.make "payment_id" "uuid" "identifier" None;
         Column.make "user_id" "uuid" "identifier" None;
         Column.make "amount" "numeric" "measure" (Some "Net payment amount in USD.");
         Column.make "currency" "string" "category" None;
         Column.make "payment_date" "date" "temporal" None;
         Column.make "status" "string" "category" None ]
       ["subscribers"] (Some "payment_date DESC"));
    ("logins",
     Dataset.make "logins" "logins"
       [ Column.make "user_id" "uuid" "identifier" None;
         Column.make "login_date" "date" "temporal" None;
         Column.make "login_count" "numeric" "measure" None;
         Column.make "device_type" "string" "category" None;
         Column.make "region" "string" "category" None;
         Column.make "plan_type" "string" "category" None ]
       ["subscribers"] (Some "login_date DESC"));
    ("tickets",
     Dataset.make "tickets" "tickets"
       [ Column.make "ticket_id" "uuid" "identifier" None;
         Column.make "user_id" "uuid" "identifier" None;
         Column.make "opened_at" "timestamp" "temporal" None;
         Column.make "resolved_at" "timestamp" "temporal" None;
         Column.make "category" "string" "category" None;
         Column.make "severity" "string" "category" None;
         Column.make "status" "string" "category" None;
         Column.make "response_time_hours" "numeric" "measure" None ]
       ["subscribers"; "business_units"] (Some "opened_at DESC"));
    ("business_units",
     Dataset.make "business_units" "business_units"
       [ Column.make "unit_id" "uuid" "identifier" None;
         Column.make "unit_name" "string" "category" None;
         Column.make "region" "string" "category" None;
         Column.make "revenue" "numeric" "measure" None;
         Column.make "headcount" "numeric" "measure" None ]
       ["tickets"; "payments"] (Some "revenue DESC")) ].

(** [sorted] on a list of strings (code-point order). *)
Fixpoint insert_sorted (x : string) (xs : list string) : list string :=
  match xs with
  | [] => [x]
  | y :: r => if String.leb x y then x :: xs else y :: insert_sorted x r
  end.

Definition sorted (xs : list string) : list string :=
  fold_right insert_sorted [] xs.

Definition list_datasets : list string := sorted (PyDict.keys DATASETS).

(* ================================================================== *)
(** * Exceptions and the state monad *)
(* ================================================================== *)

Inductive exn_class : Type := ValueError | RuntimeError | OtherError.

Record exn : Type := Exn { exn_cls : exn_class; exn_msg : string }.

Inductive outcome (A : Type) : Type :=
| Ok (a : A)
| Raise (e : exn).
Arguments Ok {A} a.
Arguments Raise {A} e.

(** A computation over a mutable state [S]: the second component is the
    state at the point where the computation returned or raised. *)
Definition M (S A : Type) : Type := S -> outcome A * S.

Definition ret {S A} (a : A) : M S A := fun s => (Ok a, s).

Definition bind {S A B} (m : M S A) (k : A -> M S B) : M S B :=
  fun s => match m s with
           | (Ok a, s') => k a s'
           | (Raise e, s') => (Raise e, s')
           end.

Definition raise {S A} (cls : exn_class) (msg : string) : M S A :=
  fun s => (Raise (Exn cls msg), s).

Definition get_state {S} : M S S := fun s => (Ok s, s).
Definition modify {S} (f : S -> S) : M S unit := fun s => (Ok tt, f s).

(** A value or an exception computed without touching the state. *)
Definition lift_outcome {S A} (o : outcome A) : M S A := fun s => (o, s).

(** [try: m except ValueError as exc: handler(str(exc))]. *)
Definition try_ValueError {S A} (m : M S A) (handler : string -> M S A) : M S A :=
  fun s => match m s with
           | (Raise (Exn ValueError msg), s') => handler msg s'
           | r => r
           end.

Declare Scope monad_scope.
Delimit Scope monad_scope with monad.
Notation "x <- c1 ;; c2" := (bind c1 (fun x => c2))
  (at level 61, c1 at next level, right associativity) : monad_scope.
Notation "c1 ;; c2" := (bind c1 (fun _ => c2))
  (at level 61, right associativity) : monad_scope.
Open Scope monad_scope.

(** [get_dataset]: the [KeyError] of the lookup is turned into [ValueError]. *)
Definition get_dataset (name : string) : outcome Dataset.t :=
  match PyDict.get name DATASETS with
  | Some dataset => Ok dataset
  | None => Raise (Exn ValueError ("Unknown dataset '" ++ name ++ "'."))
  end.

(* ================================================================== *)
(** * [data_agent.py] *)
(* ================================================================== *)

(** Python [float]: the values, [float(s)] on a [str] ([None] stands for
    [ValueError]) and [str(f)]. *)
Class PyFloat : Type :=
  { float : Type;
    float_of_str : string -> option float;
    str_float : float -> string }.

Module MeasureSpec.
Record t : Type := make { column : string; aggregation : string; alias : string }.
End MeasureSpec.

(** The dictionary stored in [AgentState.visualization] once a chart is set;
    the key ["options"] is present only when options were given. *)
Module VizSpec.
Record t : Type := make
  { chart_type : string;
    x_fields : list string;
    y_measures : list string;
    breakdowns : list string;
    options : option (PyDict.t string) }.
End VizSpec.

Section Agent.
Context {F : PyFloat}.

(** The items a filter value is made of: [str | int | float]. *)
Inductive scalar : Type :=
| SStr (s : string)
| SInt (z : Z)
| SFloat (f : float).

(** [FilterValue = Tuple[str, ...] | str | float | int]. A range and a set
    of values are both stored as a tuple. *)
Inductive FilterValue : Type :=
| VTuple (items : list scalar)
| VScalar (v : scalar).

(** [str(v)], as used by f-string interpolation. *)
Definition py_str (v : scalar) : string :=
  match v with
  | SStr s => s
  | SInt z => Text.str_int z
  | SFloat f => str_float f
  end.

(** [AgentState]; [visualization = None] is the empty dictionary. *)
Record AgentState : Type := mkAgentState
  { dataset : option Dataset.t;
    filters : PyDict.t FilterValue;
    visualization : option VizSpec.t;
    dimensions : list string;
    measure_specs : list MeasureSpec.t }.

(** [AgentState()]. *)
Definition new_state : AgentState := mkAgentState None [] None [] [].

Definition set_dataset (d : option Dataset.t) (s : AgentState) : AgentState :=
  mkAgentState d (filters s) (visualization s) (dimensions s) (measure_specs s).
Definition set_filters (f : PyDict.t FilterValue) (s : AgentState) : AgentState :=
  mkAgentState (dataset s) f (visualization s) (dimensions s) (measure_specs s).
Definition set_viz (v : option VizSpec.t) (s : AgentState) : AgentState :=
  mkAgentState (dataset s) (filters s) v (dimensions s) (measure_specs s).
Definition set_dimensions (d : list string) (s : AgentState) : AgentState :=
  mkAgentState (dataset s) (filters s) (visualization s) d (measure_specs s).
Definition set_measure_specs (m : list MeasureSpec.t) (s : AgentState) : AgentState :=
  mkAgentState (dataset s) (filters s) (visualization s) (dimensions s) m.

(** [AgentState.reset]. *)
Definition reset : M AgentState unit :=
  modify (set_dataset None) ;;
  modify (set_filters []) ;;
  modify (set_viz None) ;;
  modify (set_dimensions []) ;;
  modify (set_measure_specs []).

Definition _require_dataset : M AgentState Dataset.t :=
  s <- get_state ;;
  match dataset s with
  | Some d => ret d
  | None =>
      raise RuntimeError "A dataset must be selected before performing this operation."
  end.

Definition get_domain_options : list string := list_datasets.

Definition select_dataset (dataset_name : string) : M AgentState Dataset.t :=
  dataset <- lift_outcome (get_dataset dataset_name) ;;
  modify (set_dataset (Some dataset)) ;;
  modify (set_filters []) ;;
  modify (set_viz None) ;;
  modify (set_dimensions []) ;;
  modify (set_measure_specs []) ;;
  ret dataset.

(** [{column.name for column in dataset.columns}]. *)
Definition column_names (d : Dataset.t) : list string :=
  map Column.name (Dataset.columns d).

Definition suggest_filters : M AgentState (list string) :=
  dataset <- _require_dataset ;;
  ret (flat_map
         (fun column =>
            if String.eqb (Column.role column) "temporal"
            then ["Filter by " ++ Column.name column ++ " date range"]
            else if String.eqb (Column.role column) "category"
            then ["Filter by " ++ Column.name column ++ " category"]
            else if String.eqb (Column.role column) "measure"
            then ["Filter by " ++ Column.name column ++ " numeric range"]
            else [])
         (Dataset.columns dataset)).

Definition add_filter (column_name : string) (value : FilterValue)
  : M AgentState unit :=
  dataset <- _require_dataset ;;
  let column_names := column_names dataset in
  if negb (Text.mem column_name column_names)
  then raise ValueError
         ("Column '" ++ column_name ++ "' is not available on dataset '"
          ++ Dataset.name dataset ++ "'.")
  else modify (fun s => set_filters (PyDict.set column_name value (filters s)) s).

(** One iteration of the loop of [build_where_clause]. *)
Definition where_conjunct (column : string) (value : FilterValue) : string :=
  match value with
  | VTuple items =>
      match items with
      | [v0; v1] =>
          column ++ " BETWEEN '" ++ py_str v0 ++ "' AND '" ++ py_str v1 ++ "'"
      | _ =>
          let quoted :=
            Text.join ", " (map (fun item => "'" ++ py_str item ++ "'") items) in
          column ++ " IN (" ++ quoted ++ ")"
      end
  | VScalar (SStr v) => column ++ " = '" ++ v ++ "'"
  | VScalar v => column ++ " = " ++ py_str v
  end.

Definition build_where_clause (s : AgentState) : string :=
  match filters s with
  | [] => ""
  | _ =>
      let clauses :=
        map (fun kv => where_conjunct (fst kv) (snd kv)) (PyDict.items (filters s)) in
      " WHERE " ++ Text.join " AND " clauses
  end.

Definition build_sql_query (limit : Z) : M AgentState string :=
  dataset <- _require_dataset ;;
  s <- get_state ;;
  let where_clause := build_where_clause s in
  match measure_specs s with
  | _ :: _ =>
      let select_parts :=
        app (dimensions s)
          (map (fun spec =>
                  MeasureSpec.aggregation spec ++ "(" ++ MeasureSpec.column spec
                  ++ ") AS " ++ MeasureSpec.alias spec)
               (measure_specs s)) in
      let select_clause :=
        match select_parts with [] => "*" | _ => Text.join ", " select_parts end in
      let group_clause :=
        match dimensions s with
        | [] => ""
        | _ => " GROUP BY " ++ Text.join ", " (dimensions s)
        end in
      let order_clause :=
        match dimensions s with
        | [] => ""
        | _ => " ORDER BY " ++ Text.join ", " (dimensions s)
        end in
      ret ("SELECT " ++ select_clause ++ " FROM " ++ Dataset.table dataset
           ++ where_clause ++ group_clause ++ order_clause
           ++ " LIMIT " ++ Text.str_int limit ++ ";")
  | [] =>
      let order_clause :=
        match Dataset.default_order_by dataset with
        | Some o => if Text.nonempty o then " ORDER BY " ++ o else ""
        | None => ""
        end in
      ret ("SELECT * FROM " ++ Dataset.table dataset ++ where_clause
           ++ order_clause ++ " LIMIT " ++ Text.str_int limit ++ ";")
  end.

Definition suggest_enrichments : M AgentState (list string) :=
  dataset <- _require_dataset ;;
  ret (map (fun related => "Compare with " ++ related) (Dataset.related dataset)).

(** The [while alias in existing_aliases] loop of [set_visualization];
    [fuel] bounds the number of tests of the loop condition. *)
Fixpoint while_alias (fuel : nat) (alias_base alias : string) (counter : nat)
    (existing_aliases : list string) : option string :=
  match fuel with
  | O => None
  | S fuel' =>
      if Text.mem alias existing_aliases
      then while_alias fuel' alias_base
             (alias_base ++ "_" ++ Text.str_nat counter) (S counter)
             existing_aliases
      else Some alias
  end.

(** The alias chosen for [alias_base]: the loop started at [counter = 2],
    with one more test than there are existing aliases (which is always
    enough, see [while_alias_terminates]). *)
Definition resolve_alias (alias_base : string) (existing_aliases : list string)
  : string :=
  match while_alias (S (length existing_aliases)) alias_base alias_base 2
          existing_aliases with
  | Some alias => alias
  | None => alias_base
  end.

Definition allowed_aggs : list string := ["sum"; "avg"; "count"; "min"; "max"].

(** [agg, column] of one y-measure token. *)
Definition split_measure (raw : string) : string * string :=
  match Text.split_once ":" raw with
  | Some (a, c) => (Text.strip a, Text.strip c)
  | None => ("sum", Text.strip raw)
  end.

(** The [for raw in y_measures] loop of [set_visualization], with its two
    local accumulators. *)
Fixpoint measure_loop (dataset : Dataset.t) (allowed_columns : list string)
    (y_measures : list string) (measure_specs : list MeasureSpec.t)
    (existing_aliases : list string) : outcome (list MeasureSpec.t) :=
  match y_measures with
  | [] => Ok measure_specs
  | raw :: rest =>
      let '(agg, column) := split_measure raw in
      if negb (Text.mem column allowed_columns)
      then Raise (Exn ValueError
                    ("Column '" ++ column ++ "' is not available on dataset '"
                     ++ Dataset.name dataset ++ "'."))
      else
        let agg_lower := Text.lower agg in
        if negb (Text.mem agg_lower allowed_aggs)
        then Raise (Exn ValueError
                      "Aggregation must be one of 'sum', 'avg', 'count', 'min', or 'max'.")
        else
          let alias_base := agg_lower ++ "_" ++ column in
          let alias := resolve_alias alias_base existing_aliases in
          measure_loop dataset allowed_columns rest
            (app measure_specs [MeasureSpec.make column (Text.upper agg_lower) alias])
            (alias :: existing_aliases)
  end.

(** [if options:] on an [Optional[Dict]]. *)
Definition truthy_options (options : option (PyDict.t string)) : bool :=
  match options with
  | Some (_ :: _) => true
  | _ => false
  end.

Definition set_visualization (chart_type : string) (x_fields y_measures : list string)
    (breakdowns : option (list string)) (options : option (PyDict.t string))
  : M AgentState VizSpec.t :=
  dataset <- _require_dataset ;;
  let allowed_columns := column_names dataset in
  match x_fields, y_measures with
  | [], _ =>
      raise ValueError "At least one dimension must be provided for the X axis."
  | _, [] =>
      raise ValueError
        "Specify at least one measure for the Y axis (e.g. 'sum:monthly_spend')."
  | _, _ =>
      let invalid_dims :=
        filter (fun column => negb (Text.mem column allowed_columns)) x_fields in
      match invalid_dims with
      | _ :: _ =>
          raise ValueError
            ("Unknown dimension columns: " ++ Text.join ", " invalid_dims
             ++ " on dataset '" ++ Dataset.name dataset ++ "'.")
      | [] =>
          let breakdowns := match breakdowns with Some (b :: r) => b :: r | _ => [] end in
          let invalid_breakdowns :=
            filter (fun column => negb (Text.mem column allowed_columns)) breakdowns in
          match invalid_breakdowns with
          | _ :: _ =>
              raise ValueError
                ("Unknown breakdown columns: " ++ Text.join ", " invalid_breakdowns
                 ++ " on dataset '" ++ Dataset.name dataset ++ "'.")
          | [] =>
              measure_specs <-
                lift_outcome (measure_loop dataset allowed_columns y_measures [] []) ;;
              let merged_dimensions :=
                PyDict.keys (PyDict.fromkeys (app x_fields breakdowns)) in
              let spec :=
                VizSpec.make chart_type x_fields
                  (map MeasureSpec.alias measure_specs) breakdowns
                  (if truthy_options options then options else None) in
              modify (set_viz (Some spec)) ;;
              modify (set_dimensions merged_dimensions) ;;
              modify (set_measure_specs measure_specs) ;;
              ret spec
          end
      end
  end.

(** The dictionary returned by [describe_state]. *)
Record StateDescription : Type := mkDescription
  { d_dataset : string;
    d_filters : PyDict.t FilterValue;
    d_visualization : option VizSpec.t;
    d_dimensions : list string;
    d_metrics : list MeasureSpec.t;
    d_sql : string }.

Definition describe_state : M AgentState StateDescription :=
  dataset <- _require_dataset ;;
  s <- get_state ;;
  sql <- build_sql_query 100 ;;
  ret (mkDescription (Dataset.name dataset) (filters s) (visualization s)
         (dimensions s) (measure_specs s) sql).

End Agent.

(* ================================================================== *)
(** * Regular expressions of [chatbot.py] *)
(* ================================================================== *)

Module Re.
Import Text.

(** The longest prefix of [s] whose characters satisfy [p], and the rest:
    a greedy [p*] followed by something that cannot start with [p]. *)
Fixpoint span (p : ascii -> bool) (s : string) : string * string :=
  match s with
  | EmptyString => (EmptyString, EmptyString)
  | String c r =>
      if p c then let '(a, b) := span p r in (String c a, b)
      else (EmptyString, s)
  end.

Definition nonspace (c : ascii) : bool := negb (isspace c).

(** [[a-z_]]. *)
Definition iskey (c : ascii) : bool := islower c || Ascii.eqb c "_".

(** [[a-z0-9_]]. *)
Definition istoken (c : ascii) : bool := islower c || isdigit c || Ascii.eqb c "_".

(** [[a-zA-Z_]] (the same class under [re.IGNORECASE]). *)
Definition isident_start (c : ascii) : bool :=
  islower c || isupper c || Ascii.eqb c "_".

(** A literal of lower-case letters matched under [re.IGNORECASE]:
    the rest of [s] after the literal. *)
Fixpoint literal_ci (lit s : string) : option string :=
  match lit, s with
  | EmptyString, _ => Some s
  | String l lit', String c r =>
      if Ascii.eqb (lower_char c) l then literal_ci lit' r else None
  | String _ _, EmptyString => None
  end.

(** [p+] greedy: a non-empty longest prefix. *)
Definition plus (p : ascii -> bool) (s : string) : option (string * string) :=
  match span p s with
  | (EmptyString, _) => None
  | (a, b) => Some (a, b)
  end.

(** One match of [([a-z_]+)\s*=\s*([^\s]+)] anchored at the start of [s]:
    the two groups and the text after the match. Each quantifier is greedy
    and is followed by a character outside its class, so no shorter
    repetition can match. *)
Definition match_kv (s : string) : option (string * string * string) :=
  match plus iskey s with
  | None => None
  | Some (key, r1) =>
      match snd (span isspace r1) with
      | String "="%char r2 =>
          match plus nonspace (snd (span isspace r2)) with
          | Some (value, r3) => Some (key, value, r3)
          | None => None
          end
      | _ => None
      end
  end.

(** [re.findall] for the pattern of [match_kv]: matches are searched from
    left to right and do not overlap; [skip] counts the characters of the
    current match that are still to be passed over. The white space of the
    pattern is that of [isspace], so this is [re.findall] on ASCII text. *)
Fixpoint findall_kv_from (skip : nat) (s : string) : list (string * string) :=
  match s with
  | EmptyString => []
  | String _ r =>
      match skip with
      | S k => findall_kv_from k r
      | O =>
          match match_kv s with
          | Some (key, value, rest) =>
              (key, value) :: findall_kv_from (String.length r - String.length rest) r
          | None => findall_kv_from 0 r
          end
      end
  end.

Definition findall_kv (s : string) : list (string * string) :=
  findall_kv_from 0 s.

(** One match of [between_pattern] anchored at the start of [s]: a column
    (a letter or underscore, then word characters), white space, the word
    between, white space, a start token without white space, white space,
    the word and, white space, an end token without white space; the two
    words are matched under [re.IGNORECASE]. *)
Definition match_between (s : string) : option (string * string * string) :=
  match s with
  | EmptyString => None
  | String c _ =>
      if negb (isident_start c) then None
      else
        let '(column, r1) := span isword s in
        match plus isspace r1 with
        | None => None
        | Some (_, r2) =>
        match literal_ci "between" r2 with
        | None => None
        | Some r3 =>
        match plus isspace r3 with
        | None => None
        | Some (_, r4) =>
        match plus nonspace r4 with
        | None => None
        | Some (start, r5) =>
        match plus isspace r5 with
        | None => None
        | Some (_, r6) =>
        match literal_ci "and" r6 with
        | None => None
        | Some r7 =>
        match plus isspace r7 with
        | None => None
        | Some (_, r8) =>
        match plus nonspace r8 with
        | None => None
        | Some (end_, _) => Some (column, start, end_)
        end end end end end end end end
  end.

(** [between_pattern.search(text)]: the leftmost match. The classes of the
    pattern are those of [isspace] and [isword], so this is the search on
    ASCII text. *)
Fixpoint search_between (s : string) : option (string * string * string) :=
  match match_between s with
  | Some m => Some m
  | None =>
      match s with
      | EmptyString => None
      | String _ r => search_between r
      end
  end.

(** [re.split] on runs of characters outside [[a-z0-9_]]; [in_sep] tells that the previous
    character belonged to a separator. *)
Fixpoint split_tokens_from (in_sep : bool) (s : string) : list string :=
  match s with
  | EmptyString => [EmptyString]
  | String c r =>
      if istoken c then
        match split_tokens_from false r with
        | h :: t => String c h :: t
        | [] => [String c EmptyString]
        end
      else if in_sep then split_tokens_from true r
      else EmptyString :: split_tokens_from true r
  end.

Definition split_tokens (s : string) : list string := split_tokens_from false s.

End Re.

(* ================================================================== *)
(** * [chatbot.py] *)
(* ================================================================== *)

Inductive ConversationStage : Type :=
| GREETING | DATASET | FILTERS | VISUALISATION | SUMMARY | ADJUST.

(** One entry of the [measures] argument of [render_chart]. *)
Module MeasureView.
Record t : Type := make
  { alias : string; label : string; column : string; aggregation : string }.
End MeasureView.

(** The collaborators of the dialogue: [database.execute_query] and
    [visualization.render_chart], either of which may raise. *)
Class Collaborators : Type :=
  { rows : Type;
    path : Type;
    execute_query : string -> outcome rows;
    render_chart :
      rows -> string -> list string -> list string -> list MeasureView.t ->
      outcome (option path) }.

(** [str.title] on ASCII: a letter is upper-cased unless it follows a letter. *)
Fixpoint title_from (after_letter : bool) (s : string) : string :=
  match s with
  | EmptyString => EmptyString
  | String c r =>
      let letter := Text.isupper c || Text.islower c in
      String (if after_letter then Text.lower_char c else Text.upper_char c)
             (title_from letter r)
  end.

Definition title (s : string) : string := title_from false s.

(** [MeasureSpec.label]. *)
Definition label (spec : MeasureSpec.t) : string :=
  title (MeasureSpec.aggregation spec) ++ " of " ++ MeasureSpec.column spec.

Section Chat.
Context {F : PyFloat} {C : Collaborators}.

Record ConversationContext : Type := mkContext
  { agent : AgentState;
    stage : ConversationStage;
    chart_path : option path }.

(** [ConversationContext()]. *)
Definition new_context : ConversationContext := mkContext new_state GREETING None.

Definition set_agent (a : AgentState) (c : ConversationContext) :=
  mkContext a (stage c) (chart_path c).
Definition set_stage (st : ConversationStage) (c : ConversationContext) :=
  mkContext (agent c) st (chart_path c).
Definition set_chart_path (p : option path) (c : ConversationContext) :=
  mkContext (agent c) (stage c) p.

(** A call [self.context.agent.m(...)]. *)
Definition with_agent {A} (m : M AgentState A) : M ConversationContext A :=
  fun c => let '(r, a) := m (agent c) in (r, set_agent a c).

(** How the summary reports on the chart. *)
Inductive chart_info : Type :=
| RenderFailed (render_error : string)
| ChartSaved (p : path)
| NoChart.

(** The data interpolated into the text of [_summarise_results]; the
    layout of the text itself ([_format_preview], the repr of the
    visualization dictionary) is not modelled. *)
Record summary_data : Type := mkSummary
  { sm_summary : StateDescription;
    sm_rows : rows;
    sm_chart : chart_info }.

(** The response of one turn. A message of plain text is given in full;
    for a message that formats filter values, rows or paths, the
    constructor names the message and carries the interpolated data. *)
Inductive reply : Type :=
| Text (s : string)
| Greeting (options : string)
| DatasetChosen (dataset_name : string) (suggestions enrichment : list string)
| FilterAdded (column : string) (filters : PyDict.t FilterValue)
| Summary (d : summary_data)
| FilterAddedSummary (column : string) (d : summary_data)
| CurrentFilters (filters : PyDict.t FilterValue)
| LatestChart (p : path).

Import Text.

Definition filter_usage_hint : string :=
  "I didn't understand that filter." ++ nl ++
  "Use `column=value`, `column=value1,value2`, or `column between start and end`."
  ++ nl ++ "Type 'done' when finished.".

Definition visualisation_usage_hint : string :=
  "Let's describe the chart. Use `chart=bar x=region,plan_type y=sum:monthly_spend,avg:login_count"
  ++ " breakdowns=status`." ++ nl ++
  "Available chart types: bar, line, pie, heatmap, custom.".

Definition filter_tweak_hint : string :=
  "I couldn't understand that filter tweak. Use `filter column=value` or"
  ++ " `filter column between start and end`.".

Definition adjust_hint : string :=
  "You can tweak the chart with commands like `chart=bar x=region y=sum:monthly_spend`."
  ++ nl ++ "Use `filter column=value` to refine data, `refresh` to regenerate,"
  ++ " or 'restart' to begin again.".

Definition _help_message : string :=
  "Workflow overview:" ++ nl ++
  "1. Pick a dataset by typing its name." ++ nl ++
  "2. Add filters using `column=value` or `column between start and end`." ++ nl ++
  "3. Type 'done' to design a chart with commands like `chart=bar x=region,plan_type"
  ++ " y=sum:monthly_spend`." ++ nl ++
  "4. Review the summary, open the generated chart image, and tweak using `chart=...`,"
  ++ " `filter ...`, or `refresh`." ++ nl ++
  "Commands: 'help', 'reset', 'restart', 'quit'.".

Definition start : M ConversationContext reply :=
  modify (set_stage DATASET) ;;
  ret (Greeting (join ", " get_domain_options)).

(** [_match_dataset]. *)
Definition _match_dataset (text : string) : option string :=
  let options :=
    PyDict.of_pairs (map (fun name => (lower name, name)) get_domain_options) in
  let words := Re.split_tokens (lower text) in
  match find (fun word => mem word (PyDict.keys options)) words with
  | Some word => PyDict.get word options
  | None => PyDict.get (lower text) options
  end.

(** The value handed to [_cast_value]: a literal or a tuple of literals. *)
Inductive raw_value : Type :=
| RawStr (s : string)
| RawTuple (items : list string).

(** [_cast_value] on one literal of a resolved column. *)
Definition cast_literal (column : Column.t) (value : string) : scalar :=
  if String.eqb (Column.type column) "numeric" then
    if str_in "." value then
      match float_of_str value with
      | Some f => SFloat f
      | None => SStr value
      end
    else
      match int_of_str value with
      | Some z => SInt z
      | None => SStr value
      end
  else SStr value.

Definition _cast_value (dataset : Dataset.t) (column_name : string)
    (value : raw_value) : FilterValue :=
  match find (fun col => String.eqb (Column.name col) column_name)
          (Dataset.columns dataset) with
  | None =>
      match value with
      | RawStr s => VScalar (SStr s)
      | RawTuple items => VTuple (map SStr items)
      end
  | Some column =>
      match value with
      | RawTuple items => VTuple (map (cast_literal column) items)
      | RawStr s => VScalar (cast_literal column s)
      end
  end.

(** The item of a tuple built by [tuple(self._cast_value(...) for item in values)]. *)
Definition cast_item (dataset : Dataset.t) (column_name item : string) : scalar :=
  match _cast_value dataset column_name (RawStr item) with
  | VScalar v => v
  | VTuple _ => SStr item
  end.

Definition _parse_filter (text : string) (c : ConversationContext)
  : option (string * FilterValue) :=
  match dataset (agent c) with
  | None => None
  | Some dataset =>
      match Re.search_between text with
      | Some (column, start_, end_) =>
          Some (column, _cast_value dataset column (RawTuple [start_; end_]))
      | None =>
          let parts :=
            if str_in "=" text then split_once "=" text
            else if str_in ":" text then split_once ":" text
            else None in
          match parts with
          | None => None
          | Some (a, b) =>
              let column := strip a in
              let raw := strip b in
              match comma_list raw with
              | [] => None
              | [value] => Some (column, _cast_value dataset column (RawStr value))
              | values => Some (column, VTuple (map (cast_item dataset column) values))
              end
          end
      end
  end.

(** The keyword arguments built by [_parse_visualisation]; [breakdowns] and
    [options] are present only when non-empty. *)
Record payload : Type := mkPayload
  { p_chart_type : string;
    p_x_fields : list string;
    p_y_measures : list string;
    p_breakdowns : option (list string);
    p_options : option (PyDict.t string) }.

(** [a or b] on two results of [dict.get]: [a] when it is a non-empty string. *)
Definition get_or (a b : option string) : option string :=
  match a with
  | Some (String _ _) => a
  | _ => b
  end.

(** [not v] for an [Optional[str]]. *)
Definition falsy (v : option string) : bool :=
  match v with
  | Some (String _ _) => false
  | _ => true
  end.

Definition chart_types : list string := ["bar"; "line"; "pie"; "heatmap"; "custom"].

Definition recognised_keys : list string :=
  ["chart"; "type"; "x"; "dimensions"; "y"; "metrics"; "breakdowns"; "group_by"].

(** The part of [_parse_visualisation] that follows [re.findall]. *)
Definition payload_of_parts (parts : list (string * string)) : option payload :=
  match parts with
  | [] => None
  | _ =>
      let parameters := PyDict.of_pairs parts in
      let chart_type := get_or (PyDict.get "chart" parameters) (PyDict.get "type" parameters) in
      let x_value := get_or (PyDict.get "x" parameters) (PyDict.get "dimensions" parameters) in
      let y_value := get_or (PyDict.get "y" parameters) (PyDict.get "metrics" parameters) in
      match chart_type, x_value, y_value with
      | Some (String _ _ as chart_type), Some (String _ _ as x_value),
        Some (String _ _ as y_value) =>
          if negb (mem chart_type chart_types) then None
          else
            let x_fields := comma_list x_value in
            let y_measures := comma_list y_value in
            let breakdown_value :=
              get_or (PyDict.get "breakdowns" parameters)
                     (PyDict.get "group_by" parameters) in
            let breakdowns :=
              match breakdown_value with
              | Some (String _ _ as v) => comma_list v
              | _ => []
              end in
            let options :=
              filter (fun kv => negb (mem (fst kv) recognised_keys))
                     (PyDict.items parameters) in
            Some (mkPayload chart_type x_fields y_measures
                    (match breakdowns with [] => None | _ => Some breakdowns end)
                    (match options with [] => None | _ => Some options end))
      | _, _, _ => None
      end
  end.

Definition _parse_visualisation (text : string) : option payload :=
  payload_of_parts (Re.findall_kv (lower text)).

Definition _visualisation_prompt (c : ConversationContext) : string :=
  let columns :=
    match dataset (agent c) with
    | Some dataset => join ", " (column_names dataset)
    | None => ""
    end in
  "Great, let's design a chart." ++ nl ++
  "Available columns: " ++ columns ++ "." ++ nl ++
  "Try something like `chart=bar x=region,plan_type y=sum:monthly_spend,avg:login_count"
  ++ " breakdowns=status`." ++ nl ++
  "You can also set options such as `style=stacked`.".

(** [_summarise_results]: the summary data of the turn; the last statement
    before the text is composed moves the stage to [ADJUST]. *)
Definition _summarise_results : M ConversationContext summary_data :=
  summary <- with_agent describe_state ;;
  let sql := d_sql summary in
  rows <- lift_outcome (execute_query sql) ;;
  let viz := d_visualization summary in
  c <- get_state ;;
  let measure_specs :=
    map (fun spec =>
           MeasureView.make (MeasureSpec.alias spec) (label spec)
             (MeasureSpec.column spec) (MeasureSpec.aggregation spec))
        (measure_specs (agent c)) in
  let rendered :=
    render_chart rows
      (match viz with Some v => VizSpec.chart_type v | None => "bar" end)
      (match viz with Some v => VizSpec.x_fields v | None => [] end)
      (match viz with Some v => VizSpec.breakdowns v | None => [] end)
      measure_specs in
  let '(chart_path, render_error) :=
    match rendered with
    | Ok p => (p, None)
    | Raise e => (None, Some (exn_msg e))
    end in
  info <-
    match render_error, chart_path with
    | Some (String _ _ as msg), _ =>
        modify (set_chart_path None) ;; ret (RenderFailed msg)
    | _, Some p =>
        modify (set_chart_path (Some p)) ;; ret (ChartSaved p)
    | _, None =>
        modify (set_chart_path None) ;; ret NoChart
    end ;;
  modify (set_stage ADJUST) ;;
  ret (mkSummary summary rows info).

Definition _handle_dataset_selection (text : string) : M ConversationContext reply :=
  match _match_dataset text with
  | Some (String _ _ as dataset_name) =>
      dataset <- with_agent (select_dataset dataset_name) ;;
      modify (set_stage FILTERS) ;;
      suggestions <- with_agent suggest_filters ;;
      enrichment <- with_agent suggest_enrichments ;;
      ret (DatasetChosen (Dataset.name dataset) suggestions enrichment)
  | _ =>
      let options := join ", " get_domain_options in
      ret (Text ("I couldn't find that dataset." ++ nl ++
                 "Available options: " ++ options ++ "." ++ nl ++
                 "Please type one of the dataset names."))
  end.

Definition _handle_filtering (text : string) : M ConversationContext reply :=
  let lowered := lower text in
  if mem lowered ["done"; "next"; "visual"] then
    modify (set_stage VISUALISATION) ;;
    c <- get_state ;;
    ret (Text (_visualisation_prompt c))
  else
    c <- get_state ;;
    match _parse_filter text c with
    | None => ret (Text filter_usage_hint)
    | Some (column, value) =>
        failure <-
          try_ValueError
            (with_agent (add_filter column value) ;; ret None)
            (fun msg => ret (Some msg)) ;;
        match failure with
        | Some msg => ret (Text msg)
        | None =>
            c' <- get_state ;;
            ret (FilterAdded column (filters (agent c')))
        end
    end.

Definition _handle_visualisation (text : string) : M ConversationContext reply :=
  match _parse_visualisation text with
  | None => ret (Text visualisation_usage_hint)
  | Some parsed =>
      failure <-
        try_ValueError
          (with_agent
             (set_visualization (p_chart_type parsed) (p_x_fields parsed)
                (p_y_measures parsed) (p_breakdowns parsed) (p_options parsed)) ;;
           ret None)
          (fun msg => ret (Some msg)) ;;
      match failure with
      | Some msg => ret (Text msg)
      | None =>
          modify (set_stage SUMMARY) ;;
          d <- _summarise_results ;;
          ret (Summary d)
      end
  end.

Definition visualisation_tokens : list string :=
  ["chart="; "x="; "y="; "metrics="; "dimensions="; "breakdowns="].

Definition _handle_adjustment (text : string) : M ConversationContext reply :=
  let lowered := lower text in
  if mem lowered ["again"; "restart"; "reset"; "new"] then
    modify (fun _ => new_context) ;; start
  else if mem lowered ["refresh"; "show"; "show chart"; "render"; "update"] then
    d <- _summarise_results ;; ret (Summary d)
  else if existsb (fun token => str_in token lowered) visualisation_tokens then
    modify (set_stage VISUALISATION) ;;
    _handle_visualisation text
  else if startswith "filter " lowered then
    match split_once " " text with
    | None => raise OtherError "list index out of range"
    | Some (_, filter_text) =>
        c <- get_state ;;
        match _parse_filter filter_text c with
        | None => ret (Text filter_tweak_hint)
        | Some (column, value) =>
            failure <-
              try_ValueError
                (with_agent (add_filter column value) ;; ret None)
                (fun msg => ret (Some msg)) ;;
            match failure with
            | Some msg => ret (Text msg)
            | None => d <- _summarise_results ;; ret (FilterAddedSummary column d)
            end
        end
    end
  else if String.eqb lowered "filters" then
    c <- get_state ;;
    ret (CurrentFilters (filters (agent c)))
  else if String.eqb lowered "chart" then
    c <- get_state ;;
    match chart_path c with
    | None => ret (Text "No chart has been generated yet. Try `refresh` first.")
    | Some p => ret (LatestChart p)
    end
  else ret (Text adjust_hint).

Definition _handle_summary_follow_up (text : string) : M ConversationContext reply :=
  let lowered := lower text in
  if mem lowered ["again"; "restart"; "reset"; "new"] then
    modify (fun _ => new_context) ;; start
  else _handle_adjustment text.

Definition handle_input (message : string) : M ConversationContext reply :=
  let text := strip message in
  if negb (nonempty text) then ret (Text "I didn't catch that. Please type something.")
  else
    let lowered := lower text in
    if mem lowered ["quit"; "exit"] then ret (Text "Goodbye!")
    else if mem lowered ["help"; "?"] then ret (Text _help_message)
    else if mem lowered ["reset"; "restart"] then
      modify (fun _ => new_context) ;; start
    else
      c <- get_state ;;
      match stage c with
      | DATASET => _handle_dataset_selection text
      | FILTERS => _handle_filtering text
      | VISUALISATION => _handle_visualisation text
      | SUMMARY => _handle_summary_follow_up text
      | ADJUST => _handle_adjustment text
      | GREETING => ret (Text "Let's begin by choosing a dataset.")
      end.

End Chat.

(* ================================================================== *)
(** * Definitions for the statements: the specification's side *)
(* ================================================================== *)

(** An interpreter of the [PyFloat] interface in which no literal is a
    float; it serves the examples, none of which contains a float literal. *)
Definition FloatFree : PyFloat :=
  {| float := Empty_set;
     float_of_str := fun _ => None;
     str_float := fun f => match f with end |}.

(** Collaborators for the examples: a backend that answers every query
    with the same result and a renderer that has nothing to render. *)
Definition ConstantBackend : Collaborators :=
  {| rows := unit;
     path := string;
     execute_query := fun _ => Ok tt;
     render_chart := fun _ _ _ _ _ => Ok None |}.

Section SpecSide.
Context {F : PyFloat}.

(** The filter value of the specification: a tagged union. *)
Inductive SpecFilterValue : Type :=
| Scalar (v : scalar)
| Range (start_ end_ : scalar)
| SetOf (values : list scalar).

(** How the code stores a value of the specification: [_parse_filter]
    builds a tuple both for a range and for a list of values. *)
Definition stored (v : SpecFilterValue) : FilterValue :=
  match v with
  | Scalar v => VScalar v
  | Range s e => VTuple [s; e]
  | SetOf vs => VTuple vs
  end.

(** The conjunct the specification assigns to a filter. *)
Definition spec_conjunct (col : string) (v : SpecFilterValue) : string :=
  match v with
  | Range s e => col ++ " BETWEEN '" ++ py_str s ++ "' AND '" ++ py_str e ++ "'"
  | SetOf vs =>
      col ++ " IN (" ++ Text.join ", " (map (fun v => "'" ++ py_str v ++ "'") vs) ++ ")"
  | Scalar (SStr v) => col ++ " = '" ++ v ++ "'"
  | Scalar v => col ++ " = " ++ py_str v
  end.

(** The WHERE clause of the specification for a non-empty filter mapping. *)
Definition spec_where (fs : list (string * SpecFilterValue)) : string :=
  " WHERE " ++ Text.join " AND " (map (fun kv => spec_conjunct (fst kv) (snd kv)) fs).

(** A set value of exactly two elements. *)
Definition two_valued (v : SpecFilterValue) : bool :=
  match v with
  | SetOf [_; _] => true
  | _ => false
  end.

(** Deduplication by first occurrence: an element is kept unless it was
    seen before. *)
Fixpoint keep_first (seen l : list string) : list string :=
  match l with
  | [] => []
  | x :: r =>
      if Text.mem x seen then keep_first seen r
      else x :: keep_first (seen ++ [x]) r
  end.

Definition dedup_first (l : list string) : list string := keep_first [] l.

(** The candidate aliases of a base name, in the order in which the loop of
    [set_visualization] tries them: the base itself, then the base with the
    suffixes [_2], [_3], ... *)
Definition candidate (alias_base : string) (i : nat) : string :=
  match i with
  | O => alias_base
  | S _ => alias_base ++ "_" ++ Text.str_nat (S i)
  end.

(** [alias] is the first candidate of [alias_base] that is not in [taken]. *)
Definition first_free (alias_base : string) (taken : list string) (alias : string)
  : Prop :=
  exists i, alias = candidate alias_base i /\ ~ In alias taken /\
            forall j, j < i -> In (candidate alias_base j) taken.

(** The default alias of a y-measure token. *)
Definition default_alias (raw : string) : string :=
  Text.lower (fst (split_measure raw)) ++ "_" ++ snd (split_measure raw).

(** The aliases of [specs] resolve the tokens [raws] in encounter order:
    each is the first candidate of its default alias not used before. *)
Fixpoint resolved (raws : list string) (taken : list string)
    (aliases : list string) : Prop :=
  match raws, aliases with
  | [], [] => True
  | raw :: raws', a :: aliases' =>
      first_free (default_alias raw) taken a /\ resolved raws' (a :: taken) aliases'
  | _, _ => False
  end.

Definition aliases (s : AgentState) : list string :=
  map MeasureSpec.alias (measure_specs s).

(** The invariant of the filter mapping: keys are unique and, when a
    dataset is active, every key names one of its columns. *)
Definition filters_ok (s : AgentState) : Prop :=
  NoDup (PyDict.keys (filters s)) /\
  forall d, dataset s = Some d ->
            forall k, In k (PyDict.keys (filters s)) -> In k (column_names d).

(** The operations of the session model. *)
Inductive operation : Type :=
| OpSelectDataset (name : string)
| OpAddFilter (column : string) (value : FilterValue)
| OpSetVisualization (chart_type : string) (x_fields y_measures : list string)
    (breakdowns : option (list string)) (options : option (PyDict.t string))
| OpReset.

(** The session state after an operation, whether it returned or raised. *)
Definition state_after (op : operation) (s : AgentState) : AgentState :=
  match op with
  | OpSelectDataset name => snd (select_dataset name s)
  | OpAddFilter column value => snd (add_filter column value s)
  | OpSetVisualization ct xs ys bs os => snd (set_visualization ct xs ys bs os s)
  | OpReset => snd (reset s)
  end.

(** What an operation can do to the session state. *)
Inductive effect (s : AgentState) : AgentState -> Prop :=
| eff_none : effect s s
| eff_select d : effect s (mkAgentState (Some d) [] None [] [])
| eff_reset : effect s new_state
| eff_filter D c v :
    dataset s = Some D -> In c (column_names D) ->
    effect s (set_filters (PyDict.set c v (filters s)) s)
| eff_visualization ct xs ys bs os spec s' :
    set_visualization ct xs ys bs os s = (Ok spec, s') -> effect s s'.

End SpecSide.

(** Reading back the decimal text of a counter. *)
Definition nat_of_text (s : string) : option nat :=
  option_map Nat.of_uint (NilEmpty.uint_of_string s).

(** Weakest precondition of a computation: [Q] is to hold of the result and
    state when it returns, [E] of the exception and state when it raises. *)
Definition wp {S A} (m : M S A) (Q : A -> S -> Prop) (E : exn -> S -> Prop)
    (s : S) : Prop :=
  match m s with
  | (Ok a, s') => Q a s'
  | (Raise e, s') => E e s'
  end.

Section ChatSpecSide.
Context {F : PyFloat} {C : Collaborators}.

(** The contexts of a session: a fresh context, then [start] and turns of
    [handle_input] that return (an exception leaves [run_cli]). *)
Inductive reachable : ConversationContext -> Prop :=
| reach_new : reachable new_context
| reach_start c : reachable c -> reachable (snd (start c))
| reach_turn c message r c' :
    reachable c -> handle_input message c = (Ok r, c') -> reachable c'.


(** The turn is handed to the handler of the current stage: the input is
    not blank and is not one of the global commands. *)
Definition dispatched (message : string) : bool :=
  let lowered := Text.lower (Text.strip message) in
  Text.nonempty (Text.strip message)
  && negb (Text.mem lowered ["quit"; "exit"])
  && negb (Text.mem lowered ["help"; "?"])
  && negb (Text.mem lowered ["reset"; "restart"]).

(** The adjustment handler goes past its reset and refresh commands. *)
Definition adjusting (lowered : string) : bool :=
  negb (Text.mem lowered ["again"; "restart"; "reset"; "new"])
  && negb (Text.mem lowered ["refresh"; "show"; "show chart"; "render"; "update"]).

Definition has_visualisation_token (lowered : string) : bool :=
  existsb (fun token => Text.str_in token lowered) visualisation_tokens.




(** The value of the last pair of [parts] whose key is [k]. *)
Definition last_value (k : string) (parts : list (string * string)) : option string :=
  option_map snd (find (fun kv => String.eqb k (fst kv)) (rev parts)).

(** The value used for a setting with two synonymous keys: that of the
    first-listed key when it occurs, else that of the second. *)
Definition chosen (primary secondary : string) (parts : list (string * string))
  : option string :=
  match last_value primary parts with
  | Some v => Some v
  | None => last_value secondary parts
  end.

(** The query backend answers every statement. *)
Definition total_backend : Prop :=
  forall sql, exists r, execute_query sql = Ok r.

(** What holds when a turn lets an exception out: the backend has failed. *)
Definition backend_failed : exn -> ConversationContext -> Prop :=
  fun _ _ => ~ total_backend.

(** Past the choice of a dataset a dataset is active. *)
Definition ready (c : ConversationContext) : Prop :=
  match stage c with
  | GREETING | DATASET => True
  | _ => dataset (agent c) <> None
  end.

(** The context after a sequence of turns, whatever their outcome. *)
Definition after_turns (messages : list string) (c : ConversationContext)
  : ConversationContext :=
  fold_left (fun c message => snd (handle_input message c)) messages c.

End ChatSpecSide.

(* ================================================================== *)
(** * Definitions for further properties *)
(* ================================================================== *)

Section MoreSpecSide.
Context {F : PyFloat}.

(** The exception of an operation that needs a dataset and finds none. *)
Definition no_dataset_error : exn :=
  Exn RuntimeError "A dataset must be selected before performing this operation.".

(** A y-measure token is accepted on the columns [cols]: its column is one
    of them and its aggregation, lower-cased, is one of the five. *)
Definition valid_measure (cols : list string) (raw : string) : bool :=
  Text.mem (snd (split_measure raw)) cols
  && Text.mem (Text.lower (fst (split_measure raw))) allowed_aggs.

Definition aggregations : list string := ["SUM"; "AVG"; "COUNT"; "MIN"; "MAX"].

End MoreSpecSide.

(** Every character of [s] satisfies [p]. *)
Fixpoint all_chars (p : ascii -> bool) (s : string) : bool :=
  match s with
  | EmptyString => true
  | String c r => p c && all_chars p r
  end.

Definition is_not (x : ascii) (c : ascii) : bool := negb (Ascii.eqb c x).

(** The text is ASCII: every character is below 128. The text primitives
    of the embedding ([strip], [lower], [int], the regular expressions) are
    those of Python on such text; a statement about what is read from a
    text is made for ASCII text. *)
Definition ascii_text (s : string) : bool :=
  all_chars (fun c => Nat.ltb (Text.code c) 128) s.

(** The payload [p] follows the precedence of the keys over the pairs
    [parts]: chart type, x-fields and y-measures come from the first-listed
    key of each pair of synonyms when it occurs, else from the second, and
    every value used, also that of an option, is that of the last
    occurrence of its key. *)
Definition precedence (parts : list (string * string)) (p : payload) : Prop :=
  chosen "chart" "type" parts = Some (p_chart_type p) /\
  option_map Text.comma_list (chosen "x" "dimensions" parts) = Some (p_x_fields p) /\
  option_map Text.comma_list (chosen "y" "metrics" parts) = Some (p_y_measures p) /\
  (forall options k v,
      p_options p = Some options -> PyDict.get k options = Some v ->
      last_value k parts = Some v).

(** A token: not empty and free of white space. *)
Definition token (s : string) : bool :=
  Text.nonempty s && all_chars Re.nonspace s.

(** An item of a comma-separated list: a token without a comma. *)
Definition list_item (s : string) : bool :=
  token s && all_chars (is_not ",") s.

(** A column identifier as [between_pattern] wants it. *)
Definition identifier (s : string) : bool :=
  match s with
  | EmptyString => false
  | String c _ => Re.isident_start c && all_chars Text.isword s
  end.

(** What follows a greedy repetition of [p]: the end of the text or a
    character outside [p]. *)
Definition stops (p : ascii -> bool) (s : string) : bool :=
  match s with
  | EmptyString => true
  | String c _ => negb (p c)
  end.

(** A run of white space, not empty. *)
Definition blank (s : string) : bool :=
  Text.nonempty s && all_chars Text.isspace s.

Section FilterValueShape.
Context {F : PyFloat}.

(** A scalar that is not the empty string. *)
Definition filled (v : scalar) : Prop :=
  match v with
  | SStr s => s <> EmptyString
  | _ => True
  end.

(** The shape of the values the filter parser builds: a filled scalar or a
    tuple of at least two filled scalars. *)
Definition parsed_shape (v : FilterValue) : Prop :=
  match v with
  | VScalar x => filled x
  | VTuple items => 2 <= length items /\ Forall filled items
  end.

End FilterValueShape.

Definition not_upper (c : ascii) : bool := negb (Text.isupper c).

(** An item of a directive: a list item without upper-case letters. *)
Definition lowered_item (s : string) : bool :=
  list_item s && all_chars not_upper s.

(** A directive key: letters a-z and underscores, not empty. *)
Definition directive_key (s : string) : bool :=
  Text.nonempty s && all_chars Re.iskey s.

(** A directive as the usage hint spells it: the chart type, the x-fields,
    the y-measures and, when there are any, the breakdowns. *)
Definition directive (ct : string) (xs ys bs : list string) : string :=
  "chart=" ++ ct ++ " x=" ++ Text.join "," xs ++ " y=" ++ Text.join "," ys ++
  match bs with
  | [] => ""
  | _ => " breakdowns=" ++ Text.join "," bs
  end.

(** The moves of the stage over one turn: back to DATASET from anywhere,
    forward along dataset, filters, visualization and adjustment, and from
    the adjustment back to the visualization. *)
Definition stage_move (s s' : ConversationStage) : bool :=
  match s, s' with
  | _, DATASET => true
  | GREETING, GREETING => true
  | DATASET, FILTERS => true
  | FILTERS, (FILTERS | VISUALISATION) => true
  | VISUALISATION, (VISUALISATION | ADJUST) => true
  | SUMMARY, (SUMMARY | VISUALISATION | ADJUST) => true
  | ADJUST, (ADJUST | VISUALISATION) => true
  | _, _ => false
  end.

Section TurnEffect.
Context {F : PyFloat}.

(** What one turn in stage [st] can do to the session state: nothing, a
    reset, the selection of a dataset of the catalog, one accepted filter,
    or one accepted visualization. *)
Inductive turn_effect (st : ConversationStage) (s : AgentState)
  : AgentState -> Prop :=
| turn_none : turn_effect st s s
| turn_reset : turn_effect st s new_state
| turn_select name D :
    st = DATASET -> PyDict.get name DATASETS = Some D ->
    turn_effect st s (mkAgentState (Some D) [] None [] [])
| turn_filter D column v :
    In st [FILTERS; SUMMARY; ADJUST] ->
    dataset s = Some D -> In column (column_names D) ->
    turn_effect st s (set_filters (PyDict.set column v (filters s)) s)
| turn_visualization ct xs ys bs os spec s' :
    In st [VISUALISATION; SUMMARY; ADJUST] ->
    set_visualization ct xs ys bs os s = (Ok spec, s') ->
    turn_effect st s s'.

End TurnEffect.

Section BackendFailure.
Context {F : PyFloat} {C : Collaborators}.

(** The exception [e] is the one the query backend raised on the
    statement of the session state of [c]. *)
Definition backend_raised (e : exn) (c : ConversationContext) : Prop :=
  exists summary,
    describe_state (agent c) = (Ok summary, agent c) /\
    execute_query (d_sql summary) = Raise e.

End BackendFailure.

(** Collaborators for the examples of failure: a backend that rejects
    every statement. *)
Definition FailingBackend : Collaborators :=
  {| rows := unit;
     path := string;
     execute_query := fun _ => Raise (Exn OtherError "unable to open database file");
     render_chart := fun _ _ _ _ _ => Ok None |}.

Section SummarySide.
Context {F : PyFloat} {C : Collaborators}.

(** The summary a reply carries, if any. *)
Definition summary_of (r : reply) : option summary_data :=
  match r with
  | Summary d | FilterAddedSummary _ d => Some d
  | _ => None
  end.

(** The summary [d] describes the context [c]: its description is that of
    the session state of [c], its rows are the answer of the backend to the
    statement of that description, and the chart path of [c] is the one the
    summary reports, if it reports one. *)
Definition describes (d : summary_data) (c : ConversationContext) : Prop :=
  describe_state (agent c) = (Ok (sm_summary d), agent c) /\
  execute_query (d_sql (sm_summary d)) = Ok (sm_rows d) /\
  chart_path c = match sm_chart d with
                 | ChartSaved p => Some p
                 | _ => None
                 end /\
  stage c = ADJUST.

End SummarySide.

(* ================================================================== *)
(** * Result rows: [_format_preview] of [chatbot.py] and
      [_compose_labels] of [visualization.py] *)
(* ================================================================== *)

(** [c * n] for a one-character string [c]. *)
Fixpoint replicate (n : nat) (c : ascii) : string :=
  match n with
  | O => EmptyString
  | S k => String c (replicate k c)
  end.

(** [s.ljust(width)]. *)
Definition ljust (width : nat) (s : string) : string :=
  s ++ replicate (width - String.length s) " ".

(** [KeyError(key)] and the [IndexError] of a list. *)
Definition KeyError (key : string) : exn := Exn OtherError ("'" ++ key ++ "'").
Definition IndexError : exn := Exn OtherError "list index out of range".

(** A list comprehension whose element expression can raise. *)
Fixpoint map_outcome {A B} (f : A -> outcome B) (l : list A) : outcome (list B) :=
  match l with
  | [] => Ok []
  | x :: r =>
      match f x with
      | Raise e => Raise e
      | Ok y =>
          match map_outcome f r with
          | Raise e => Raise e
          | Ok ys => Ok (y :: ys)
          end
      end
  end.

Section ResultRows.
(** The values a result row holds other than [None], and their [str]. *)
Variable cell : Type.
Variable str_cell : cell -> string.

(** A value of a row; [None] is Python's [None]. *)
Definition value : Type := option cell.

(** [str(v)]. *)
Definition str_value (v : value) : string :=
  match v with
  | None => "None"
  | Some x => str_cell x
  end.

Definition row : Type := PyDict.t value.

(** [row[column]]. *)
Definition item (r : row) (column : string) : outcome value :=
  match PyDict.get column r with
  | Some v => Ok v
  | None => Raise (KeyError column)
  end.


(** [max(n, *ns)]. *)
Definition max_of (n : nat) (ns : list nat) : nat := fold_left Nat.max ns n.

(** The loop of [_format_preview] that fills [widths]. *)
Fixpoint column_widths (columns : list string) (truncated : list row)
    (widths : PyDict.t nat) : outcome (PyDict.t nat) :=
  match columns with
  | [] => Ok widths
  | column :: rest =>
      match map_outcome (fun r => match item r column with
                                  | Ok v => Ok (String.length (str_value v))
                                  | Raise e => Raise e
                                  end) truncated with
      | Raise e => Raise e
      | Ok cell_lengths =>
          column_widths rest truncated
            (PyDict.set column (max_of (String.length column) cell_lengths) widths)
      end
  end.

(** [widths[column]]. *)
Definition width (widths : PyDict.t nat) (column : string) : outcome nat :=
  match PyDict.get column widths with
  | Some w => Ok w
  | None => Raise (KeyError column)
  end.

(** [sep.join(text(column, widths[column]) for column in columns)] where
    [text] can raise. *)
Definition joined (sep : string) (columns : list string) (widths : PyDict.t nat)
    (text : string -> nat -> outcome string) : outcome string :=
  match map_outcome (fun column =>
                       match width widths column with
                       | Raise e => Raise e
                       | Ok w => text column w
                       end) columns with
  | Raise e => Raise e
  | Ok texts => Ok (Text.join sep texts)
  end.

(** The list [lines] of [_format_preview] for a non-empty [rows]. *)
Definition preview_lines (rows : list row) (max_rows : nat)
  : outcome (list string) :=
  let truncated := firstn max_rows rows in
  match truncated with
  | [] => Raise IndexError
  | first :: _ =>
      let columns := PyDict.keys first in
      match column_widths columns truncated [] with
      | Raise e => Raise e
      | Ok widths =>
          match joined " | " columns widths (fun column w => Ok (ljust w column)) with
          | Raise e => Raise e
          | Ok header =>
              match joined "-+-" columns widths
                      (fun _ w => Ok (replicate w "-")) with
              | Raise e => Raise e
              | Ok separator =>
                  match map_outcome
                          (fun r =>
                             joined " | " columns widths
                               (fun column w =>
                                  match item r column with
                                  | Raise e => Raise e
                                  | Ok v => Ok (ljust w (str_value v))
                                  end))
                          truncated with
                  | Raise e => Raise e
                  | Ok body =>
                      let more :=
                        if Nat.ltb max_rows (List.length rows)
                        then ["… (" ++ Text.str_nat (List.length rows - max_rows)
                              ++ " more rows)"]
                        else [] in
                      Ok (header :: separator :: app body more)
                  end
              end
          end
      end
  end.

(** [ChatSession._format_preview]. *)
Definition _format_preview (rows : list row) (max_rows : nat) : outcome string :=
  match rows with
  | [] => Ok "(no results)"
  | _ =>
      match preview_lines rows max_rows with
      | Raise e => Raise e
      | Ok lines => Ok (Text.join Text.nl lines)
      end
  end.

(** The text of the cell of [r] under [column]. *)
Definition cell_text (r : row) (column : string) : string :=
  match PyDict.get column r with
  | Some v => str_value v
  | None => EmptyString
  end.

(** The width [_format_preview] gives to [column] over the rows shown. *)
Definition shown_width (truncated : list row) (column : string) : nat :=
  max_of (String.length column)
         (map (fun r => String.length (cell_text r column)) truncated).

(** Every row holds every column. *)
Definition complete (columns : list string) (truncated : list row) : Prop :=
  forall r column, In r truncated -> In column columns ->
                   PyDict.get column r <> None.

(** The length of a line of the table: the widths of the columns and the
    three characters of a separator between two columns. *)
Definition table_width (columns : list string) (truncated : list row) : nat :=
  list_sum (map (shown_width truncated) columns) + 3 * (List.length columns - 1).


End ResultRows.

Section ChartSide.
Context {F : PyFloat}.

(** The chart settings of a session state agree with each other: without
    a visualization there are no dimensions and no measures; with one, a
    dataset is active, the dimensions are the x-fields and breakdowns of the
    visualization without repeats, its y-measures are the aliases of the
    measures, there is at least one x-field and one measure, and dimensions
    and measures name columns of the active dataset only. *)
Definition chart_consistent (s : AgentState) : Prop :=
  match visualization s with
  | None => dimensions s = [] /\ measure_specs s = []
  | Some spec =>
      dimensions s = dedup_first (VizSpec.x_fields spec ++ VizSpec.breakdowns spec)
      /\ VizSpec.y_measures spec = aliases s
      /\ VizSpec.x_fields spec <> [] /\ measure_specs s <> []
      /\ exists D,
           dataset s = Some D /\
           Forall (fun x => In x (column_names D)) (dimensions s) /\
           Forall (fun m => In (MeasureSpec.column m) (column_names D))
                  (measure_specs s)
  end.

End ChartSide.

Section StageSide.
Context {F : PyFloat} {C : Collaborators}.

(** What the stage tells about the chart: none is set while filters are
    collected, and one is set once a summary was made. *)
Definition stage_chart (c : ConversationContext) : Prop :=
  match stage c with
  | FILTERS => visualization (agent c) = None
  | SUMMARY | ADJUST => visualization (agent c) <> None
  | _ => True
  end.

End StageSide.

(** Unfolds the monad operations of a goal, leaving the text untouched. *)
Ltac run_monad :=
  cbv beta iota zeta delta
    [bind ret raise get_state modify lift_outcome try_ValueError].

(* ================================================================== *)
(** * Lemmas on text and dictionaries *)
(* ================================================================== *)

Lemma mem_In (x : string) (xs : list string) : Text.mem x xs = true <-> In x xs.
Proof.
  unfold Text.mem. rewrite existsb_exists. split.
  - intros [y [Hy Heq]]. apply String.eqb_eq in Heq. now subst.
  - intros H. exists x. split; [assumption | apply String.eqb_refl].
Qed.

Lemma mem_not_In (x : string) (xs : list string) :
  Text.mem x xs = false <-> ~ In x xs.
Proof.
  rewrite <- mem_In. destruct (Text.mem x xs); split; congruence.
Qed.

Lemma mem_app (x : string) (xs ys : list string) :
  Text.mem x (xs ++ ys)%list = Text.mem x xs || Text.mem x ys.
Proof. unfold Text.mem. apply existsb_app. Qed.

Module PyDictFacts.
Import PyDict.

Section Facts.
Variable V : Type.
Implicit Types (d : PyDict.t V) (k : string) (v : V).

Lemma get_set_same k v d : get k (set k v d) = Some v.
Proof.
  induction d as [|[k' v'] r IH]; simpl.
  - now rewrite String.eqb_refl.
  - destruct (String.eqb k k') eqn:E; simpl; rewrite E; auto.
Qed.

Lemma get_set_other k k' v d : k' <> k -> get k' (set k v d) = get k' d.
Proof.
  intros Hne. induction d as [|[k0 v0] r IH]; simpl.
  - apply String.eqb_neq in Hne. now rewrite Hne.
  - destruct (String.eqb k k0) eqn:E; simpl.
    + apply String.eqb_eq in E. subst k0.
      apply String.eqb_neq in Hne. now rewrite Hne.
    + destruct (String.eqb k' k0); auto.
Qed.

Lemma keys_set k v d :
  keys (set k v d) = if Text.mem k (keys d) then keys d else (keys d ++ [k])%list.
Proof.
  induction d as [|[k0 v0] r IH]; simpl; auto.
  unfold keys in *. destruct (String.eqb k k0) eqn:E; simpl; auto.
  rewrite IH. fold (Text.mem k (map fst r)).
  destruct (Text.mem k (map fst r)); auto.
Qed.

Lemma In_keys_set k k' v d :
  In k' (keys (set k v d)) <-> k' = k \/ In k' (keys d).
Proof.
  rewrite keys_set. destruct (Text.mem k (keys d)) eqn:E.
  - apply mem_In in E. split; [auto | intros [->|]; auto].
  - rewrite in_app_iff. simpl. split; intros H; intuition (subst; auto).
Qed.

Lemma NoDup_keys_set k v d : NoDup (keys d) -> NoDup (keys (set k v d)).
Proof.
  intros Hnd. rewrite keys_set. destruct (Text.mem k (keys d)) eqn:E; auto.
  apply mem_not_In in E.
  apply NoDup_app; auto.
  - constructor; [intros [] | constructor].
  - intros x Hx [<-|[]]. contradiction.
Qed.

Lemma get_None_not_In k d : get k d = None <-> ~ In k (keys d).
Proof.
  induction d as [|[k0 v0] r IH]; simpl.
  - split; auto.
  - destruct (String.eqb k k0) eqn:E.
    + apply String.eqb_eq in E. subst. split; [discriminate | intros H; exfalso; auto].
    + apply String.eqb_neq in E. rewrite IH. split; intros H; intuition congruence.
Qed.
End Facts.

End PyDictFacts.

(* ================================================================== *)
(** * The session model *)
(* ================================================================== *)

Section AgentFacts.
Context {F : PyFloat}.

Lemma select_dataset_known (s : AgentState) (name : string) (d : Dataset.t) :
  PyDict.get name DATASETS = Some d ->
  select_dataset name s = (Ok d, mkAgentState (Some d) [] None [] []).
Proof.
  intros H. unfold select_dataset, get_dataset. run_monad.
  rewrite H. reflexivity.
Qed.

Lemma select_dataset_unknown (s : AgentState) (name : string) :
  PyDict.get name DATASETS = None ->
  select_dataset name s =
  (Raise (Exn ValueError ("Unknown dataset '" ++ name ++ "'.")), s).
Proof.
  intros H. unfold select_dataset, get_dataset. run_monad.
  rewrite H. reflexivity.
Qed.

Lemma add_filter_known (s : AgentState) (D : Dataset.t) (c : string) (v : FilterValue) :
  dataset s = Some D -> In c (column_names D) ->
  add_filter c v s = (Ok tt, set_filters (PyDict.set c v (filters s)) s).
Proof.
  intros HD Hc. apply mem_In in Hc.
  unfold add_filter, _require_dataset. run_monad.
  rewrite HD, Hc. reflexivity.
Qed.

Lemma add_filter_unknown (s : AgentState) (D : Dataset.t) (c : string) (v : FilterValue) :
  dataset s = Some D -> ~ In c (column_names D) ->
  add_filter c v s =
  (Raise (Exn ValueError
            ("Column '" ++ c ++ "' is not available on dataset '"
             ++ Dataset.name D ++ "'.")), s).
Proof.
  intros HD Hc. apply mem_not_In in Hc.
  unfold add_filter, _require_dataset. run_monad.
  rewrite HD, Hc. reflexivity.
Qed.

Lemma add_filter_no_dataset (s : AgentState) (c : string) (v : FilterValue) :
  dataset s = None ->
  add_filter c v s =
  (Raise (Exn RuntimeError
            "A dataset must be selected before performing this operation."), s).
Proof.
  intros HD. unfold add_filter, _require_dataset. run_monad.
  now rewrite HD.
Qed.

(** A call of [set_visualization] that returns: what was checked and what
    was written. *)
Lemma set_visualization_ok ct xs ys bs os (s s' : AgentState) spec :
  set_visualization ct xs ys bs os s = (Ok spec, s') ->
  exists d ms,
    dataset s = Some d /\
    measure_loop d (column_names d) ys [] [] = Ok ms /\
    s' = mkAgentState (Some d) (filters s) (Some spec)
           (PyDict.keys
              (PyDict.fromkeys (xs ++ match bs with Some b => b | None => [] end)))
           ms /\
    VizSpec.y_measures spec = map MeasureSpec.alias ms.
Proof.
  unfold set_visualization, _require_dataset. run_monad.
  destruct (dataset s) as [d|] eqn:HD; [|discriminate].
  destruct xs as [|x xs]; [discriminate|].
  destruct ys as [|y ys]; [discriminate|].
  destruct (filter _ (x :: xs)); [|discriminate].
  set (bs' := match bs with Some (b :: r) => b :: r | _ => [] end).
  assert (Hbs : bs' = match bs with Some b => b | None => [] end)
    by (destruct bs as [[|? ?]|]; reflexivity).
  destruct (filter _ bs'); [|discriminate].
  destruct (measure_loop d (column_names d) (y :: ys) [] []) as [ms|e] eqn:HM;
    [|discriminate].
  unfold set_viz, set_dimensions, set_measure_specs. simpl.
  intros H. inversion H; subst spec s'; clear H.
  exists d, ms. rewrite <- Hbs. repeat split; auto.
  now rewrite HD.
Qed.

(** A call of [set_visualization] that raises leaves the state as it was. *)
Lemma set_visualization_raise ct xs ys bs os (s s' : AgentState) e :
  set_visualization ct xs ys bs os s = (Raise e, s') -> s' = s.
Proof.
  unfold set_visualization, _require_dataset. run_monad.
  destruct (dataset s) as [d|] eqn:HD;
    [|intros H; inversion H; reflexivity].
  destruct xs as [|x xs]; [intros H; inversion H; reflexivity|].
  destruct ys as [|y ys]; [intros H; inversion H; reflexivity|].
  destruct (filter _ (x :: xs)); [|intros H; inversion H; reflexivity].
  destruct (filter _ (match bs with Some (b :: r) => b :: r | _ => [] end));
    [|intros H; inversion H; reflexivity].
  destruct (measure_loop d (column_names d) (y :: ys) [] []) as [ms|e'];
    [discriminate|].
  intros H; inversion H; reflexivity.
Qed.

(** ** Dimensions *)

Lemma keys_fold_set (ks : list string) (d : PyDict.t unit) :
  PyDict.keys (fold_left (fun d k => PyDict.set k tt d) ks d) =
  (PyDict.keys d ++ keep_first (PyDict.keys d) ks)%list.
Proof.
  revert d. induction ks as [|k ks IH]; intros d; simpl.
  - now rewrite app_nil_r.
  - rewrite IH, PyDictFacts.keys_set.
    destruct (Text.mem k (PyDict.keys d)); [reflexivity|].
    now rewrite <- app_assoc.
Qed.

Lemma keys_fromkeys (ks : list string) :
  PyDict.keys (PyDict.fromkeys ks) = dedup_first ks.
Proof. unfold PyDict.fromkeys, dedup_first. now rewrite keys_fold_set. Qed.

Lemma keep_first_In (l seen : list string) (x : string) :
  In x (keep_first seen l) <-> In x l /\ ~ In x seen.
Proof.
  revert seen. induction l as [|y l IH]; intros seen; simpl.
  - tauto.
  - destruct (Text.mem y seen) eqn:E.
    + apply mem_In in E. rewrite IH. split.
      * tauto.
      * intros [[->|H] Hn]; tauto.
    + apply mem_not_In in E. simpl. rewrite IH, in_app_iff. simpl.
      destruct (string_dec y x) as [->|Hne]; [tauto|].
      split; [intros [?|[? ?]]; tauto|].
      intros [[?|?] ?]; [contradiction|]. right. tauto.
Qed.

Lemma keep_first_NoDup (l seen : list string) : NoDup (keep_first seen l).
Proof.
  revert seen. induction l as [|y l IH]; intros seen; simpl.
  - constructor.
  - destruct (Text.mem y seen); [apply IH|].
    constructor; [|apply IH].
    rewrite keep_first_In, in_app_iff. simpl. tauto.
Qed.

End AgentFacts.

(* ================================================================== *)
(** * Alias resolution *)
(* ================================================================== *)

Lemma length_append (a b : string) :
  String.length (a ++ b) = String.length a + String.length b.
Proof. induction a as [|c a IH]; simpl; auto. Qed.

Lemma append_inj_l (s a b : string) : s ++ a = s ++ b -> a = b.
Proof.
  induction s as [|c s IH]; simpl; auto.
  intros H. injection H as H. auto.
Qed.

Lemma nat_of_text_str_nat (n : nat) : nat_of_text (Text.str_nat n) = Some n.
Proof.
  unfold nat_of_text, Text.str_nat, NilZero.string_of_uint.
  pose proof (DecimalNat.Unsigned.of_to n) as Hn.
  destruct (Nat.to_uint n) eqn:E;
    try (rewrite NilEmpty.usu; simpl; now rewrite Hn).
  simpl in Hn. subst n. reflexivity.
Qed.

Lemma str_nat_inj (n m : nat) : Text.str_nat n = Text.str_nat m -> n = m.
Proof.
  intros H. apply (f_equal nat_of_text) in H.
  rewrite !nat_of_text_str_nat in H. congruence.
Qed.

Section AliasFacts.
Context {F : PyFloat}.

Lemma candidate_inj (alias_base : string) (i j : nat) :
  candidate alias_base i = candidate alias_base j -> i = j.
Proof.
  destruct i as [|i], j as [|j]; simpl; auto.
  - intros H. apply (f_equal String.length) in H.
    rewrite length_append in H. simpl in H. lia.
  - intros H. apply (f_equal String.length) in H.
    rewrite length_append in H. simpl in H. lia.
  - intros H. apply append_inj_l in H. injection H as H.
    apply str_nat_inj in H. congruence.
Qed.

Lemma NoDup_candidates (alias_base : string) (n : nat) :
  NoDup (map (candidate alias_base) (seq 0 n)).
Proof.
  apply Injective_map_NoDup; [|apply seq_NoDup].
  intros i j. apply candidate_inj.
Qed.

(** Fewer names are taken than there are candidates: one is free. *)
Lemma free_candidate (alias_base : string) (taken : list string) :
  exists k, k <= length taken /\ ~ In (candidate alias_base k) taken.
Proof.
  assert (H : forall n,
             (forall k, k < n -> In (candidate alias_base k) taken) \/
             (exists k, k < n /\ ~ In (candidate alias_base k) taken)).
  { induction n as [|n [IH|[k [Hk Hn]]]].
    - left. intros k Hk. lia.
    - destruct (in_dec string_dec (candidate alias_base n) taken) as [Hin|Hout].
      + left. intros k Hk. destruct (Nat.eq_dec k n) as [->|]; auto.
        apply IH. lia.
      + right. exists n. split; [lia | assumption].
    - right. exists k. split; [lia | assumption]. }
  destruct (H (S (length taken))) as [Hall|[k [Hk Hn]]].
  - exfalso.
    pose proof (NoDup_candidates alias_base (S (length taken))) as Hnd.
    apply NoDup_incl_length with (l' := taken) in Hnd.
    + rewrite length_map, length_seq in Hnd. lia.
    + intros x Hx. apply in_map_iff in Hx. destruct Hx as [k [<- Hk]].
      apply in_seq in Hk. apply Hall. lia.
  - exists k. split; [lia | assumption].
Qed.

(** The loop started on candidate [i], all earlier candidates being taken,
    stops on the first free candidate, given fuel to reach it. *)
Lemma while_alias_reaches (alias_base : string) (existing : list string) :
  forall (k i fuel : nat),
    i <= k -> k - i < fuel ->
    (forall j, j < k -> In (candidate alias_base j) existing) ->
    ~ In (candidate alias_base k) existing ->
    while_alias fuel alias_base (candidate alias_base i) (S (S i)) existing =
    Some (candidate alias_base k).
Proof.
  intros k i fuel. revert i. induction fuel as [|fuel IH]; intros i Hik Hf Hall Hfree.
  - lia.
  - simpl. destruct (Text.mem (candidate alias_base i) existing) eqn:E.
    + apply mem_In in E.
      assert (i <> k) by (intros ->; contradiction).
      apply (IH (S i)); auto; lia.
    + apply mem_not_In in E.
      destruct (Nat.eq_dec i k) as [->|Hne]; [reflexivity|].
      exfalso. apply E, Hall. lia.
Qed.

(** The loop of [set_visualization] terminates within the fuel given by
    [resolve_alias], on the first free candidate. *)
Lemma while_alias_terminates (alias_base : string) (existing : list string) :
  exists alias,
    while_alias (S (length existing)) alias_base alias_base 2 existing = Some alias /\
    first_free alias_base existing alias.
Proof.
  destruct (free_candidate alias_base existing) as [k0 [Hk0 Hfree0]].
  (* the least free candidate *)
  assert (Hleast : exists k, k <= k0 /\ ~ In (candidate alias_base k) existing /\
                             forall j, j < k -> In (candidate alias_base j) existing).
  { clear Hk0. induction k0 as [k0 IH] using lt_wf_ind.
    destruct (Forall_dec (fun j => In (candidate alias_base j) existing)
                (fun j => in_dec string_dec (candidate alias_base j) existing)
                (seq 0 k0)) as [Hall|Hnot].
    - exists k0. repeat split; auto.
      intros j Hj. rewrite Forall_forall in Hall. apply Hall, in_seq. lia.
    - apply neg_Forall_Exists_neg in Hnot;
        [|intros j; apply in_dec, string_dec].
      apply Exists_exists in Hnot. destruct Hnot as [j [Hj Hn]].
      apply in_seq in Hj.
      destruct (IH j ltac:(lia) Hn) as [k [Hk [Hf Hl]]].
      exists k. repeat split; auto. lia. }
  destruct Hleast as [k [Hk [Hfree Hall]]].
  exists (candidate alias_base k). split.
  - apply (while_alias_reaches alias_base existing (k := k) (i := 0)); auto; lia.
  - exists k. auto.
Qed.

Lemma resolve_alias_first_free (alias_base : string) (existing : list string) :
  first_free alias_base existing (resolve_alias alias_base existing).
Proof.
  unfold resolve_alias.
  destruct (while_alias_terminates alias_base existing) as [a [-> Ha]].
  exact Ha.
Qed.

Lemma measure_loop_resolved (d : Dataset.t) (cols : list string) :
  forall ys acc existing ms,
    measure_loop d cols ys acc existing = Ok ms ->
    exists new, ms = (acc ++ new)%list /\
                resolved ys existing (map MeasureSpec.alias new).
Proof.
  induction ys as [|raw ys IH]; intros acc existing ms H.
  - simpl in H. injection H as <-. exists []. now rewrite app_nil_r.
  - cbn [measure_loop] in H.
    destruct (split_measure raw) as [agg column] eqn:Esplit.
    destruct (negb (Text.mem column cols)); [discriminate|].
    destruct (negb (Text.mem (Text.lower agg) allowed_aggs)); [discriminate|].
    apply IH in H. destruct H as [new [-> Hres]].
    eexists (_ :: new). rewrite <- app_assoc. split; [reflexivity|].
    cbn [map resolved MeasureSpec.alias]. split; [|exact Hres].
    unfold default_alias. rewrite Esplit. apply resolve_alias_first_free.
Qed.

Lemma resolved_fresh (ys : list string) :
  forall taken als,
    resolved ys taken als ->
    NoDup als /\ forall a, In a als -> ~ In a taken.
Proof.
  induction ys as [|raw ys IH]; intros taken [|a als]; simpl; try tauto.
  - intros _. split; [constructor | intros a []].
  - intros [[i [Hi [Hfree _]]] Hres].
    apply IH in Hres. destruct Hres as [Hnd Hout]. split.
    + constructor; auto. intros Hin. apply (Hout a Hin). now left.
    + intros b [<-|Hb]; auto. intros Hin. apply (Hout b Hb). now right.
Qed.

End AliasFacts.

(* ================================================================== *)
(** * Operations of the session model and their invariants *)
(* ================================================================== *)

Section OperationFacts.
Context {F : PyFloat}.

Lemma select_dataset_effect (name : string) (s : AgentState) :
  effect s (snd (select_dataset name s)).
Proof.
  destruct (PyDict.get name DATASETS) as [d|] eqn:E.
  - rewrite (select_dataset_known s name E). apply eff_select.
  - rewrite (select_dataset_unknown s name E). apply eff_none.
Qed.

Lemma add_filter_effect (c : string) (v : FilterValue) (s : AgentState) :
  effect s (snd (add_filter c v s)).
Proof.
  destruct (dataset s) as [D|] eqn:HD.
  - destruct (in_dec string_dec c (column_names D)) as [Hin|Hout].
    + rewrite (add_filter_known s c v HD Hin). now apply eff_filter with D.
    + rewrite (add_filter_unknown s c v HD Hout). apply eff_none.
  - rewrite (add_filter_no_dataset s c v HD). apply eff_none.
Qed.

Lemma set_visualization_effect ct xs ys bs os (s : AgentState) :
  effect s (snd (set_visualization ct xs ys bs os s)).
Proof.
  destruct (set_visualization ct xs ys bs os s) as [[spec|e] s'] eqn:E; simpl.
  - eapply eff_visualization; eauto.
  - apply set_visualization_raise in E. subst. apply eff_none.
Qed.

Lemma state_after_effect (op : operation) (s : AgentState) :
  effect s (state_after op s).
Proof.
  destruct op; simpl.
  - apply select_dataset_effect.
  - apply add_filter_effect.
  - apply set_visualization_effect.
  - apply eff_reset.
Qed.

Lemma set_visualization_aliases ct xs ys bs os (s s' : AgentState) spec :
  set_visualization ct xs ys bs os s = (Ok spec, s') ->
  resolved ys [] (aliases s') /\ NoDup (aliases s').
Proof.
  intros H. apply set_visualization_ok in H.
  destruct H as [d [ms [_ [Hloop [-> _]]]]].
  apply measure_loop_resolved in Hloop. destruct Hloop as [new [-> Hres]].
  unfold aliases. simpl. split; [exact Hres|].
  now apply resolved_fresh in Hres.
Qed.

Lemma effect_aliases (s s' : AgentState) :
  effect s s' -> NoDup (aliases s) -> NoDup (aliases s').
Proof.
  intros Heff Hnd.
  destruct Heff as [ | d | | D c v HD Hc | ct xs ys bs os spec s' Hviz];
    auto; try (unfold aliases; simpl; constructor).
  eapply set_visualization_aliases; eauto.
Qed.

Lemma effect_filters_ok (s s' : AgentState) :
  effect s s' -> filters_ok s -> filters_ok s'.
Proof.
  intros Heff [Hnd Hcols].
  destruct Heff as [ | d | | D c v HD Hc | ct xs ys bs os spec s' Hviz];
    unfold filters_ok; simpl.
  - split; assumption.
  - split; [constructor | intros _ _ k []].
  - split; [constructor | intros _ _ k []].
  - split.
    + now apply PyDictFacts.NoDup_keys_set.
    + intros d Hd k Hk. apply PyDictFacts.In_keys_set in Hk.
      destruct Hk as [->|Hk]; [congruence | now apply Hcols].
  - apply set_visualization_ok in Hviz.
    destruct Hviz as [d [ms [Hd [_ [-> _]]]]].
    simpl. split; [assumption|].
    intros d' [= <-]. now apply Hcols.
Qed.

Lemma new_state_filters_ok : filters_ok new_state.
Proof. split; [constructor | intros d H; discriminate]. Qed.

End OperationFacts.

(* ================================================================== *)
(** * Weakest preconditions of the monad operations *)
(* ================================================================== *)

Section WpRules.
Context {S A B : Type}.
Implicit Types (Q : A -> S -> Prop) (E : exn -> S -> Prop) (s : S).

Lemma wp_ret (a : A) Q E s : Q a s -> wp (ret a) Q E s.
Proof. exact (fun H => H). Qed.

Lemma wp_raise cls msg Q E s : E (Exn cls msg) s -> wp (raise cls msg) Q E s.
Proof. exact (fun H => H). Qed.

Lemma wp_lift_outcome (o : outcome A) Q E s :
  match o with Ok a => Q a s | Raise e => E e s end -> wp (lift_outcome o) Q E s.
Proof. unfold wp, lift_outcome. now destruct o. Qed.

Lemma wp_bind (m : M S A) (k : A -> M S B) (R : B -> S -> Prop) E s :
  wp m (fun a s' => wp (k a) R E s') E s -> wp (bind m k) R E s.
Proof. unfold wp, bind. destruct (m s) as [[a|e] s']; auto. Qed.

Lemma wp_try (m : M S A) (h : string -> M S A) Q E s :
  wp m Q (fun e s' =>
            match e with
            | Exn ValueError msg => wp (h msg) Q E s'
            | _ => E e s'
            end) s ->
  wp (try_ValueError m h) Q E s.
Proof.
  unfold wp, try_ValueError. destruct (m s) as [[a|[[] msg]] s']; auto.
Qed.

Lemma wp_mono (m : M S A) Q Q' E E' s :
  wp m Q E s -> (forall a s', Q a s' -> Q' a s') -> (forall e s', E e s' -> E' e s') ->
  wp m Q' E' s.
Proof. unfold wp. destruct (m s) as [[a|e] s']; auto. Qed.

End WpRules.

Lemma wp_get_state {S} (Q : S -> S -> Prop) E (s : S) : Q s s -> wp get_state Q E s.
Proof. exact (fun H => H). Qed.

Lemma wp_modify {S} (f : S -> S) (Q : unit -> S -> Prop) E (s : S) :
  Q tt (f s) -> wp (modify f) Q E s.
Proof. exact (fun H => H). Qed.

(* ================================================================== *)
(** * The dialogue: what a turn can do to the session state *)
(* ================================================================== *)

Section ChatFacts.
Context {F : PyFloat} {C : Collaborators}.

Lemma build_sql_query_pure (limit : Z) (s : AgentState) :
  snd (build_sql_query limit s) = s.
Proof.
  unfold build_sql_query, _require_dataset. run_monad.
  destruct (dataset s); [|reflexivity]. now destruct (measure_specs s).
Qed.

Lemma describe_state_pure (s : AgentState) : snd (describe_state s) = s.
Proof.
  unfold describe_state. unfold bind at 1. unfold _require_dataset. run_monad.
  destruct (dataset s) as [d|]; [|reflexivity].
  pose proof (build_sql_query_pure 100 s) as H.
  unfold bind. destruct (build_sql_query 100 s) as [[q|e] s']; simpl in *; now subst.
Qed.

Lemma suggest_filters_pure (s : AgentState) : snd (suggest_filters s) = s.
Proof.
  unfold suggest_filters, _require_dataset. run_monad. now destruct (dataset s).
Qed.

Lemma suggest_enrichments_pure (s : AgentState) : snd (suggest_enrichments s) = s.
Proof.
  unfold suggest_enrichments, _require_dataset. run_monad. now destruct (dataset s).
Qed.

Lemma pure_effect {A} (m : M AgentState A) :
  (forall s, snd (m s) = s) -> forall s, effect s (snd (m s)).
Proof. intros H s. rewrite H. apply eff_none. Qed.

(** A call on the agent: the session state moves by one [effect], the
    stage and the chart path stay. *)
Lemma wp_with_agent {A} (m : M AgentState A) (Q : A -> ConversationContext -> Prop)
    E (c : ConversationContext) :
  (forall s, effect s (snd (m s))) ->
  (forall a s', effect (agent c) s' -> Q a (set_agent s' c)) ->
  (forall e s', effect (agent c) s' -> E e (set_agent s' c)) ->
  wp (with_agent m) Q E c.
Proof.
  intros Hm HQ HE. unfold wp, with_agent.
  specialize (Hm (agent c)). destruct (m (agent c)) as [[a|e] s']; auto.
Qed.

(** [_summarise_results] either raises with the context as it was, or
    returns having written the chart path and moved the stage to [ADJUST]. *)
Lemma wp_summarise (Q : summary_data -> ConversationContext -> Prop) E
    (c : ConversationContext) :
  (forall d p, Q d (set_stage ADJUST (set_chart_path p c))) ->
  (forall e, E e c) ->
  wp _summarise_results Q E c.
Proof.
  intros HQ HE. unfold wp, _summarise_results.
  unfold bind at 1. unfold with_agent.
  pose proof (describe_state_pure (agent c)) as Hpure.
  destruct (describe_state (agent c)) as [[summary|e] s']; simpl in Hpure; subst s'.
  - replace (set_agent (agent c) c) with c by now destruct c.
    unfold bind at 1. unfold lift_outcome at 1.
    destruct (execute_query (d_sql summary)) as [rows0|e]; [|apply HE].
    unfold bind at 1. unfold get_state at 1.
    destruct (render_chart _ _ _ _ _) as [[p|]|[cls [|ch msg]]];
      run_monad; apply HQ.
  - replace (set_agent (agent c) c) with c by now destruct c. apply HE.
Qed.

End ChatFacts.

Create HintDb effects.
#[local] Hint Resolve select_dataset_effect add_filter_effect
  set_visualization_effect : effects.
#[local] Hint Extern 1 (forall s, effect s (snd (suggest_filters s))) =>
  apply pure_effect, suggest_filters_pure : effects.
#[local] Hint Extern 1 (forall s, effect s (snd (suggest_enrichments s))) =>
  apply pure_effect, suggest_enrichments_pure : effects.
#[local] Hint Extern 1 (forall s, effect s (snd (describe_state s))) =>
  apply pure_effect, describe_state_pure : effects.

(** One step of a proof by weakest preconditions over a handler. *)
Ltac wp_step :=
  lazymatch goal with
  | |- wp (bind _ _) _ _ _ => apply wp_bind
  | |- wp (ret _) _ _ _ => apply wp_ret
  | |- wp (raise _ _) _ _ _ => apply wp_raise
  | |- wp get_state _ _ _ => apply wp_get_state
  | |- wp (modify _) _ _ _ => apply wp_modify
  | |- wp (lift_outcome _) _ _ _ => apply wp_lift_outcome
  | |- wp (try_ValueError _ _) _ _ _ => apply wp_try
  | |- wp (with_agent _) _ _ _ =>
      apply wp_with_agent; [solve [auto with effects] | intros ? ? ? | intros ? ? ?]
  | |- wp _summarise_results _ _ _ => apply wp_summarise; [intros ? ? | intros ?]
  | |- wp start _ _ _ => unfold start
  | |- wp (match ?x with _ => _ end) _ _ _ => destruct x eqn:?
  | |- match ?e with Exn _ _ => _ end => destruct e as [[] ?]
  end; cbv beta zeta.

Section TurnInvariants.
Context {F : PyFloat} {C : Collaborators}.

Section AgentInvariant.
(** A property of the session state that holds of a fresh state and is
    kept by every effect of an operation. *)
Variable I : AgentState -> Prop.
Hypothesis I_new : I new_state.
Hypothesis I_effect : forall s s', effect s s' -> I s -> I s'.

Let holds (c : ConversationContext) : Prop := I (agent c).

(** Brings the invariant forward over the effects met so far and
    closes a goal that states it. *)
Ltac inv_close :=
  unfold holds in *;
  cbn [agent stage chart_path set_agent set_stage set_chart_path new_context] in *;
  repeat match goal with
         | Heff : effect ?s ?s', HI : I ?s |- _ =>
             pose proof (I_effect Heff HI); clear Heff
         end;
  try assumption; try exact I_new.

Ltac inv_auto := repeat (first [wp_step | progress inv_close]).

Lemma summarise_keeps (c : ConversationContext) :
  holds c -> wp _summarise_results (fun _ => holds) (fun _ => holds) c.
Proof. intros H. inv_auto. Qed.

Lemma dataset_selection_keeps text (c : ConversationContext) :
  holds c -> wp (_handle_dataset_selection text) (fun _ => holds) (fun _ => holds) c.
Proof. intros H. unfold _handle_dataset_selection. inv_auto. Qed.

Lemma filtering_keeps text (c : ConversationContext) :
  holds c -> wp (_handle_filtering text) (fun _ => holds) (fun _ => holds) c.
Proof. intros H. unfold _handle_filtering. inv_auto. Qed.

Lemma visualisation_keeps text (c : ConversationContext) :
  holds c -> wp (_handle_visualisation text) (fun _ => holds) (fun _ => holds) c.
Proof. intros H. unfold _handle_visualisation. inv_auto. Qed.

Lemma adjustment_keeps text (c : ConversationContext) :
  holds c -> wp (_handle_adjustment text) (fun _ => holds) (fun _ => holds) c.
Proof.
  intros H. unfold _handle_adjustment.
  repeat (first [ apply visualisation_keeps | wp_step | progress inv_close ]).
Qed.

Lemma handle_input_keeps message (c : ConversationContext) :
  holds c -> wp (handle_input message) (fun _ => holds) (fun _ => holds) c.
Proof.
  intros H. unfold handle_input, _handle_summary_follow_up.
  repeat (first [ apply dataset_selection_keeps | apply filtering_keeps
                | apply visualisation_keeps | apply adjustment_keeps
                | wp_step | progress inv_close ]).
Qed.

(** The session state after a turn, returned or raised, satisfies [I]. *)
Lemma turn_keeps message (c : ConversationContext) :
  I (agent c) -> I (agent (snd (handle_input message c))).
Proof.
  intros H. pose proof (handle_input_keeps message H) as Hwp.
  unfold wp in Hwp. now destruct (handle_input message c) as [[r|e] c'].
Qed.
End AgentInvariant.

(** ** Stages *)

Ltac stage_close :=
  cbn [agent stage chart_path set_agent set_stage set_chart_path new_context] in *;
  try assumption; try discriminate; try exact Logic.I; try congruence; auto.

Lemma wp_returns {S A} (m : M S A) Q E (s s' : S) (a : A) :
  wp m Q E s -> m s = (Ok a, s') -> Q a s'.
Proof. unfold wp. intros H Hm. now rewrite Hm in H. Qed.

Lemma summarise_ends_in_adjust (c c' : ConversationContext) d :
  _summarise_results c = (Ok d, c') -> stage c' = ADJUST.
Proof.
  apply (@wp_returns _ _ _ (fun _ c' => stage c' = ADJUST) (fun _ _ => True)).
  repeat (first [wp_step | progress stage_close]).
Qed.

Lemma visualisation_stage text (c c' : ConversationContext) r :
  _handle_visualisation text c = (Ok r, c') ->
  stage c' = stage c \/ stage c' = ADJUST.
Proof.
  apply (@wp_returns _ _ _ (fun _ c' => stage c' = stage c \/ stage c' = ADJUST)
           (fun _ _ => True)).
  unfold _handle_visualisation.
  repeat (first [wp_step | progress stage_close]).
Qed.

Lemma handle_input_leaves_summary message (c : ConversationContext) :
  stage c <> SUMMARY ->
  wp (handle_input message) (fun _ c' => stage c' <> SUMMARY) (fun _ _ => True) c.
Proof.
  intros H.
  unfold handle_input, _handle_summary_follow_up, _handle_adjustment,
    _handle_visualisation, _handle_filtering, _handle_dataset_selection.
  repeat (first [wp_step | progress stage_close]).
Qed.

Lemma reachable_not_summary (c : ConversationContext) :
  reachable c -> stage c <> SUMMARY.
Proof.
  induction 1 as [|c Hc IH|c message r c' Hc IH Hturn].
  - discriminate.
  - discriminate.
  - pose proof (handle_input_leaves_summary message c IH) as Hwp.
    unfold wp in Hwp. now rewrite Hturn in Hwp.
Qed.

End TurnInvariants.

(* ================================================================== *)
(** * The visualization directive parser *)
(* ================================================================== *)

Section ParserFacts.
Context {F : PyFloat} {C : Collaborators}.

Lemma plus_nonempty (p : ascii -> bool) (s a b : string) :
  Re.plus p s = Some (a, b) -> a <> EmptyString.
Proof.
  unfold Re.plus. destruct (Re.span p s) as [[|ch a'] b'].
  - discriminate.
  - intros [= <- _]. discriminate.
Qed.

Lemma match_kv_nonempty (s key value rest : string) :
  Re.match_kv s = Some (key, value, rest) ->
  key <> EmptyString /\ value <> EmptyString.
Proof.
  unfold Re.match_kv.
  destruct (Re.plus Re.iskey s) as [[k r1]|] eqn:Ek; [|discriminate].
  destruct (snd (Re.span Text.isspace r1)) as [|ch r2]; [discriminate|].
  destruct (Ascii.eqb_spec ch "="%char) as [->|Hne].
  - destruct (Re.plus Re.nonspace _) as [[v r3]|] eqn:Ev; [|discriminate].
    intros [= <- <- _]. split; eapply plus_nonempty; eassumption.
  - intros H. exfalso.
    destruct ch as [[] [] [] [] [] [] [] []]; try discriminate.
    now apply Hne.
Qed.

(** Every pair found by the tokenizer has a non-empty key and value. *)
Lemma findall_kv_nonempty (s : string) :
  forall skip, Forall (fun kv => fst kv <> EmptyString /\ snd kv <> EmptyString)
                      (Re.findall_kv_from skip s).
Proof.
  induction s as [|ch r IH]; intros skip; simpl.
  - constructor.
  - destruct skip as [|k]; [|apply IH].
    destruct (Re.match_kv (String ch r)) as [[[key value] rest]|] eqn:E; [|apply IH].
    constructor; [|apply IH].
    simpl. eapply match_kv_nonempty; eassumption.
Qed.

Lemma get_of_pairs_snoc (k : string) (parts : list (string * string)) kv :
  PyDict.get k (PyDict.of_pairs (parts ++ [kv])) =
  if String.eqb k (fst kv) then Some (snd kv)
  else PyDict.get k (PyDict.of_pairs parts).
Proof.
  unfold PyDict.of_pairs. rewrite fold_left_app. simpl.
  destruct (String.eqb_spec k (fst kv)) as [->|Hne].
  - apply PyDictFacts.get_set_same.
  - now apply PyDictFacts.get_set_other.
Qed.

(** A dictionary built from pairs holds, for each key, the value of its
    last occurrence. *)
Lemma get_of_pairs (k : string) (parts : list (string * string)) :
  PyDict.get k (PyDict.of_pairs parts) = last_value k parts.
Proof.
  induction parts as [|kv parts IH] using rev_ind.
  - reflexivity.
  - rewrite get_of_pairs_snoc. unfold last_value in *.
    rewrite rev_app_distr. simpl.
    destruct (String.eqb k (fst kv)); [reflexivity | exact IH].
Qed.

Lemma last_value_In (k v : string) (parts : list (string * string)) :
  last_value k parts = Some v -> In (k, v) parts.
Proof.
  unfold last_value.
  destruct (find _ (rev parts)) as [[k' v']|] eqn:E; [|discriminate].
  intros [= <-]. apply find_some in E. destruct E as [Hin Heq].
  apply String.eqb_eq in Heq. simpl in *. subst k'. now apply in_rev.
Qed.

Lemma last_value_nonempty (k v : string) (s : string) :
  last_value k (Re.findall_kv s) = Some v -> v <> EmptyString.
Proof.
  intros H. apply last_value_In in H.
  pose proof (findall_kv_nonempty s 0) as Hall.
  rewrite Forall_forall in Hall. exact (proj2 (Hall _ H)).
Qed.

(** On the pairs of the tokenizer, [a or b] of two lookups is [chosen]. *)
Lemma get_or_chosen (primary secondary s : string) :
  let parts := Re.findall_kv s in
  get_or (PyDict.get primary (PyDict.of_pairs parts))
         (PyDict.get secondary (PyDict.of_pairs parts)) =
  chosen primary secondary parts.
Proof.
  simpl. rewrite !get_of_pairs. unfold chosen, get_or.
  destruct (last_value primary (Re.findall_kv s)) as [[|ch v]|] eqn:E; auto.
  now apply last_value_nonempty in E.
Qed.

(** The same on any pairs whose values are not empty. *)
Lemma get_or_chosen_filled (primary secondary : string)
    (parts : list (string * string)) :
  Forall (fun kv => snd kv <> EmptyString) parts ->
  get_or (PyDict.get primary (PyDict.of_pairs parts))
         (PyDict.get secondary (PyDict.of_pairs parts)) =
  chosen primary secondary parts.
Proof.
  intros Hall. rewrite !get_of_pairs. unfold chosen, get_or.
  destruct (last_value primary parts) as [[|ch v]|] eqn:E; auto.
  apply last_value_In in E. rewrite Forall_forall in Hall.
  now apply Hall in E.
Qed.

Lemma get_filter_keys (k : string) (p : string -> bool) (d : PyDict.t string) v :
  PyDict.get k (filter (fun kv => p (fst kv)) d) = Some v -> PyDict.get k d = Some v.
Proof.
  induction d as [|[k0 v0] d IH]; simpl; auto.
  destruct (p k0) eqn:Ep; simpl.
  - destruct (String.eqb k k0); auto.
  - intros H. destruct (String.eqb_spec k k0) as [->|Hne]; auto.
    exfalso. clear IH. induction d as [|[k1 v1] d IH]; simpl in H; [discriminate|].
    destruct (p k1) eqn:Ep1; simpl in H; auto.
    destruct (String.eqb_spec k0 k1) as [<-|]; auto. congruence.
Qed.

End ParserFacts.

(* ================================================================== *)
(** * Query compilation *)
(* ================================================================== *)

Section WhereClause.
Context {F : PyFloat}.

Lemma where_conjunct_stored (col : string) (v : SpecFilterValue) :
  two_valued v = false -> where_conjunct col (stored v) = spec_conjunct col v.
Proof.
  destruct v as [[s|z|f]|s e|vs]; simpl; try reflexivity.
  destruct vs as [|v0 [|v1 [|v2 vs]]]; simpl; try reflexivity. discriminate.
Qed.

(** Apart from sets of exactly two values, the WHERE clause built from the
    stored filters is the one the specification describes: one conjunct per
    filter, in insertion order, joined with AND. *)
Lemma build_where_clause_spec (s : AgentState) (fs : list (string * SpecFilterValue)) :
  fs <> [] ->
  Forall (fun kv => two_valued (snd kv) = false) fs ->
  filters s = map (fun kv => (fst kv, stored (snd kv))) fs ->
  build_where_clause s = spec_where fs.
Proof.
  intros Hne Hall Hfs. unfold build_where_clause, spec_where, PyDict.items.
  rewrite Hfs.
  assert (Hmap :
            map (fun kv => where_conjunct (fst kv) (snd kv))
                (map (fun kv => (fst kv, stored (snd kv))) fs) =
            map (fun kv => spec_conjunct (fst kv) (snd kv)) fs).
  { rewrite map_map. apply map_ext_in. intros [k v] Hin. simpl.
    apply where_conjunct_stored. rewrite Forall_forall in Hall.
    exact (Hall _ Hin). }
  rewrite Hmap. destruct fs as [|kv fs]; [contradiction | reflexivity].
Qed.

End WhereClause.

(* ================================================================== *)
(** * Turns whose text does not parse *)
(* ================================================================== *)

Section ParseFailure.
Context {F : PyFloat} {C : Collaborators}.



(** A turn that is not blank and not a global command runs the handler of
    the current stage on the stripped text. *)
Lemma handle_input_dispatched (message : string) (c : ConversationContext) :
  dispatched message = true ->
  handle_input message c =
  match stage c with
  | DATASET => _handle_dataset_selection (Text.strip message) c
  | FILTERS => _handle_filtering (Text.strip message) c
  | VISUALISATION => _handle_visualisation (Text.strip message) c
  | SUMMARY => _handle_summary_follow_up (Text.strip message) c
  | ADJUST => _handle_adjustment (Text.strip message) c
  | GREETING => (Ok (Text "Let's begin by choosing a dataset."), c)
  end.
Proof.
  unfold dispatched. rewrite !andb_true_iff, !negb_true_iff.
  intros [[[H1 H2] H3] H4]. unfold handle_input.
  rewrite H1, H2, H3, H4. cbn [negb]. run_monad.
  now destruct (stage c).
Qed.









(** A turn that returns leads from a context of a session to another. *)
Lemma reachable_after_turn (c : ConversationContext) (message : string) :
  reachable c ->
  (exists r, fst (handle_input message c) = Ok r) ->
  reachable (snd (handle_input message c)).
Proof.
  intros Hc [r Hr].
  destruct (handle_input message c) as [o c'] eqn:E. simpl in *. subst o.
  exact (reach_turn message Hc E).
Qed.

End ParseFailure.

(* ================================================================== *)
(** * Turns return when the backend answers *)
(* ================================================================== *)

Section Totality.
Context {F : PyFloat} {C : Collaborators}.

Lemma get_In_values {V} (k : string) (d : PyDict.t V) (v : V) :
  PyDict.get k d = Some v -> In v (map snd d).
Proof.
  induction d as [|[k0 v0] d IH]; simpl; [discriminate|].
  destruct (String.eqb k k0); [intros [= <-]; now left | auto].
Qed.

(** [_match_dataset] only answers with names of the catalog. *)
Lemma _match_dataset_known (text name : string) :
  _match_dataset text = Some name -> PyDict.get name DATASETS <> None.
Proof.
  unfold _match_dataset. intros H.
  assert (Hin : In name (map snd
                    (PyDict.of_pairs
                       (map (fun name => (Text.lower name, name)) get_domain_options)))).
  { destruct (find _ _); eapply get_In_values; eassumption. }
  vm_compute in Hin.
  repeat (destruct Hin as [<-|Hin]; [vm_compute; discriminate|]).
  contradiction.
Qed.

Lemma lower_char_space (ch : ascii) : Text.lower_char ch = " "%char -> ch = " "%char.
Proof.
  destruct ch as [[] [] [] [] [] [] [] []]; vm_compute; congruence.
Qed.

(** A text that starts with the word filter and a space has a space to
    split on. *)
Lemma startswith_filter_split (text : string) :
  Text.startswith "filter " (Text.lower text) = true ->
  exists head filter_text, Text.split_once " " text = Some (head, filter_text).
Proof.
  unfold Text.startswith.
  destruct text as [|c0 [|c1 [|c2 [|c3 [|c4 [|c5 [|c6 r]]]]]]];
    cbn [Text.lower Text.map_chars prefix];
    repeat match goal with
           | |- context [ascii_dec ?a ?b] => destruct (ascii_dec a b); try discriminate
           end; try discriminate.
  intros _.
  match goal with H : " "%char = Text.lower_char c6 |- _ =>
    symmetry in H; apply lower_char_space in H; subst c6 end.
  cbn [Text.split_once].
  repeat match goal with
         | |- context [Ascii.eqb ?a ?b] =>
             destruct (Ascii.eqb a b) eqn:?; [do 2 eexists; reflexivity|]
         end.
  discriminate.
Qed.

Lemma wp_with_agent_exact {A} (m : M AgentState A)
    (Q : A -> ConversationContext -> Prop) E (c : ConversationContext) :
  wp m (fun a s' => Q a (set_agent s' c)) (fun e s' => E e (set_agent s' c)) (agent c) ->
  wp (with_agent m) Q E c.
Proof. unfold wp, with_agent. now destruct (m (agent c)) as [[a|e] s']. Qed.

Lemma set_agent_same (c : ConversationContext) : set_agent (agent c) c = c.
Proof. now destruct c. Qed.

(** With an active dataset [set_visualization] returns or raises a
    [ValueError], and keeps the dataset. *)
Lemma wp_set_visualization ct xs ys bs os (s : AgentState) (D : Dataset.t)
    (Q : VizSpec.t -> AgentState -> Prop) E :
  dataset s = Some D ->
  (forall spec s', dataset s' = Some D -> Q spec s') ->
  (forall msg, E (Exn ValueError msg) s) ->
  wp (set_visualization ct xs ys bs os) Q E s.
Proof.
  intros HD HQ HE. unfold wp.
  destruct (set_visualization ct xs ys bs os s) as [[spec|e] s'] eqn:Hs.
  - apply HQ. apply set_visualization_ok in Hs.
    destruct Hs as [d [ms [Hd [_ [-> _]]]]]. simpl. congruence.
  - pose proof (set_visualization_raise _ _ _ _ _ _ Hs) as ->.
    revert Hs. unfold set_visualization, _require_dataset. run_monad.
    rewrite HD.
    destruct xs as [|x xs]; [intros [= <-]; apply HE|].
    destruct ys as [|y ys]; [intros [= <-]; apply HE|].
    destruct (filter _ (x :: xs)); [|intros [= <-]; apply HE].
    destruct (filter _ (match bs with Some (b :: r) => b :: r | _ => [] end));
      [|intros [= <-]; apply HE].
    destruct (measure_loop D (column_names D) (y :: ys) [] []) as [ms|e'] eqn:Hl;
      [discriminate|].
    intros [= <-]. clear - Hl HE.
    assert (Hgen : forall ys acc ex e', measure_loop D (column_names D) ys acc ex = Raise e' ->
                                        exists msg, e' = Exn ValueError msg).
    { clear. induction ys as [|raw ys IH]; intros acc ex e' H; [discriminate|].
      cbn [measure_loop] in H. destruct (split_measure raw) as [agg col].
      destruct (negb (Text.mem col (column_names D))); [injection H as <-; eauto|].
      destruct (negb (Text.mem (Text.lower agg) allowed_aggs));
        [injection H as <-; eauto|].
      eapply IH; eassumption. }
    destruct (Hgen _ _ _ _ Hl) as [msg ->]. apply HE.
Qed.

Lemma wp_add_filter column value (s : AgentState) (D : Dataset.t)
    (Q : unit -> AgentState -> Prop) E :
  dataset s = Some D ->
  (forall s', dataset s' = Some D -> Q tt s') ->
  (forall msg, E (Exn ValueError msg) s) ->
  wp (add_filter column value) Q E s.
Proof.
  intros HD HQ HE. unfold wp.
  destruct (in_dec string_dec column (column_names D)) as [Hin|Hout].
  - rewrite (add_filter_known s column value HD Hin). apply HQ. exact HD.
  - rewrite (add_filter_unknown s column value HD Hout). apply HE.
Qed.

Lemma wp_summarise_active (Q : summary_data -> ConversationContext -> Prop) E
    (c : ConversationContext) (D : Dataset.t) :
  dataset (agent c) = Some D ->
  (forall d p, Q d (set_stage ADJUST (set_chart_path p c))) ->
  (forall e sql, execute_query sql = Raise e -> E e c) ->
  wp _summarise_results Q E c.
Proof.
  intros HD HQ HE. unfold wp, _summarise_results.
  unfold bind at 1. unfold with_agent.
  assert (Hdesc : exists summary, describe_state (agent c) = (Ok summary, agent c)).
  { unfold describe_state, build_sql_query, _require_dataset. run_monad.
    rewrite HD. run_monad. rewrite HD.
    destruct (measure_specs (agent c)); eexists; reflexivity. }
  destruct Hdesc as [summary ->]. rewrite set_agent_same.
  unfold bind at 1. unfold lift_outcome at 1.
  destruct (execute_query (d_sql summary)) as [rows0|e] eqn:Eq;
    [|exact (HE e _ Eq)].
  unfold bind at 1. unfold get_state at 1.
  destruct (render_chart _ _ _ _ _) as [[p|]|[cls [|ch msg]]];
    run_monad; apply HQ.
Qed.

Lemma backend_raise e sql (c : ConversationContext) :
  execute_query sql = Raise e -> backend_failed e c.
Proof. intros H Htotal. destruct (Htotal sql) as [r Hr]. congruence. Qed.

Ltac backend_case :=
  let e := fresh "e" in let sql := fresh "sql" in let H := fresh "H" in
  intros e sql H; exact (@backend_raise e sql _ H).

Lemma visualisation_returns text (c : ConversationContext) (D : Dataset.t) :
  dataset (agent c) = Some D ->
  wp (_handle_visualisation text)
     (fun _ c' => dataset (agent c') <> None) backend_failed c.
Proof.
  intros HD. unfold _handle_visualisation.
  destruct (_parse_visualisation text) as [parsed|]; [|apply wp_ret; congruence].
  apply wp_bind, wp_try, wp_bind, wp_with_agent_exact.
  apply wp_set_visualization with D; [exact HD| |].
  - intros spec s' Hs'. apply wp_ret. cbv beta. apply wp_bind, wp_modify, wp_bind.
    apply wp_summarise_active with D; [exact Hs' | | backend_case].
    intros d p. apply wp_ret. cbn. congruence.
  - intros msg. rewrite set_agent_same. apply wp_ret. cbv beta.
    apply wp_ret. congruence.
Qed.

Lemma adjustment_returns text (c : ConversationContext) :
  dataset (agent c) <> None ->
  wp (_handle_adjustment text) (fun _ c' => ready c') backend_failed c.
Proof.
  intros HD. destruct (dataset (agent c)) as [D|] eqn:ED; [clear HD|congruence].
  unfold _handle_adjustment.
  destruct (Text.mem _ ["again"; "restart"; "reset"; "new"]).
  { apply wp_bind, wp_modify. unfold start. apply wp_bind, wp_modify, wp_ret.
    exact Logic.I. }
  destruct (Text.mem _ ["refresh"; "show"; "show chart"; "render"; "update"]).
  { apply wp_bind. apply wp_summarise_active with D; [assumption | | backend_case].
    intros d p. apply wp_ret. unfold ready. cbn. congruence. }
  destruct (existsb _ visualisation_tokens).
  { apply wp_bind, wp_modify.
    eapply wp_mono; [apply visualisation_returns with D; auto | | auto].
    intros r c'. unfold ready. destruct (stage c'); auto. }
  destruct (Text.startswith "filter " (Text.lower text)) eqn:Ef.
  { destruct (startswith_filter_split text Ef) as [head [ft ->]].
    apply wp_bind, wp_get_state.
    destruct (_parse_filter ft c) as [[column value]|].
    - apply wp_bind, wp_try, wp_bind, wp_with_agent_exact.
      apply wp_add_filter with D; [exact ED| |].
      + intros s' Hs'. apply wp_ret. cbv beta. apply wp_bind.
        apply wp_summarise_active with D; [assumption | | backend_case].
        intros d p. apply wp_ret. unfold ready. cbn. congruence.
      + intros msg. rewrite set_agent_same. apply wp_ret. cbv beta.
        apply wp_ret. unfold ready. destruct (stage c); auto; congruence.
    - apply wp_ret. unfold ready. destruct (stage c); auto; congruence. }
  assert (Hr : ready c) by (unfold ready; destruct (stage c); auto; congruence).
  destruct (String.eqb _ "filters"); [apply wp_bind, wp_get_state, wp_ret; exact Hr|].
  destruct (String.eqb _ "chart").
  { apply wp_bind, wp_get_state. destruct (chart_path c); apply wp_ret; exact Hr. }
  apply wp_ret. exact Hr.
Qed.

(** A turn from a context in which a dataset is active where it must be
    returns in such a context, unless the backend fails. *)
Lemma handle_input_returns message (c : ConversationContext) :
  ready c ->
  wp (handle_input message) (fun _ c' => ready c') backend_failed c.
Proof.
  intros Hr. unfold handle_input.
  destruct (negb _); [apply wp_ret; exact Hr|].
  destruct (Text.mem _ ["quit"; "exit"]); [apply wp_ret; exact Hr|].
  destruct (Text.mem _ ["help"; "?"]); [apply wp_ret; exact Hr|].
  destruct (Text.mem _ ["reset"; "restart"]).
  { apply wp_bind, wp_modify. unfold start. apply wp_bind, wp_modify, wp_ret.
    exact Logic.I. }
  apply wp_bind, wp_get_state. unfold ready in Hr.
  destruct (stage c) eqn:Est.
  - apply wp_ret. unfold ready. now rewrite Est.
  - (* DATASET *)
    unfold _handle_dataset_selection.
    destruct (_match_dataset _) as [[|ch name]|] eqn:Em;
      try (apply wp_ret; unfold ready; now rewrite Est).
    apply _match_dataset_known in Em.
    destruct (PyDict.get (String ch name) DATASETS) as [d|] eqn:Eg; [|congruence].
    apply wp_bind, wp_with_agent_exact. unfold wp.
    rewrite (select_dataset_known (agent c) _ Eg). cbv beta.
    apply wp_bind, wp_modify, wp_bind, wp_with_agent_exact.
    unfold wp at 1, suggest_filters, _require_dataset. run_monad.
    cbn [agent set_stage set_agent dataset].
    apply wp_bind, wp_with_agent_exact.
    unfold wp at 1, suggest_enrichments, _require_dataset. run_monad.
    cbn [agent set_stage set_agent dataset].
    apply wp_ret. unfold ready. cbn. congruence.
  - (* FILTERS *)
    destruct (dataset (agent c)) as [D|] eqn:ED; [clear Hr|congruence].
    unfold _handle_filtering.
    destruct (Text.mem _ ["done"; "next"; "visual"]).
    { apply wp_bind, wp_modify, wp_bind, wp_get_state, wp_ret.
      unfold ready. cbn. congruence. }
    apply wp_bind, wp_get_state.
    destruct (_parse_filter _ c) as [[column value]|].
    + apply wp_bind, wp_try, wp_bind, wp_with_agent_exact.
      apply wp_add_filter with D; [exact ED| |].
      * intros s' Hs'. apply wp_ret. cbv beta. apply wp_bind, wp_get_state, wp_ret.
        unfold ready. cbn. rewrite Est. congruence.
      * intros msg. rewrite set_agent_same. apply wp_ret. cbv beta.
        apply wp_ret. unfold ready. rewrite Est. congruence.
    + apply wp_ret. unfold ready. rewrite Est. congruence.
  - (* VISUALISATION *)
    destruct (dataset (agent c)) as [D|] eqn:ED; [clear Hr|congruence].
    eapply wp_mono; [apply visualisation_returns with D; auto | | auto].
    intros r c'. unfold ready. destruct (stage c'); auto.
  - (* SUMMARY *)
    unfold _handle_summary_follow_up.
    destruct (Text.mem _ ["again"; "restart"; "reset"; "new"]).
    { apply wp_bind, wp_modify. unfold start. apply wp_bind, wp_modify, wp_ret.
      exact Logic.I. }
    now apply adjustment_returns.
  - now apply adjustment_returns.
Qed.

Lemma reachable_ready (c : ConversationContext) : reachable c -> ready c.
Proof.
  induction 1 as [|c Hc IH|c message r c' Hc IH Ht].
  - exact Logic.I.
  - exact Logic.I.
  - pose proof (handle_input_returns message c IH) as Hwp.
    unfold wp in Hwp. now rewrite Ht in Hwp.
Qed.

(** With a backend that answers every statement, every turn of a session
    returns. *)
Lemma turn_returns message (c : ConversationContext) :
  total_backend -> reachable c ->
  exists r c', handle_input message c = (Ok r, c').
Proof.
  intros Htotal Hc.
  pose proof (handle_input_returns message c (reachable_ready Hc)) as Hwp.
  unfold wp in Hwp.
  destruct (handle_input message c) as [[r|e] c']; [eauto|].
  exfalso. exact (Hwp Htotal).
Qed.

End Totality.

Section SummaryFacts.
Context {F : PyFloat} {C : Collaborators}.

(** A turn of the visualization handler whose directive parses and is
    accepted by the session model moves the stage to SUMMARY and goes on
    with [_summarise_results]. *)
Lemma visualisation_enters_summary (text : string) (c : ConversationContext)
    (parsed : payload) (spec : VizSpec.t) (a' : AgentState) :
  _parse_visualisation text = Some parsed ->
  set_visualization (p_chart_type parsed) (p_x_fields parsed) (p_y_measures parsed)
    (p_breakdowns parsed) (p_options parsed) (agent c) = (Ok spec, a') ->
  _handle_visualisation text c =
  (d <- _summarise_results ;; ret (Summary d))
    (set_stage SUMMARY (set_agent a' c)).
Proof.
  intros Hp Hs. unfold _handle_visualisation. rewrite Hp.
  unfold bind at 1. unfold try_ValueError, bind at 1, with_agent.
  rewrite Hs. reflexivity.
Qed.

Lemma entered_summary_ends_in_adjust (text : string) (c c' : ConversationContext)
    (parsed : payload) (spec : VizSpec.t) (a' : AgentState) (r : reply) :
  _parse_visualisation text = Some parsed ->
  set_visualization (p_chart_type parsed) (p_x_fields parsed) (p_y_measures parsed)
    (p_breakdowns parsed) (p_options parsed) (agent c) = (Ok spec, a') ->
  _handle_visualisation text c = (Ok r, c') ->
  stage c' = ADJUST.
Proof.
  intros Hp Hs. rewrite (visualisation_enters_summary text c Hp Hs).
  unfold bind.
  destruct (_summarise_results (set_stage SUMMARY (set_agent a' c)))
    as [[d|e] c1] eqn:E; [|discriminate].
  intros [= _ <-]. exact (summarise_ends_in_adjust _ E).
Qed.

End SummaryFacts.

(* ================================================================== *)
(** * The claims *)
(* ================================================================== *)

(** C1, at the input where the code departs from it: in a session on the
    dataset subscribers the filter text [region=India,US] parses to the
    two-valued set [("India", "US")]; once added, [build_where_clause]
    compiles it to [region BETWEEN 'India' AND 'US'], whereas the clause of
    the specification for this set is [region IN ('India', 'US')]. *)
Theorem C1_two_valued_set_compiles_to_between (F : PyFloat) (C : Collaborators) :
  let c := mkContext
             (set_dataset (PyDict.get "subscribers" DATASETS) new_state)
             FILTERS None in
  let values := SetOf [SStr "India"; SStr "US"] in
  _parse_filter "region=India,US" c = Some ("region", stored values) /\
  build_where_clause (snd (add_filter "region" (stored values) (agent c))) =
    " WHERE region BETWEEN 'India' AND 'US'" /\
  spec_where [("region", values)] = " WHERE region IN ('India', 'US')".
Proof. repeat split; vm_compute; reflexivity. Qed.

(** C2: for the state with dataset subscribers, the filters join_date =
    Range("2025-10-01","2025-11-01") and region = "India" in this order,
    dimensions [region, plan_type] and the measure SUM(monthly_spend) AS
    sum_monthly_spend, [build_sql_query] with the default limit 100 returns
    exactly the statement of the specification; the same state is the one
    built by selecting the dataset, adding the two filters and setting the
    visualization. *)
Theorem C2_subscribers_statement (F : PyFloat) (viz : option VizSpec.t) :
  let statement :=
    "SELECT region, plan_type, SUM(monthly_spend) AS sum_monthly_spend FROM subscribers WHERE join_date BETWEEN '2025-10-01' AND '2025-11-01' AND region = 'India' GROUP BY region, plan_type ORDER BY region, plan_type LIMIT 100;" in
  let s := mkAgentState (PyDict.get "subscribers" DATASETS)
             [("join_date", stored (Range (SStr "2025-10-01") (SStr "2025-11-01")));
              ("region", stored (Scalar (SStr "India")))]
             viz ["region"; "plan_type"]
             [MeasureSpec.make "monthly_spend" "SUM" "sum_monthly_spend"] in
  let built :=
    snd ((select_dataset "subscribers" ;;
          add_filter "join_date" (VTuple [SStr "2025-10-01"; SStr "2025-11-01"]) ;;
          add_filter "region" (VScalar (SStr "India")) ;;
          set_visualization "bar" ["region"; "plan_type"] ["sum:monthly_spend"]
            None None) new_state) in
  build_sql_query 100 s = (Ok statement, s) /\
  (exists viz', built = mkAgentState (dataset s) (filters s) viz' (dimensions s)
                          (measure_specs s)) /\
  fst (describe_state built) =
    Ok (mkDescription "subscribers" (filters s) (visualization built)
          (dimensions s) (measure_specs s) statement).
Proof.
  cbv zeta. split; [|split].
  - vm_compute. reflexivity.
  - vm_compute. eexists. reflexivity.
  - vm_compute. reflexivity.
Qed.

(** C3: after a call of [set_visualization] that returns, every alias is
    the first of the candidates base, base_2, base_3, ... of its default
    alias {aggregation_lower}_{column} that no earlier measure of the call
    uses, and the aliases are pairwise distinct; the measures
    [sum:monthly_spend, sum:monthly_spend] get the aliases sum_monthly_spend
    and sum_monthly_spend_2; alias uniqueness is kept by every operation of
    the session model and by every turn of the dialogue. *)
Theorem C3_aliases_unique (F : PyFloat) :
  (forall ct xs ys bs os (s s' : AgentState) spec,
      set_visualization ct xs ys bs os s = (Ok spec, s') ->
      resolved ys [] (aliases s') /\ NoDup (aliases s')) /\
  aliases (snd (set_visualization "bar" ["region"]
                  ["sum:monthly_spend"; "sum:monthly_spend"] None None
                  (set_dataset (PyDict.get "subscribers" DATASETS) new_state))) =
    ["sum_monthly_spend"; "sum_monthly_spend_2"] /\
  (forall op (s : AgentState),
      NoDup (aliases s) -> NoDup (aliases (state_after op s))) /\
  (forall (C : Collaborators) message (c : ConversationContext),
      NoDup (aliases (agent c)) ->
      NoDup (aliases (agent (snd (handle_input message c))))).
Proof.
  split; [|split; [|split]].
  - intros ct xs ys bs os s s' spec H.
    exact (set_visualization_aliases _ _ _ _ _ _ H).
  - vm_compute. reflexivity.
  - intros op s H. exact (effect_aliases (state_after_effect op s) H).
  - intros C message c H.
    apply (@turn_keeps F C (fun s => NoDup (aliases s))); auto.
    + constructor.
    + intros s s' Heff. exact (effect_aliases Heff).
Qed.

Lemma C3_aliases_unique_witness :
  let s := set_dataset (PyDict.get "subscribers" DATASETS) (@new_state FloatFree) in
  let r := set_visualization "line" ["region"]
             ["avg:monthly_spend"; "monthly_spend"; "AVG : monthly_spend"]
             None None s in
  resolved ["avg:monthly_spend"; "monthly_spend"; "AVG : monthly_spend"] []
    (aliases (snd r)) /\
  NoDup (aliases (snd r)).
Proof.
  cbv zeta.
  apply (proj1 (C3_aliases_unique FloatFree))
    with (ct := "line") (xs := ["region"]) (bs := None) (os := None)
         (s := set_dataset (PyDict.get "subscribers" DATASETS) new_state)
         (spec := VizSpec.make "line" ["region"]
                    ["avg_monthly_spend"; "sum_monthly_spend"; "avg_monthly_spend_2"]
                    [] None).
  vm_compute. reflexivity.
Defined.

(** C4: after a call of [set_visualization] with x-fields xs and breakdowns
    bs that returns, the dimensions of the session are the deduplication by
    first occurrence of xs ++ bs: they have no duplicate and the same
    elements as xs ++ bs; with x = [region, plan_type] and breakdowns =
    [region] they are [region, plan_type]. *)
Theorem C4_dimensions_dedup (F : PyFloat) :
  (forall ct xs ys bs os (s s' : AgentState) spec,
      set_visualization ct xs ys bs os s = (Ok spec, s') ->
      let all := (xs ++ match bs with Some b => b | None => [] end)%list in
      dimensions s' = dedup_first all /\
      NoDup (dimensions s') /\
      (forall x, In x (dimensions s') <-> In x all)) /\
  dimensions (snd (set_visualization "bar" ["region"; "plan_type"]
                     ["sum:monthly_spend"] (Some ["region"]) None
                     (set_dataset (PyDict.get "subscribers" DATASETS) new_state))) =
    ["region"; "plan_type"].
Proof.
  split.
  - intros ct xs ys bs os s s' spec H all.
    apply set_visualization_ok in H. destruct H as [d [ms [_ [_ [-> _]]]]].
    cbn [dimensions]. fold all. rewrite keys_fromkeys. unfold dedup_first.
    split; [reflexivity|]. split; [apply keep_first_NoDup|].
    intros x. rewrite keep_first_In. simpl. tauto.
  - vm_compute. reflexivity.
Qed.

Lemma C4_dimensions_dedup_witness :
  let s := set_dataset (PyDict.get "subscribers" DATASETS) (@new_state FloatFree) in
  let s' := snd (set_visualization "bar" ["region"; "status"; "region"]
                   ["count:user_id"] (Some ["status"; "plan_type"]) None s) in
  dimensions s' = dedup_first ["region"; "status"; "region"; "status"; "plan_type"] /\
  NoDup (dimensions s') /\
  (forall x, In x (dimensions s') <->
             In x ["region"; "status"; "region"; "status"; "plan_type"]).
Proof.
  cbv zeta.
  apply (proj1 (C4_dimensions_dedup FloatFree))
    with (ct := "bar") (ys := ["count:user_id"]) (os := None)
         (xs := ["region"; "status"; "region"]) (bs := Some ["status"; "plan_type"])
         (s := set_dataset (PyDict.get "subscribers" DATASETS) new_state)
         (spec := VizSpec.make "bar" ["region"; "status"; "region"] ["count_user_id"]
                    ["status"; "plan_type"] None).
  vm_compute. reflexivity.
Defined.

(** C5: in a session with active dataset D, [add_filter] on a column of D
    returns and the filter of that column is then the given value, whatever
    was stored for it before, the other filters and the rest of the state
    being untouched; on a name that is not a column of D it raises the
    unknown-column [ValueError] and leaves the state, and so the filters, as
    they were. *)
Theorem C5_add_filter_upserts_or_rejects (F : PyFloat) (s : AgentState)
    (D : Dataset.t) (column : string) (v : FilterValue) :
  dataset s = Some D ->
  (In column (column_names D) ->
   exists s',
     add_filter column v s = (Ok tt, s') /\
     PyDict.get column (filters s') = Some v /\
     (forall k, k <> column ->
                PyDict.get k (filters s') = PyDict.get k (filters s)) /\
     s' = set_filters (filters s') s) /\
  (~ In column (column_names D) ->
   add_filter column v s =
   (Raise (Exn ValueError
             ("Column '" ++ column ++ "' is not available on dataset '"
              ++ Dataset.name D ++ "'.")), s)).
Proof.
  intros HD. split.
  - intros Hin. eexists. split; [exact (add_filter_known s column v HD Hin)|].
    cbn [filters set_filters]. split; [apply PyDictFacts.get_set_same|].
    split; [|reflexivity].
    intros k Hk. now apply PyDictFacts.get_set_other.
  - intros Hout. exact (add_filter_unknown s column v HD Hout).
Qed.

Lemma C5_add_filter_upserts_or_rejects_witness :
  let s := set_filters [("region", VScalar (SStr "EU"))]
             (set_dataset (PyDict.get "subscribers" DATASETS) (@new_state FloatFree)) in
  (exists s',
      add_filter "region" (VScalar (SStr "India")) s = (Ok tt, s') /\
      PyDict.get "region" (filters s') = Some (VScalar (SStr "India")) /\
      (forall k, k <> "region" ->
                 PyDict.get k (filters s') = PyDict.get k (filters s)) /\
      s' = set_filters (filters s') s) /\
  exists e, add_filter "amount" (VScalar (SInt 3)) s = (Raise e, s).
Proof.
  cbv zeta.
  destruct (PyDict.get "subscribers" DATASETS) as [D|] eqn:HD; [|discriminate].
  pose proof (@C5_add_filter_upserts_or_rejects FloatFree
                (set_filters [("region", VScalar (SStr "EU"))]
                   (set_dataset (Some D) new_state)) D) as H.
  injection HD as <-.
  split.
  - apply (proj1 (H "region" (VScalar (SStr "India")) eq_refl)).
    vm_compute. tauto.
  - eexists. apply (proj2 (H "amount" (VScalar (SInt 3)) eq_refl)).
    vm_compute. intuition discriminate.
Defined.

(** C6: from every session state, [select_dataset] with a name of the
    catalog returns that dataset and leaves the state holding it with empty
    filters, visualization, dimensions and measure specs; with a name that
    is not in the catalog it raises the unknown-dataset [ValueError] and
    leaves the state as it was. *)
Theorem C6_select_dataset_resets_or_rejects (F : PyFloat) (s : AgentState)
    (name : string) :
  (forall d, PyDict.get name DATASETS = Some d ->
             select_dataset name s = (Ok d, mkAgentState (Some d) [] None [] [])) /\
  (PyDict.get name DATASETS = None ->
   select_dataset name s =
   (Raise (Exn ValueError ("Unknown dataset '" ++ name ++ "'.")), s)).
Proof.
  split.
  - intros d H. exact (select_dataset_known s name H).
  - intros H. exact (select_dataset_unknown s name H).
Qed.

Lemma C6_select_dataset_resets_or_rejects_witness :
  let s := snd ((select_dataset "subscribers" ;;
                 add_filter "region" (VScalar (SStr "India")) ;;
                 set_visualization "bar" ["region"] ["sum:monthly_spend"] None None)
                  (@new_state FloatFree)) in
  (exists d, select_dataset "payments" s = (Ok d, mkAgentState (Some d) [] None [] []))
  /\ select_dataset "orders" s =
     (Raise (Exn ValueError "Unknown dataset 'orders'."), s).
Proof.
  cbv zeta. split.
  - destruct (PyDict.get "payments" DATASETS) as [d|] eqn:E; [|discriminate].
    exists d.
    exact (proj1 (@C6_select_dataset_resets_or_rejects FloatFree _ "payments") d E).
  - exact (proj2 (@C6_select_dataset_resets_or_rejects FloatFree _ "orders") eq_refl).
Defined.




(** C8: the invariant of the filter mapping (keys are unique and, when a
    dataset is active, each key names one of its columns) holds of a fresh
    state and is kept by every operation of the session model
    ([select_dataset], [add_filter], [set_visualization], [reset]), whether
    it returns or raises, and by every turn of [handle_input]; it holds in
    every context of a session. *)
Theorem C8_filters_name_columns (F : PyFloat) :
  filters_ok new_state /\
  (forall op (s : AgentState), filters_ok s -> filters_ok (state_after op s)) /\
  (forall (C : Collaborators) message (c : ConversationContext),
      filters_ok (agent c) -> filters_ok (agent (snd (handle_input message c)))) /\
  (forall (C : Collaborators) (c : ConversationContext),
      reachable c -> filters_ok (agent c)).
Proof.
  assert (Hturn : forall (C : Collaborators) message (c : ConversationContext),
             filters_ok (agent c) ->
             filters_ok (agent (snd (handle_input message c)))).
  { intros C message c H.
    apply (@turn_keeps F C filters_ok); auto.
    - apply new_state_filters_ok.
    - intros s s' Heff. exact (effect_filters_ok Heff). }
  split; [apply new_state_filters_ok|]. split; [|split; [exact Hturn|]].
  - intros op s H. exact (effect_filters_ok (state_after_effect op s) H).
  - intros C c Hc. induction Hc as [|c Hc IH|c message r c' Hc IH Ht].
    + apply new_state_filters_ok.
    + exact IH.
    + pose proof (Hturn C message c IH) as H. now rewrite Ht in H.
Qed.

Lemma C8_filters_name_columns_witness :
  let s := set_filters [("region", VScalar (SStr "EU"))]
             (set_dataset (PyDict.get "subscribers" DATASETS) (@new_state FloatFree)) in
  filters_ok (state_after (OpAddFilter "status" (VScalar (SStr "active"))) s) /\
  filters_ok (state_after (OpSelectDataset "tickets") s).
Proof.
  cbv zeta.
  assert (H : filters_ok
                (set_filters [("region", VScalar (SStr "EU"))]
                   (set_dataset (PyDict.get "subscribers" DATASETS)
                      (@new_state FloatFree)))).
  { split.
    - vm_compute. constructor; [intros [] | constructor].
    - intros d Hd k Hk. vm_compute in Hd. injection Hd as <-.
      vm_compute in Hk. destruct Hk as [<-|[]]. vm_compute. tauto. }
  split; apply (proj1 (proj2 (C8_filters_name_columns FloatFree))); exact H.
Defined.

(** C9: in every context of a session the stage is not SUMMARY, so no turn
    is dispatched in SUMMARY; a turn of [handle_input] from such a context
    that returns does not end in SUMMARY, and with a backend that answers
    every statement every such turn returns; a turn of the visualization
    handler that enters SUMMARY (its directive parses and is accepted) and
    returns ends in ADJUST, as does every run of [_summarise_results] that
    returns. *)
Theorem C9_summary_is_transient (F : PyFloat) (C : Collaborators)
    (c : ConversationContext) :
  reachable c ->
  stage c <> SUMMARY /\
  (forall message r c',
      handle_input message c = (Ok r, c') -> stage c' <> SUMMARY) /\
  (total_backend ->
   forall message, exists r c',
     handle_input message c = (Ok r, c') /\ stage c' <> SUMMARY) /\
  (forall text parsed spec a' r c',
      _parse_visualisation text = Some parsed ->
      set_visualization (p_chart_type parsed) (p_x_fields parsed)
        (p_y_measures parsed) (p_breakdowns parsed) (p_options parsed) (agent c) =
        (Ok spec, a') ->
      _handle_visualisation text c = (Ok r, c') ->
      stage c' = ADJUST) /\
  (forall c0 d c', _summarise_results c0 = (Ok d, c') -> stage c' = ADJUST).
Proof.
  intros Hc. pose proof (reachable_not_summary Hc) as Hst.
  assert (Hturn : forall message r c',
             handle_input message c = (Ok r, c') -> stage c' <> SUMMARY).
  { intros message r c' Ht.
    pose proof (handle_input_leaves_summary message c Hst) as Hwp.
    unfold wp in Hwp. now rewrite Ht in Hwp. }
  split; [exact Hst|]. split; [exact Hturn|]. split; [|split].
  - intros Htotal message.
    destruct (turn_returns message Htotal Hc) as [r [c' Ht]].
    exists r, c'. split; [exact Ht | exact (Hturn _ _ _ Ht)].
  - intros text parsed spec a' r c' Hp Hs Ht.
    exact (entered_summary_ends_in_adjust text c Hp Hs Ht).
  - intros c0 d c' H. exact (summarise_ends_in_adjust c0 H).
Qed.

Lemma C9_summary_is_transient_witness :
  let c := @after_turns FloatFree ConstantBackend ["subscribers"; "done"]
             (snd (start new_context)) in
  stage c = VISUALISATION /\
  (exists r c', handle_input "chart=bar x=region y=sum:monthly_spend" c = (Ok r, c')
                /\ stage c' = ADJUST) /\
  stage c <> SUMMARY /\
  (forall message r c',
      handle_input message c = (Ok r, c') -> stage c' <> SUMMARY) /\
  (forall message, exists r c',
      handle_input message c = (Ok r, c') /\ stage c' <> SUMMARY).
Proof.
  cbv zeta.
  assert (Hc : reachable (@after_turns FloatFree ConstantBackend
                            ["subscribers"; "done"] (snd (start new_context)))).
  { unfold after_turns. cbn [fold_left].
    repeat (apply reachable_after_turn; [|eexists; vm_compute; reflexivity]).
    apply reach_start, reach_new. }
  assert (Htotal : @total_backend ConstantBackend).
  { intros sql. exists tt. reflexivity. }
  pose proof (C9_summary_is_transient Hc) as [H1 [H2 [H3 _]]].
  split; [vm_compute; reflexivity|].
  split; [|split; [assumption | split; [assumption | exact (H3 Htotal)]]].
  do 2 eexists. split; [vm_compute; reflexivity | reflexivity].
Defined.

(** C10: the visualization parser uses, for the chart type, the x axis and
    the y axis, the value of the first-listed key when it occurs ([chart]
    before [type], [x] before [dimensions], [y] before [metrics]) and that
    of the second key only otherwise; the value of a key that occurs several
    times is that of its last occurrence, for these keys and for the
    pass-through options. This holds of the part of the parser that follows
    the tokenizer, on whatever pairs with non-empty values the tokenizer
    returns, and so, for an ASCII text, of the pairs read from the text. *)
Theorem C10_synonyms_and_repeats (F : PyFloat) (C : Collaborators) :
  (forall parts (p : payload),
      Forall (fun kv => snd kv <> EmptyString) parts ->
      payload_of_parts parts = Some p ->
      precedence parts p) /\
  (forall text (p : payload),
      ascii_text text = true ->
      _parse_visualisation text = Some p ->
      precedence (Re.findall_kv (Text.lower text)) p).
Proof.
  assert (Hparts : forall parts (p : payload),
             Forall (fun kv => snd kv <> EmptyString) parts ->
             payload_of_parts parts = Some p -> precedence parts p).
  { intros parts p Hall H. unfold payload_of_parts in H.
    destruct parts as [|kv parts'] eqn:Eparts; [discriminate|].
    rewrite <- Eparts in *. clear kv parts' Eparts.
    rewrite !(get_or_chosen_filled _ _ Hall) in H.
    unfold precedence.
    destruct (chosen "chart" "type" _) as [[|c0 ct]|]; try discriminate.
    destruct (chosen "x" "dimensions" _) as [[|x0 xv]|]; try discriminate.
    destruct (chosen "y" "metrics" _) as [[|y0 yv]|]; try discriminate.
    destruct (negb (Text.mem (String c0 ct) chart_types)); [discriminate|].
    injection H as <-.
    cbn [p_chart_type p_x_fields p_y_measures p_options option_map].
    repeat split.
    intros options k v Hopt Hget.
    rewrite <- get_of_pairs.
    destruct (filter _ (PyDict.items (PyDict.of_pairs _))) eqn:Ef; [discriminate|].
    injection Hopt as <-. rewrite <- Ef in Hget.
    exact (get_filter_keys k (fun k => negb (Text.mem k recognised_keys)) _ Hget). }
  split; [exact Hparts|].
  intros text p _ H. apply Hparts; [|exact H].
  eapply Forall_impl; [|apply (findall_kv_nonempty (Text.lower text) 0)].
  intros kv Hkv. exact (proj2 Hkv).
Qed.

Lemma C10_synonyms_and_repeats_witness :
  let text :=
    "type=line chart=pie CHART=bar x=status dimensions=plan_type x=region,status metrics=count:user_id y=sum:monthly_spend style=flat style=stacked" in
  exists p,
    @_parse_visualisation text = Some p /\
    p_chart_type p = "bar" /\
    p_x_fields p = ["region"; "status"] /\
    p_y_measures p = ["sum:monthly_spend"] /\
    p_options p = Some [("style", "stacked")] /\
    precedence (Re.findall_kv (Text.lower text)) p /\
    precedence [("type", "line"); ("chart", "bar"); ("x", "region,status");
                ("y", "sum:monthly_spend")]
               (mkPayload "bar" ["region"; "status"] ["sum:monthly_spend"] None None).
Proof.
  cbv zeta. eexists. split; [vm_compute; reflexivity|].
  do 4 (split; [reflexivity|]).
  split.
  - apply (proj2 (@C10_synonyms_and_repeats FloatFree ConstantBackend));
      [reflexivity | vm_compute; reflexivity].
  - apply (proj1 (@C10_synonyms_and_repeats FloatFree ConstantBackend));
      [repeat constructor; discriminate | vm_compute; reflexivity].
Defined.

Unset Implicit Arguments.

(* ================================================================== *)
(** * Further properties of the session model *)
(* ================================================================== *)

Section MoreAgentFacts.
Context {F : PyFloat}.

Lemma require_dataset_none {A} (k : Dataset.t -> M AgentState A) (s : AgentState) :
  dataset s = None -> bind _require_dataset k s = (Raise no_dataset_error, s).
Proof. intros H. unfold _require_dataset. run_monad. now rewrite H. Qed.

Lemma measure_loop_raises_ValueError (D : Dataset.t) (cols : list string) :
  forall ys acc ex e,
    measure_loop D cols ys acc ex = Raise e -> exn_cls e = ValueError.
Proof.
  induction ys as [|raw ys IH]; intros acc ex e H; [discriminate|].
  cbn [measure_loop] in H. destruct (split_measure raw) as [agg col].
  destruct (negb (Text.mem col cols)); [now injection H as <-|].
  destruct (negb (Text.mem (Text.lower agg) allowed_aggs)); [now injection H as <-|].
  eapply IH; eassumption.
Qed.

Lemma upper_of_allowed (agg : string) :
  Text.mem agg allowed_aggs = true -> In (Text.upper agg) aggregations.
Proof.
  intros H. apply mem_In in H. unfold allowed_aggs in H. simpl in H.
  repeat (destruct H as [<-|H]; [vm_compute; tauto|]). contradiction.
Qed.

(** The loop over valid tokens returns, with one well-formed spec per token. *)
Lemma measure_loop_valid (D : Dataset.t) (cols : list string) :
  forall ys acc ex,
    Forall (fun raw => valid_measure cols raw = true) ys ->
    exists new,
      measure_loop D cols ys acc ex = Ok (acc ++ new)%list /\
      length new = length ys /\
      Forall (fun m => In (MeasureSpec.column m) cols /\
                       In (MeasureSpec.aggregation m) aggregations) new /\
      map MeasureSpec.column new = map (fun raw => snd (split_measure raw)) ys.
Proof.
  induction ys as [|raw ys IH]; intros acc ex Hall.
  - exists []. simpl. rewrite app_nil_r. repeat split; constructor.
  - inversion Hall as [|? ? Hraw Hys]; subst.
    unfold valid_measure in Hraw. apply andb_true_iff in Hraw.
    destruct Hraw as [Hcol Hagg].
    cbn [measure_loop]. destruct (split_measure raw) as [agg col] eqn:Es.
    cbn [fst snd] in Hcol, Hagg. rewrite Hcol, Hagg. cbn [negb].
    destruct (IH (acc ++ [MeasureSpec.make col (Text.upper (Text.lower agg))
                            (resolve_alias (Text.lower agg ++ "_" ++ col) ex)])%list
                 (resolve_alias (Text.lower agg ++ "_" ++ col) ex :: ex) Hys)
      as [new [Hloop [Hlen [Hwf Hcols]]]].
    eexists (_ :: new). rewrite Hloop, <- app_assoc. split; [reflexivity|].
    split; [simpl; now rewrite Hlen|]. split.
    + constructor; [|exact Hwf]. simpl. split.
      * now apply mem_In.
      * now apply upper_of_allowed.
    + simpl. now rewrite Hcols, Es.
Qed.

Lemma measure_loop_ok_valid (D : Dataset.t) (cols : list string) :
  forall ys acc ex ms,
    measure_loop D cols ys acc ex = Ok ms ->
    Forall (fun raw => valid_measure cols raw = true) ys.
Proof.
  induction ys as [|raw ys IH]; intros acc ex ms H; [constructor|].
  cbn [measure_loop] in H. unfold valid_measure.
  destruct (split_measure raw) as [agg col] eqn:Es.
  destruct (Text.mem col cols) eqn:Hc; [|discriminate].
  destruct (Text.mem (Text.lower agg) allowed_aggs) eqn:Ha; [|discriminate].
  cbn [negb] in H. constructor.
  - cbv beta. rewrite Es. cbn [fst snd]. now rewrite Hc, Ha.
  - eapply IH; eassumption.
Qed.

Lemma filter_nil_Forall {A} (p : A -> bool) (l : list A) :
  filter (fun x => negb (p x)) l = [] <-> Forall (fun x => p x = true) l.
Proof.
  induction l as [|x l IH]; simpl.
  - split; constructor.
  - destruct (p x) eqn:E; simpl.
    + rewrite IH. split; [now constructor | now inversion 1].
    + split; [discriminate | inversion 1; congruence].
Qed.

Lemma append_assoc (a b c : string) : (a ++ b) ++ c = a ++ (b ++ c).
Proof. induction a as [|ch a IH]; simpl; [reflexivity | now rewrite IH]. Qed.

Lemma append_nil_r (a : string) : a ++ "" = a.
Proof. induction a as [|ch a IH]; simpl; [reflexivity | now rewrite IH]. Qed.

Lemma concat_snoc (sep x : string) (l : list string) :
  l <> [] -> String.concat sep (l ++ [x]) = String.concat sep l ++ sep ++ x.
Proof.
  induction l as [|y l IH]; [contradiction|]. intros _.
  destruct l as [|z l].
  - simpl. reflexivity.
  - change ((y :: z :: l) ++ [x])%list with (y :: ((z :: l) ++ [x]))%list.
    change (String.concat sep (y :: (z :: l) ++ [x]))
      with (y ++ sep ++ String.concat sep ((z :: l) ++ [x])).
    rewrite IH by discriminate.
    change (String.concat sep (y :: z :: l))
      with (y ++ sep ++ String.concat sep (z :: l)).
    now rewrite !append_assoc.
Qed.

Lemma set_absent {V} (k : string) (v : V) (d : PyDict.t V) :
  ~ In k (PyDict.keys d) -> PyDict.set k v d = (d ++ [(k, v)])%list.
Proof.
  induction d as [|[k0 v0] d IH]; simpl; intros H; [reflexivity|].
  destruct (String.eqb_spec k k0) as [->|Hne]; [exfalso; auto|].
  rewrite IH; auto.
Qed.

End MoreAgentFacts.

(** X1: every operation of the session model that needs a dataset raises
    the same [RuntimeError] when none is selected, before looking at its
    arguments, and leaves the state as it was. *)
Theorem X1_no_dataset_selected (F : PyFloat) (s : AgentState) :
  dataset s = None ->
  (forall column value, add_filter column value s = (Raise no_dataset_error, s)) /\
  (forall ct xs ys bs os,
      set_visualization ct xs ys bs os s = (Raise no_dataset_error, s)) /\
  (forall limit, build_sql_query limit s = (Raise no_dataset_error, s)) /\
  describe_state s = (Raise no_dataset_error, s) /\
  suggest_filters s = (Raise no_dataset_error, s) /\
  suggest_enrichments s = (Raise no_dataset_error, s).
Proof.
  intros H. repeat split; intros;
    first [ apply (require_dataset_none _ _ H) ].
Qed.

Lemma X1_no_dataset_selected_witness :
  add_filter "region" (VScalar (SStr "India")) (@new_state FloatFree) =
    (Raise no_dataset_error, new_state) /\
  set_visualization "bar" [] [] None None (@new_state FloatFree) =
    (Raise no_dataset_error, new_state).
Proof.
  split.
  - apply (proj1 (@X1_no_dataset_selected FloatFree new_state eq_refl)).
  - apply (proj1 (proj2 (@X1_no_dataset_selected FloatFree new_state eq_refl))).
Defined.

(** X2: a call of [set_visualization] that raises has written nothing: the
    state is as before the call; with a dataset selected the exception is a
    [ValueError], which is what the dialogue catches. *)
Theorem X2_set_visualization_fails_atomically (F : PyFloat) ct xs ys bs os
    (s s' : AgentState) (e : exn) :
  set_visualization ct xs ys bs os s = (Raise e, s') ->
  s' = s /\ (dataset s <> None -> exn_cls e = ValueError).
Proof.
  intros H. split; [exact (set_visualization_raise _ _ _ _ _ _ H)|].
  intros HD. revert H. unfold set_visualization, _require_dataset. run_monad.
  destruct (dataset s) as [D|]; [clear HD|congruence].
  destruct xs as [|x xs]; [now intros [= <- _]|].
  destruct ys as [|y ys]; [now intros [= <- _]|].
  destruct (filter _ (x :: xs)); [|now intros [= <- _]].
  destruct (filter _ (match bs with Some (b :: r) => b :: r | _ => [] end));
    [|now intros [= <- _]].
  destruct (measure_loop D (column_names D) (y :: ys) [] []) as [ms|e'] eqn:Hl;
    [discriminate|].
  intros [= <- _]. exact (measure_loop_raises_ValueError _ _ _ _ _ _ Hl).
Qed.

Lemma X2_set_visualization_fails_atomically_witness :
  let s := snd ((select_dataset "payments" ;;
                 add_filter "currency" (VScalar (SStr "USD")) ;;
                 set_visualization "bar" ["currency"] ["sum:amount"] None None)
                  (@new_state FloatFree)) in
  let r := set_visualization "line" ["currency"] ["median:amount"] None None s in
  snd r = s /\ (dataset s <> None -> exists msg, fst r = Raise (Exn ValueError msg)).
Proof.
  cbv zeta.
  destruct (set_visualization "line" ["currency"] ["median:amount"] None None _)
    as [[spec|e] s'] eqn:E; [vm_compute in E; discriminate|].
  destruct (X2_set_visualization_fails_atomically _ _ _ _ _ _ _ _ _ E) as [H1 H2].
  split; [exact H1|]. intros HD. specialize (H2 HD).
  destruct e as [cls msg]. simpl in *. subst cls. now exists msg.
Defined.

(** X3: with a dataset selected, [set_visualization] returns exactly when
    the x-fields and the y-measures are non-empty, every x-field and
    breakdown is a column of the dataset and every y-measure token is valid;
    it then stores one measure spec per token, in order, each on a column of
    the dataset with an aggregation among SUM, AVG, COUNT, MIN, MAX, stores
    the returned visualization with the given chart type, x-fields and
    breakdowns, and leaves dataset and filters untouched. *)
Theorem X3_set_visualization_returns_iff_valid (F : PyFloat) ct xs ys bs os
    (s : AgentState) (D : Dataset.t) :
  dataset s = Some D ->
  let cols := column_names D in
  let bs' := match bs with Some b => b | None => [] end in
  let valid :=
    xs <> [] /\ ys <> [] /\ Forall (fun x => In x cols) xs /\
    Forall (fun b => In b cols) bs' /\
    Forall (fun raw => valid_measure cols raw = true) ys in
  (valid <-> exists spec s', set_visualization ct xs ys bs os s = (Ok spec, s')) /\
  (forall spec s',
      set_visualization ct xs ys bs os s = (Ok spec, s') ->
      visualization s' = Some spec /\
      VizSpec.chart_type spec = ct /\ VizSpec.x_fields spec = xs /\
      VizSpec.breakdowns spec = bs' /\
      VizSpec.y_measures spec = aliases s' /\
      map MeasureSpec.column (measure_specs s') =
        map (fun raw => snd (split_measure raw)) ys /\
      Forall (fun m => In (MeasureSpec.column m) cols /\
                       In (MeasureSpec.aggregation m) aggregations)
             (measure_specs s') /\
      dataset s' = dataset s /\ filters s' = filters s).
Proof.
  intros HD cols bs' valid.
  assert (Hbs : match bs with Some (b :: r) => b :: r | _ => [] end = bs')
    by (destruct bs as [[|? ?]|]; reflexivity).
  assert (Hmem : forall l, Forall (fun x => In x cols) l <->
                           Forall (fun x => Text.mem x cols = true) l).
  { intros l. rewrite !Forall_forall. split; intros H x Hx; apply mem_In; auto. }
  assert (Hrun : forall spec s',
             set_visualization ct xs ys bs os s = (Ok spec, s') ->
             valid /\ exists ms,
               measure_loop D cols ys [] [] = Ok ms /\
               s' = mkAgentState (Some D) (filters s) (Some spec)
                      (PyDict.keys (PyDict.fromkeys (xs ++ bs')%list)) ms /\
               spec = VizSpec.make ct xs (map MeasureSpec.alias ms) bs'
                        (if truthy_options os then os else None)).
  { intros spec s'. unfold set_visualization, _require_dataset. run_monad.
    rewrite HD. fold cols.
    destruct xs as [|x xs']; [discriminate|].
    destruct ys as [|y ys']; [discriminate|].
    destruct (filter _ (x :: xs')) eqn:Ex; [|discriminate].
    rewrite Hbs.
    destruct (filter _ bs') eqn:Eb; [|discriminate].
    destruct (measure_loop D cols (y :: ys') [] []) as [ms|e] eqn:El; [|discriminate].
    intros [= <- <-]. split.
    - unfold valid. repeat split; try discriminate.
      + apply Hmem. now apply filter_nil_Forall.
      + apply Hmem. now apply filter_nil_Forall.
      + exact (measure_loop_ok_valid _ _ _ _ _ _ El).
    - exists ms. repeat split.
      unfold set_measure_specs, set_dimensions, set_viz. cbn. now rewrite HD. }
  split; [split|].
  - intros [Hx [Hy [Hxs [Hbs' Hys]]]].
    unfold set_visualization, _require_dataset. run_monad. rewrite HD. fold cols.
    destruct xs as [|x xs']; [congruence|].
    destruct ys as [|y ys']; [congruence|].
    apply Hmem, filter_nil_Forall in Hxs. rewrite Hxs.
    rewrite Hbs. apply Hmem, filter_nil_Forall in Hbs'. rewrite Hbs'.
    destruct (measure_loop_valid D cols _ [] [] Hys) as [new [-> _]].
    do 2 eexists. reflexivity.
  - intros [spec [s' H]]. exact (proj1 (Hrun _ _ H)).
  - intros spec s' H. destruct (Hrun _ _ H) as [[_ [_ [_ [_ Hys]]]] [ms [Hl [-> ->]]]].
    destruct (measure_loop_valid D cols _ [] [] Hys) as [new [Hl' [_ [Hwf Hcols]]]].
    rewrite Hl in Hl'. injection Hl' as ->.
    cbn. rewrite HD. repeat split; auto.
Qed.

Lemma X3_set_visualization_returns_iff_valid_witness :
  let s := set_dataset (PyDict.get "logins" DATASETS) (@new_state FloatFree) in
  exists spec s',
    set_visualization "line" ["login_date"] ["Avg: login_count"; "count:user_id"]
      (Some ["device_type"]) None s = (Ok spec, s') /\
    map MeasureSpec.aggregation (measure_specs s') = ["AVG"; "COUNT"].
Proof.
  cbv zeta.
  destruct (PyDict.get "logins" DATASETS) as [D|] eqn:ED; [|discriminate].
  pose proof (@X3_set_visualization_returns_iff_valid FloatFree "line"
                ["login_date"] ["Avg: login_count"; "count:user_id"]
                (Some ["device_type"]) None
                (set_dataset (Some D) new_state) D eq_refl) as [[Hiff _] _].
  injection ED as <-.
  destruct Hiff as [spec [s' H]].
  - repeat split; try discriminate; repeat constructor; vm_compute; tauto.
  - exists spec, s'. split; [exact H|].
    vm_compute in H. injection H as <- <-. reflexivity.
Defined.

(** X4: reading the session ([describe_state], [build_sql_query],
    [suggest_filters], [suggest_enrichments]) never writes to it, so a
    second [describe_state] right after a first gives the same outcome. *)
Theorem X4_readers_leave_state (F : PyFloat) (s : AgentState) :
  snd (describe_state s) = s /\
  (forall limit, snd (build_sql_query limit s) = s) /\
  snd (suggest_filters s) = s /\
  snd (suggest_enrichments s) = s /\
  describe_state (snd (describe_state s)) = describe_state s.
Proof.
  assert (H := describe_state_pure s).
  repeat split.
  - exact H.
  - intros limit. exact (build_sql_query_pure limit s).
  - exact (suggest_filters_pure s).
  - exact (suggest_enrichments_pure s).
  - now rewrite H.
Qed.

(** X5: [add_filter] on a column that already has a filter keeps the order
    of the filter keys; on a column without one it appends the filter, and
    the WHERE clause then is the old clause followed by AND and the
    conjunct of the new filter (or WHERE and the conjunct, when it is the
    first filter). *)
Theorem X5_add_filter_extends_where (F : PyFloat) (s : AgentState) (D : Dataset.t)
    (column : string) (v : FilterValue) :
  dataset s = Some D -> In column (column_names D) ->
  let s' := snd (add_filter column v s) in
  (In column (PyDict.keys (filters s)) ->
   PyDict.keys (filters s') = PyDict.keys (filters s)) /\
  (~ In column (PyDict.keys (filters s)) ->
   filters s' = (filters s ++ [(column, v)])%list /\
   build_where_clause s' =
     match filters s with
     | [] => " WHERE " ++ where_conjunct column v
     | _ => build_where_clause s ++ " AND " ++ where_conjunct column v
     end).
Proof.
  intros HD Hin s'. unfold s'. rewrite (add_filter_known s column v HD Hin).
  cbn [snd filters set_filters]. split.
  - intros Hk. rewrite PyDictFacts.keys_set.
    apply mem_In in Hk. now rewrite Hk.
  - intros Hk. rewrite (set_absent _ v _ Hk). split; [reflexivity|].
    unfold build_where_clause. cbn [filters set_filters]. unfold PyDict.items.
    destruct (filters s) as [|kv fs] eqn:Ef; [reflexivity|].
    change ((kv :: fs) ++ [(column, v)])%list with (kv :: (fs ++ [(column, v)]))%list.
    cbv iota. rewrite <- Ef at 1.
    change (kv :: (fs ++ [(column, v)])%list) with ((kv :: fs) ++ [(column, v)])%list.
    rewrite <- Ef, map_app. cbn [map fst snd]. unfold Text.join.
    rewrite concat_snoc by (rewrite Ef; discriminate).
    now rewrite append_assoc.
Qed.

Lemma X5_add_filter_extends_where_witness :
  let s := snd ((select_dataset "tickets" ;;
                 add_filter "severity" (VScalar (SStr "high")))
                  (@new_state FloatFree)) in
  build_where_clause (snd (add_filter "status" (VTuple [SStr "a"; SStr "b"; SStr "c"]) s))
  = " WHERE severity = 'high' AND status IN ('a', 'b', 'c')".
Proof.
  cbv zeta.
  destruct (PyDict.get "tickets" DATASETS) as [D|] eqn:ED; [|discriminate].
  pose proof (fun s HD Hin =>
                proj2 (@X5_add_filter_extends_where FloatFree s D "status"
                         (VTuple [SStr "a"; SStr "b"; SStr "c"]) HD Hin)) as H.
  injection ED as <-.
  match goal with
  | |- build_where_clause (snd (add_filter _ _ ?s)) = _ =>
      specialize (H s eq_refl)
  end.
  destruct H as [_ H].
  - vm_compute. tauto.
  - vm_compute. intuition discriminate.
  - rewrite H. reflexivity.
Defined.

(* ================================================================== *)
(** * Further properties of the text primitives and the filter parser *)
(* ================================================================== *)

Lemma all_chars_impl (p q : ascii -> bool) (s : string) :
  (forall c, p c = true -> q c = true) ->
  all_chars p s = true -> all_chars q s = true.
Proof.
  intros Hpq. induction s as [|c r IH]; simpl; [reflexivity|].
  rewrite !andb_true_iff. intros [Hc Hr]. split; auto.
Qed.

Lemma all_chars_app (p : ascii -> bool) (a b : string) :
  all_chars p (a ++ b) = all_chars p a && all_chars p b.
Proof.
  induction a as [|c a IH]; simpl; [reflexivity|].
  now rewrite IH, andb_assoc.
Qed.

Lemma lstrip_nonspace (s : string) :
  all_chars Re.nonspace s = true -> Text.lstrip s = s.
Proof.
  destruct s as [|c r]; simpl; [reflexivity|].
  unfold Re.nonspace. rewrite andb_true_iff, negb_true_iff.
  now intros [-> _].
Qed.

Lemma rstrip_nonspace (s : string) :
  all_chars Re.nonspace s = true -> Text.rstrip s = s.
Proof.
  induction s as [|c r IH]; simpl; [reflexivity|].
  unfold Re.nonspace at 1. rewrite andb_true_iff, negb_true_iff.
  intros [Hc Hr]. rewrite (IH Hr). destruct r; [now rewrite Hc | reflexivity].
Qed.

(** [strip] leaves a text without white space as it is. *)
Lemma strip_nonspace (s : string) :
  all_chars Re.nonspace s = true -> Text.strip s = s.
Proof.
  intros H. unfold Text.strip. rewrite (lstrip_nonspace _ H).
  now apply rstrip_nonspace.
Qed.

Lemma split_once_app (sep : ascii) (a b : string) :
  all_chars (is_not sep) a = true ->
  Text.split_once sep (a ++ String sep b) = Some (a, b).
Proof.
  induction a as [|c a IH]; simpl.
  - now rewrite Ascii.eqb_refl.
  - unfold is_not at 1. rewrite andb_true_iff, negb_true_iff.
    intros [-> Ha]. now rewrite (IH Ha).
Qed.

Lemma str_in_char_app (sep : ascii) (a b : string) :
  Text.str_in (String sep EmptyString) (a ++ String sep b) = true.
Proof.
  induction a as [|c a IH]; simpl.
  - destruct (ascii_dec sep sep); [|congruence]. now destruct b.
  - rewrite IH. apply orb_true_r.
Qed.

Lemma str_in_char_absent (sep : ascii) (s : string) :
  all_chars (is_not sep) s = true ->
  Text.str_in (String sep EmptyString) s = false.
Proof.
  induction s as [|c r IH]; simpl; [reflexivity|].
  unfold is_not at 1. rewrite andb_true_iff, negb_true_iff.
  intros [Hc Hr]. rewrite (IH Hr).
  destruct (ascii_dec sep c) as [->|]; [|reflexivity].
  now rewrite Ascii.eqb_refl in Hc.
Qed.

Lemma split_no_sep (sep : ascii) (s : string) :
  all_chars (is_not sep) s = true -> Text.split sep s = [s].
Proof.
  induction s as [|c r IH]; simpl; [reflexivity|].
  unfold is_not at 1. rewrite andb_true_iff, negb_true_iff.
  intros [-> Hr]. now rewrite (IH Hr).
Qed.

Lemma split_app (sep : ascii) (a b : string) :
  all_chars (is_not sep) a = true ->
  Text.split sep (a ++ String sep b) = a :: Text.split sep b.
Proof.
  induction a as [|c a IH]; simpl.
  - now rewrite Ascii.eqb_refl.
  - unfold is_not at 1. rewrite andb_true_iff, negb_true_iff.
    intros [-> Ha]. now rewrite (IH Ha).
Qed.

(** Splitting the join of items that hold no separator gives the items. *)
Lemma split_join (sep : ascii) (items : list string) :
  items <> [] ->
  Forall (fun v => all_chars (is_not sep) v = true) items ->
  Text.split sep (Text.join (String sep EmptyString) items) = items.
Proof.
  induction items as [|v items IH]; [contradiction|]. intros _ Hall.
  inversion Hall as [|? ? Hv Hitems]; subst.
  destruct items as [|w items].
  - simpl. now apply split_no_sep.
  - change (Text.join (String sep EmptyString) (v :: w :: items))
      with (v ++ String sep (Text.join (String sep EmptyString) (w :: items))).
    rewrite (split_app _ _ _ Hv). f_equal. apply IH; [discriminate | assumption].
Qed.

Lemma list_item_parts (v : string) :
  list_item v = true ->
  Text.nonempty v = true /\ all_chars Re.nonspace v = true /\
  all_chars (is_not ",") v = true.
Proof.
  unfold list_item, token. rewrite !andb_true_iff. tauto.
Qed.

(** The comma-separated text of a non-empty list of items reads back as
    the list. *)
Lemma comma_list_join (items : list string) :
  items <> [] ->
  Forall (fun v => list_item v = true) items ->
  Text.comma_list (Text.join "," items) = items.
Proof.
  intros Hne Hall. unfold Text.comma_list.
  rewrite split_join; [|assumption|].
  - clear Hne. induction Hall as [|v items Hv Hall IH]; [reflexivity|].
    destruct (list_item_parts _ Hv) as [Hn [Hs _]].
    simpl. rewrite (strip_nonspace _ Hs), Hn. simpl.
    now rewrite (strip_nonspace _ Hs), IH.
  - eapply Forall_impl; [|exact Hall]. intros v Hv.
    now destruct (list_item_parts _ Hv) as [_ [_ H]].
Qed.

Lemma join_nonspace (sep : string) (items : list string) :
  all_chars Re.nonspace sep = true ->
  Forall (fun v => all_chars Re.nonspace v = true) items ->
  all_chars Re.nonspace (Text.join sep items) = true.
Proof.
  intros Hsep Hall. induction Hall as [|v items Hv Hall IH]; [reflexivity|].
  destruct items as [|w items]; [exact Hv|].
  change (Text.join sep (v :: w :: items))
    with (v ++ sep ++ Text.join sep (w :: items)).
  now rewrite !all_chars_app, Hv, Hsep, IH.
Qed.

Lemma span_app (p : ascii -> bool) (a b : string) :
  all_chars p a = true -> stops p b = true -> Re.span p (a ++ b) = (a, b).
Proof.
  intros Ha Hb. induction a as [|c a IH]; simpl.
  - destruct b as [|c r]; [reflexivity|]. simpl in *.
    apply negb_true_iff in Hb. now rewrite Hb.
  - simpl in Ha. apply andb_true_iff in Ha. destruct Ha as [-> Ha].
    now rewrite (IH Ha).
Qed.

Lemma plus_app (p : ascii -> bool) (a b : string) :
  Text.nonempty a = true -> all_chars p a = true -> stops p b = true ->
  Re.plus p (a ++ b) = Some (a, b).
Proof.
  intros Hn Ha Hb. unfold Re.plus. rewrite (span_app _ _ _ Ha Hb).
  destruct a; [discriminate | reflexivity].
Qed.

Lemma span_suffix (p q : ascii -> bool) (s : string) :
  all_chars p s = true -> all_chars p (snd (Re.span q s)) = true.
Proof.
  induction s as [|c r IH]; simpl; [reflexivity|].
  intros H. destruct (q c).
  - apply andb_true_iff in H. destruct H as [_ Hr].
    specialize (IH Hr). now destruct (Re.span q r).
  - exact H.
Qed.

Lemma plus_space_nonspace (s : string) :
  all_chars Re.nonspace s = true -> Re.plus Text.isspace s = None.
Proof.
  unfold Re.plus. destruct s as [|c r]; simpl; [reflexivity|].
  unfold Re.nonspace at 1. rewrite andb_true_iff, negb_true_iff.
  now intros [-> _].
Qed.

(** A text without white space holds no between expression. *)
Lemma search_between_nonspace (s : string) :
  all_chars Re.nonspace s = true -> Re.search_between s = None.
Proof.
  induction s as [|c r IH]; intros H; [reflexivity|].
  assert (Hm : Re.match_between (String c r) = None).
  { unfold Re.match_between. destruct (negb (Re.isident_start c)); [reflexivity|].
    pose proof (span_suffix Re.nonspace Text.isword _ H) as Hs.
    destruct (Re.span Text.isword (String c r)) as [column r1]. simpl in Hs.
    now rewrite (plus_space_nonspace _ Hs). }
  cbn [Re.search_between]. rewrite Hm.
  simpl in H. apply andb_true_iff in H. now apply IH.
Qed.

Lemma identifier_parts (s : string) :
  identifier s = true ->
  exists c r, s = String c r /\ Re.isident_start c = true /\
              all_chars Text.isword s = true.
Proof.
  destruct s as [|c r]; [discriminate|]. unfold identifier.
  rewrite andb_true_iff. intros [H1 H2]. now exists c, r.
Qed.

Lemma token_parts (s : string) :
  token s = true -> Text.nonempty s = true /\ all_chars Re.nonspace s = true.
Proof. unfold token. now rewrite andb_true_iff. Qed.

Lemma token_stops_space (t rest : string) :
  token t = true -> stops Text.isspace (t ++ rest) = true.
Proof.
  intros H. destruct (token_parts _ H) as [Hn Hs].
  destruct t as [|c0 r0]; [discriminate|]. simpl in *.
  apply andb_true_iff in Hs. exact (proj1 Hs).
Qed.

Lemma space_not_word (c : ascii) : Text.isspace c = true -> Text.isword c = false.
Proof. destruct c as [[] [] [] [] [] [] [] []]; vm_compute; congruence. Qed.

Lemma space_lower (c : ascii) : Text.isspace c = true -> Text.lower_char c = c.
Proof. destruct c as [[] [] [] [] [] [] [] []]; vm_compute; congruence. Qed.

Lemma blank_parts (ws : string) :
  blank ws = true -> Text.nonempty ws = true /\ all_chars Text.isspace ws = true.
Proof. unfold blank. now rewrite andb_true_iff. Qed.

Lemma blank_stops_word (ws rest : string) :
  blank ws = true -> stops Text.isword (ws ++ rest) = true.
Proof.
  intros H. destruct (blank_parts _ H) as [Hn Hs].
  destruct ws as [|c r]; [discriminate|]. simpl in *.
  apply andb_true_iff in Hs. now rewrite (space_not_word _ (proj1 Hs)).
Qed.

Lemma blank_stops_nonspace (ws rest : string) :
  blank ws = true -> stops Re.nonspace (ws ++ rest) = true.
Proof.
  intros H. destruct (blank_parts _ H) as [Hn Hs].
  destruct ws as [|c r]; [discriminate|]. simpl in *.
  apply andb_true_iff in Hs. unfold Re.nonspace. now rewrite (proj1 Hs).
Qed.

(** A word that lower-cases to a literal of letters is matched by it under
    [re.IGNORECASE], and does not start with white space. *)
Lemma literal_ci_lower (lit kw rest : string) :
  Text.lower kw = lit -> Re.literal_ci lit (kw ++ rest) = Some rest.
Proof.
  revert lit. induction kw as [|c kw IH]; intros lit <-; simpl.
  - reflexivity.
  - rewrite Ascii.eqb_refl. now apply IH.
Qed.

Lemma keyword_stops_space (lit kw rest : string) :
  Text.lower kw = lit -> token lit = true ->
  stops Text.isspace (kw ++ rest) = true.
Proof.
  intros <- H. destruct (token_parts _ H) as [Hn Hs].
  destruct kw as [|c r]; [discriminate|]. simpl in *.
  apply andb_true_iff in Hs. destruct Hs as [Hc _]. unfold Re.nonspace in Hc.
  destruct (Text.isspace c) eqn:E; [|reflexivity].
  now rewrite (space_lower _ E), E in Hc.
Qed.

Lemma plus_blank (ws rest : string) :
  blank ws = true -> stops Text.isspace rest = true ->
  Re.plus Text.isspace (ws ++ rest) = Some (ws, rest).
Proof.
  intros H Hr. destruct (blank_parts _ H) as [Hn Hs]. now apply plus_app.
Qed.

Lemma plus_token (t rest : string) :
  token t = true -> stops Re.nonspace rest = true ->
  Re.plus Re.nonspace (t ++ rest) = Some (t, rest).
Proof.
  intros H Hr. destruct (token_parts _ H) as [Hn Hs]. now apply plus_app.
Qed.

(** A between expression in any spelling the pattern admits: a column, the
    words between and and in any case, any white space between the parts. *)
Lemma match_between_spelled (column ws1 kw1 ws2 start_ ws3 kw2 ws4 end_ : string) :
  identifier column = true -> token start_ = true -> token end_ = true ->
  Text.lower kw1 = "between" -> Text.lower kw2 = "and" ->
  blank ws1 = true -> blank ws2 = true -> blank ws3 = true -> blank ws4 = true ->
  Re.match_between
    (column ++ ws1 ++ kw1 ++ ws2 ++ start_ ++ ws3 ++ kw2 ++ ws4 ++ end_) =
  Some (column, start_, end_).
Proof.
  intros Hc Hs He Hk1 Hk2 H1 H2 H3 H4.
  destruct (identifier_parts _ Hc) as [c [r [-> [Hc0 Hw]]]].
  unfold Re.match_between.
  set (rest := ws1 ++ kw1 ++ ws2 ++ start_ ++ ws3 ++ kw2 ++ ws4 ++ end_).
  change (String c r ++ rest) with (String c (r ++ rest)).
  cbv iota beta. rewrite Hc0. cbn [negb].
  change (String c (r ++ rest)) with (String c r ++ rest).
  assert (Hst : stops Text.isword rest = true)
    by (unfold rest; now apply blank_stops_word).
  rewrite (span_app Text.isword _ _ Hw Hst).
  unfold rest.
  rewrite (plus_blank _ _ H1 (keyword_stops_space _ _ _ Hk1 eq_refl)).
  rewrite (literal_ci_lower _ _ _ Hk1).
  rewrite (plus_blank _ _ H2 (token_stops_space _ _ Hs)).
  rewrite (plus_token _ _ Hs (blank_stops_nonspace _ _ H3)).
  rewrite (plus_blank _ _ H3 (keyword_stops_space _ _ _ Hk2 eq_refl)).
  rewrite (literal_ci_lower _ _ _ Hk2).
  assert (HeS : stops Text.isspace end_ = true)
    by (rewrite <- (append_nil_r end_); now apply token_stops_space).
  rewrite (plus_blank _ _ H4 HeS).
  rewrite <- (append_nil_r end_) at 1.
  rewrite (plus_token end_ "" He eq_refl).
  reflexivity.
Qed.

Section FilterRoundTrip.
Context {F : PyFloat} {C : Collaborators}.

Lemma parse_filter_between (c : ConversationContext) (D : Dataset.t)
    (text column start_ end_ : string) :
  dataset (agent c) = Some D ->
  Re.match_between text = Some (column, start_, end_) ->
  _parse_filter text c =
  Some (column, _cast_value D column (RawTuple [start_; end_])).
Proof.
  intros HD Hm. unfold _parse_filter. rewrite HD.
  destruct text; cbn [Re.search_between]; now rewrite Hm.
Qed.

Lemma parse_filter_listed (c : ConversationContext) (D : Dataset.t)
    (sep : ascii) (column : string) (values : list string) :
  dataset (agent c) = Some D ->
  (sep = "="%char \/
   sep = ":"%char /\ all_chars (is_not "=") column = true /\
   Forall (fun v => all_chars (is_not "=") v = true) values) ->
  Re.nonspace sep = true ->
  all_chars Re.nonspace column = true ->
  all_chars (is_not sep) column = true ->
  values <> [] -> Forall (fun v => list_item v = true) values ->
  _parse_filter (column ++ String sep (Text.join "," values)) c =
  Some (column,
        match values with
        | [v] => _cast_value D column (RawStr v)
        | _ => VTuple (map (cast_item D column) values)
        end).
Proof.
  intros HD Hsep Hsp Hcs Hcsep Hne Hall.
  assert (Hjoin : all_chars Re.nonspace (Text.join "," values) = true).
  { apply join_nonspace; [reflexivity|].
    eapply Forall_impl; [|exact Hall]. intros v Hv.
    now destruct (list_item_parts _ Hv) as [_ [H _]]. }
  unfold _parse_filter. rewrite HD.
  rewrite search_between_nonspace
    by (rewrite all_chars_app; simpl; now rewrite Hcs, Hsp, Hjoin).
  assert (Hparts :
            (if Text.str_in "=" (column ++ String sep (Text.join "," values))
             then Text.split_once "=" (column ++ String sep (Text.join "," values))
             else if Text.str_in ":" (column ++ String sep (Text.join "," values))
                  then Text.split_once ":" (column ++ String sep (Text.join "," values))
                  else None) = Some (column, Text.join "," values)).
  { destruct Hsep as [->|[-> [Hceq Hveq]]].
    - rewrite str_in_char_app. now apply split_once_app.
    - rewrite str_in_char_absent.
      + rewrite str_in_char_app. now apply split_once_app.
      + rewrite all_chars_app. simpl. rewrite Hceq. simpl.
        clear - Hveq. induction Hveq as [|v vs Hv Hvs IH]; [reflexivity|].
        destruct vs as [|w vs]; [exact Hv|].
        change (Text.join "," (v :: w :: vs))
          with (v ++ "," ++ Text.join "," (w :: vs)).
        now rewrite !all_chars_app, Hv, IH. }
  rewrite Hparts. rewrite (strip_nonspace _ Hcs), (strip_nonspace _ Hjoin).
  rewrite (comma_list_join _ Hne Hall).
  destruct values as [|v [|w vs]]; [contradiction | reflexivity | reflexivity].
Qed.

End FilterRoundTrip.

(** X6: an ASCII between expression laid out as the pattern admits (a
    column identifier, the words between and and in any letter case, runs of
    white space between the parts, two tokens without white space) parses,
    in a session with a dataset, to that column and to the two tokens, each
    cast for the column. *)
Theorem X6_between_filter_round_trip (F : PyFloat) (C : Collaborators)
    (c : ConversationContext) (D : Dataset.t)
    (column ws1 kw1 ws2 start_ ws3 kw2 ws4 end_ : string) :
  dataset (agent c) = Some D ->
  ascii_text
    (column ++ ws1 ++ kw1 ++ ws2 ++ start_ ++ ws3 ++ kw2 ++ ws4 ++ end_) = true ->
  identifier column = true -> token start_ = true -> token end_ = true ->
  Text.lower kw1 = "between" -> Text.lower kw2 = "and" ->
  blank ws1 = true -> blank ws2 = true -> blank ws3 = true -> blank ws4 = true ->
  _parse_filter
    (column ++ ws1 ++ kw1 ++ ws2 ++ start_ ++ ws3 ++ kw2 ++ ws4 ++ end_) c =
  Some (column, _cast_value D column (RawTuple [start_; end_])).
Proof.
  intros HD _ Hc Hs He Hk1 Hk2 H1 H2 H3 H4.
  apply parse_filter_between; [exact HD|].
  now apply match_between_spelled.
Qed.

Lemma X6_between_filter_round_trip_witness :
  let c := @after_turns FloatFree ConstantBackend ["subscribers"]
             (snd (start new_context)) in
  _parse_filter "monthly_spend  BETWEEN 10 And 2025-x" c =
  Some ("monthly_spend", VTuple [SInt 10; SStr "2025-x"]).
Proof.
  cbv zeta.
  destruct (PyDict.get "subscribers" DATASETS) as [D|] eqn:ED; [|discriminate].
  pose proof (fun c HD =>
                @X6_between_filter_round_trip FloatFree ConstantBackend c D
                  "monthly_spend" "  " "BETWEEN" " " "10" " " "And" " " "2025-x"
                  HD eq_refl eq_refl eq_refl eq_refl eq_refl eq_refl
                  eq_refl eq_refl eq_refl eq_refl) as H.
  injection ED as <-.
  match goal with |- _parse_filter _ ?c = _ => specialize (H c eq_refl) end.
  exact H.
Defined.

(** X7: the ASCII text column=v1,...,vn (or column:v1,...,vn when no =
    occurs), built from a column without white space and n >= 1 items that
    are non-empty and free of white space and commas, parses, in a session
    with a dataset, to that column with the one item cast as a scalar when
    n = 1 and with the tuple of the cast items otherwise. *)
Theorem X7_listed_filter_round_trip (F : PyFloat) (C : Collaborators)
    (c : ConversationContext) (D : Dataset.t) (column : string)
    (values : list string) :
  dataset (agent c) = Some D ->
  ascii_text (column ++ Text.join "," values) = true ->
  all_chars Re.nonspace column = true ->
  values <> [] -> Forall (fun v => list_item v = true) values ->
  let parsed :=
    Some (column,
          match values with
          | [v] => _cast_value D column (RawStr v)
          | _ => VTuple (map (cast_item D column) values)
          end) in
  (all_chars (is_not "=") column = true ->
   _parse_filter (column ++ "=" ++ Text.join "," values) c = parsed) /\
  (all_chars (is_not ":") column = true ->
   all_chars (is_not "=") column = true ->
   Forall (fun v => all_chars (is_not "=") v = true) values ->
   _parse_filter (column ++ ":" ++ Text.join "," values) c = parsed).
Proof.
  intros HD _ Hcs Hne Hall parsed. split.
  - intros Hceq. apply (parse_filter_listed c D "="); auto.
  - intros Hcc Hceq Hveq. apply (parse_filter_listed c D ":"); auto.
Qed.

Lemma X7_listed_filter_round_trip_witness :
  let c := @after_turns FloatFree ConstantBackend ["tickets"]
             (snd (start new_context)) in
  _parse_filter "severity=high,low" c =
    Some ("severity", VTuple [SStr "high"; SStr "low"]) /\
  _parse_filter "response_time_hours:12" c =
    Some ("response_time_hours", VScalar (SInt 12)).
Proof.
  cbv zeta.
  destruct (PyDict.get "tickets" DATASETS) as [D|] eqn:ED; [|discriminate].
  pose proof (fun c HD column values H0 H1 H2 H3 =>
                @X7_listed_filter_round_trip FloatFree ConstantBackend c D
                  column values HD H0 H1 H2 H3) as H.
  injection ED as <-.
  split.
  - match goal with |- _parse_filter _ ?c = _ =>
      refine (proj1 (H c eq_refl "severity" ["high"; "low"] eq_refl eq_refl _ _)
                eq_refl)
    end; [discriminate | repeat constructor].
  - match goal with |- _parse_filter _ ?c = _ =>
      refine (proj2 (H c eq_refl "response_time_hours" ["12"] eq_refl eq_refl _ _)
                eq_refl eq_refl _)
    end; [discriminate | repeat constructor | repeat constructor].
Defined.

(* ================================================================== *)
(** * Integer literals *)
(* ================================================================== *)

Lemma int_digits_uint_acc (d : Decimal.uint) :
  forall (p : positive) (b : bool),
    d <> Decimal.Nil \/ b = true ->
    Text.int_digits (Z.pos p) b (NilEmpty.string_of_uint d) =
    Some (Z.pos (Pos.of_uint_acc d p)).
Proof.
  induction d; intros p b Hb;
    try (cbn [NilEmpty.string_of_uint Text.int_digits Pos.of_uint_acc];
         match goal with
         | |- context [Text.isdigit ?c] => change (Text.isdigit c) with true
         end; cbv iota;
         match goal with
         | |- Text.int_digits ?z true _ = Some (Z.pos (Pos.of_uint_acc _ ?q)) =>
             replace z with (Z.pos q)
               by (match goal with
                   | |- context [Text.digit_value ?c] =>
                       let v := eval vm_compute in (Text.digit_value c) in
                       change (Text.digit_value c) with v
                   end; lia)
         end; apply IHd; now right).
  simpl. destruct Hb as [Hb| ->]; [congruence | reflexivity].
Qed.

Lemma int_digits_uint (d : Decimal.uint) :
  forall b, d <> Decimal.Nil \/ b = true ->
            Text.int_digits 0 b (NilEmpty.string_of_uint d) =
            Some (Z.of_N (Pos.of_uint d)).
Proof.
  induction d; intros b Hb;
    try (cbn [NilEmpty.string_of_uint Text.int_digits Pos.of_uint];
         match goal with
         | |- context [Text.isdigit ?c] => change (Text.isdigit c) with true
         end; cbv iota;
         match goal with
         | |- Text.int_digits ?z true _ = Some (Z.of_N (N.pos (Pos.of_uint_acc _ ?q))) =>
             change z with (Z.pos q); apply int_digits_uint_acc; now right
         end).
  - simpl. destruct Hb as [Hb| ->]; [congruence | reflexivity].
  - cbn [NilEmpty.string_of_uint Text.int_digits Pos.of_uint].
    change (Text.isdigit "0") with true. cbv iota.
    change (10 * 0 + Text.digit_value "0")%Z with 0%Z.
    apply IHd. now right.
Qed.

Lemma string_of_uint_digits (d : Decimal.uint) :
  all_chars Text.isdigit (NilEmpty.string_of_uint d) = true.
Proof. induction d; simpl; auto. Qed.

Lemma digit_nonspace (c : ascii) : Text.isdigit c = true -> Re.nonspace c = true.
Proof. destruct c as [[] [] [] [] [] [] [] []]; vm_compute; congruence. Qed.

Lemma digit_not_dot (c : ascii) : Text.isdigit c = true -> is_not "." c = true.
Proof. destruct c as [[] [] [] [] [] [] [] []]; vm_compute; congruence. Qed.

(** Within the limit of [int] the digits are read. *)
Lemma checked_digits_within (s : string) :
  (Text.digit_count s <= Text.max_str_digits)%Z ->
  Text.checked_digits s = Text.int_digits 0 false s.
Proof.
  intros H. unfold Text.checked_digits.
  destruct (Z.ltb_spec Text.max_str_digits (Text.digit_count s)); [lia | reflexivity].
Qed.

(** On a text of digits [int] reads the digits, signed or not. *)
Lemma int_of_str_digits (s : string) :
  all_chars Text.isdigit s = true ->
  Text.int_of_str s = Text.checked_digits s /\
  Text.int_of_str (String "-" s) = option_map Z.opp (Text.checked_digits s).
Proof.
  intros H.
  assert (Hs : all_chars Re.nonspace s = true)
    by (eapply all_chars_impl; [apply digit_nonspace | exact H]).
  unfold Text.int_of_str. split.
  - rewrite (strip_nonspace _ Hs). destruct s as [|c r]; [reflexivity|].
    simpl in H. apply andb_true_iff in H. destruct H as [Hc _].
    destruct c as [[] [] [] [] [] [] [] []]; try discriminate Hc; reflexivity.
  - rewrite strip_nonspace; [reflexivity|]. simpl. exact Hs.
Qed.

(** Reading the decimal text of an integer gives the integer back, when
    the text is within the limit of [int]. *)
Lemma int_of_str_str_int (z : Z) :
  (Text.digit_count (Text.str_int z) <= Text.max_str_digits)%Z ->
  Text.int_of_str (Text.str_int z) = Some z.
Proof.
  unfold Text.str_int.
  assert (Hpos : forall p,
             Text.int_digits 0 false (NilEmpty.string_of_uint (Pos.to_uint p)) =
             Some (Z.pos p)).
  { intros p. rewrite int_digits_uint.
    - now rewrite DecimalPos.Unsigned.of_to.
    - left. apply DecimalPos.Unsigned.to_uint_nonnil. }
  assert (Hnil : forall p, NilZero.string_of_uint (Pos.to_uint p) =
                           NilEmpty.string_of_uint (Pos.to_uint p)).
  { intros p. pose proof (DecimalPos.Unsigned.to_uint_nonnil p) as Hn.
    unfold NilZero.string_of_uint. now destruct (Pos.to_uint p). }
  destruct z as [|p|p]; cbn [Z.to_int NilZero.string_of_int].
  - intros _. vm_compute. reflexivity.
  - rewrite Hnil. intros Hlim.
    rewrite (proj1 (int_of_str_digits _ (string_of_uint_digits _))).
    rewrite (checked_digits_within _ Hlim). apply Hpos.
  - rewrite Hnil. intros Hlim.
    rewrite (proj2 (int_of_str_digits _ (string_of_uint_digits _))).
    rewrite checked_digits_within; [now rewrite Hpos|].
    cbn [Text.digit_count] in Hlim.
    change (Text.isdigit "-") with false in Hlim. cbv iota in Hlim. lia.
Qed.

Lemma str_int_no_dot (z : Z) : Text.str_in "." (Text.str_int z) = false.
Proof.
  apply str_in_char_absent. unfold Text.str_int.
  assert (H : forall d, all_chars (is_not ".") (NilZero.string_of_uint d) = true).
  { intros d. unfold NilZero.string_of_uint.
    destruct d; try reflexivity;
      (eapply all_chars_impl; [apply digit_not_dot | apply string_of_uint_digits]). }
  destruct (Z.to_int z) as [d|d]; cbn [NilZero.string_of_int]; [apply H|].
  simpl. apply H.
Qed.

Section CastFacts.
Context {F : PyFloat} {C : Collaborators}.

Lemma cast_literal_filled (column : Column.t) (v : string) :
  v <> EmptyString -> filled (cast_literal column v).
Proof.
  intros Hv. unfold cast_literal.
  destruct (String.eqb _ "numeric"); [|exact Hv].
  destruct (Text.str_in "." v).
  - destruct (float_of_str v); [exact Logic.I | exact Hv].
  - destruct (Text.int_of_str v); [exact Logic.I | exact Hv].
Qed.

Lemma cast_item_filled (D : Dataset.t) (column v : string) :
  v <> EmptyString -> filled (cast_item D column v).
Proof.
  intros Hv. unfold cast_item, _cast_value.
  destruct (find _ (Dataset.columns D)); [|exact Hv].
  now apply cast_literal_filled.
Qed.

Lemma cast_items_filled (D : Dataset.t) (column : string) (l : list string) :
  Forall (fun v => v <> EmptyString) l ->
  Forall filled (map (cast_item D column) l).
Proof.
  induction 1 as [|v l Hv Hl IH]; simpl; constructor; auto.
  now apply cast_item_filled.
Qed.

Lemma cast_value_shape (D : Dataset.t) (column : string) :
  (forall v, v <> EmptyString -> parsed_shape (_cast_value D column (RawStr v))) /\
  (forall a b, a <> EmptyString -> b <> EmptyString ->
               parsed_shape (_cast_value D column (RawTuple [a; b]))).
Proof.
  unfold _cast_value. destruct (find _ (Dataset.columns D)) as [col|]; split.
  - intros v Hv. now apply cast_literal_filled.
  - intros a b Ha Hb. simpl. split; [lia|].
    repeat constructor; now apply cast_literal_filled.
  - intros v Hv. exact Hv.
  - intros a b Ha Hb. simpl. split; [lia|]. repeat constructor; assumption.
Qed.

Lemma match_between_tokens (s column start_ end_ : string) :
  Re.match_between s = Some (column, start_, end_) ->
  start_ <> EmptyString /\ end_ <> EmptyString.
Proof.
  unfold Re.match_between. destruct s as [|c r]; [discriminate|].
  destruct (negb (Re.isident_start c)); [discriminate|].
  destruct (Re.span Text.isword (String c r)) as [col r1].
  destruct (Re.plus Text.isspace r1) as [[? r2]|]; [|discriminate].
  destruct (Re.literal_ci "between" r2) as [r3|]; [|discriminate].
  destruct (Re.plus Text.isspace r3) as [[? r4]|]; [|discriminate].
  destruct (Re.plus Re.nonspace r4) as [[st r5]|] eqn:E1; [|discriminate].
  destruct (Re.plus Text.isspace r5) as [[? r6]|]; [|discriminate].
  destruct (Re.literal_ci "and" r6) as [r7|]; [|discriminate].
  destruct (Re.plus Text.isspace r7) as [[? r8]|]; [|discriminate].
  destruct (Re.plus Re.nonspace r8) as [[en r9]|] eqn:E2; [|discriminate].
  intros [= _ <- <-]. split; eapply plus_nonempty; eassumption.
Qed.

Lemma search_between_tokens (s column start_ end_ : string) :
  Re.search_between s = Some (column, start_, end_) ->
  start_ <> EmptyString /\ end_ <> EmptyString.
Proof.
  induction s as [|c r IH]; cbn [Re.search_between].
  - destruct (Re.match_between "") as [m|] eqn:E; [|discriminate].
    intros [= ->]. eapply match_between_tokens; eassumption.
  - destruct (Re.match_between (String c r)) as [m|] eqn:E; [|exact IH].
    intros [= ->]. eapply match_between_tokens; eassumption.
Qed.

Lemma comma_list_nonempty (s : string) :
  Forall (fun v => v <> EmptyString) (Text.comma_list s).
Proof.
  unfold Text.comma_list. induction (Text.split "," s) as [|x l IH]; simpl.
  - constructor.
  - destruct (Text.nonempty (Text.strip x)) eqn:E; [|exact IH].
    simpl. constructor; [|exact IH]. now destruct (Text.strip x).
Qed.

End CastFacts.

(** X8: for a numeric column, the decimal text of an integer of at most
    4300 digits (the limit of [int]) is cast to that integer: [int] reads
    back what [str] writes, sign included, so the compiled conjunct is the
    column, an equals sign and the same text, without quotes. *)
Theorem X8_integer_literal_round_trip (F : PyFloat) (column : Column.t) (z : Z) :
  Column.type column = "numeric" ->
  (Text.digit_count (Text.str_int z) <= Text.max_str_digits)%Z ->
  Text.int_of_str (Text.str_int z) = Some z /\
  cast_literal column (Text.str_int z) = SInt z /\
  where_conjunct (Column.name column)
    (VScalar (cast_literal column (Text.str_int z))) =
  Column.name column ++ " = " ++ Text.str_int z.
Proof.
  intros Ht Hlim.
  assert (Hc : cast_literal column (Text.str_int z) = SInt z).
  { unfold cast_literal. rewrite Ht, str_int_no_dot, (int_of_str_str_int z Hlim).
    reflexivity. }
  split; [exact (int_of_str_str_int z Hlim)|]. split; [exact Hc|]. now rewrite Hc.
Qed.

Lemma X8_integer_literal_round_trip_witness :
  let column := Column.make "amount" "numeric" "measure" None in
  @cast_literal FloatFree column "-1250" = SInt (-1250) /\
  Text.int_of_str "-1250" = Some (-1250)%Z.
Proof.
  cbv zeta.
  destruct (@X8_integer_literal_round_trip FloatFree
              (Column.make "amount" "numeric" "measure" None) (-1250) eq_refl)
    as [H1 [H2 _]].
  - apply Z.leb_le. vm_compute. reflexivity.
  - split; [exact H2 | exact H1].
Defined.

(** X9: a literal is coerced only for a resolved numeric column: when the
    dataset has no column of the given name, or the first column of that
    name is not numeric, [_cast_value] keeps every literal as the string it
    was, and the compiled conjunct of a scalar quotes it. *)
Theorem X9_no_coercion_off_numeric (F : PyFloat) (D : Dataset.t)
    (column_name : string) :
  (forall col,
      find (fun col => String.eqb (Column.name col) column_name)
           (Dataset.columns D) = Some col ->
      Column.type col <> "numeric") ->
  (forall v, _cast_value D column_name (RawStr v) = VScalar (SStr v)) /\
  (forall vs, _cast_value D column_name (RawTuple vs) = VTuple (map SStr vs)) /\
  (forall v, where_conjunct column_name (_cast_value D column_name (RawStr v)) =
             column_name ++ " = '" ++ v ++ "'").
Proof.
  intros H.
  assert (Hl : forall col v,
             find (fun col => String.eqb (Column.name col) column_name)
                  (Dataset.columns D) = Some col ->
             cast_literal col v = SStr v).
  { intros col v Hf. unfold cast_literal.
    destruct (String.eqb_spec (Column.type col) "numeric") as [E|_];
      [now apply H in Hf | reflexivity]. }
  assert (H1 : forall v, _cast_value D column_name (RawStr v) = VScalar (SStr v)).
  { intros v. unfold _cast_value.
    destruct (find _ (Dataset.columns D)) as [col|] eqn:Ef; [|reflexivity].
    now rewrite (Hl col v eq_refl). }
  split; [exact H1|]. split.
  - intros vs. unfold _cast_value.
    destruct (find _ (Dataset.columns D)) as [col|] eqn:Ef; [|reflexivity].
    f_equal. apply map_ext. intros v. now apply Hl.
  - intros v. now rewrite H1.
Qed.

Lemma X9_no_coercion_off_numeric_witness :
  match PyDict.get "subscribers" DATASETS with
  | Some D =>
      @_cast_value FloatFree D "region" (RawStr "42") = VScalar (SStr "42") /\
      @_cast_value FloatFree D "churn" (RawTuple ["1"; "2"]) =
        VTuple [SStr "1"; SStr "2"]
  | None => False
  end.
Proof.
  destruct (PyDict.get "subscribers" DATASETS) as [D|] eqn:HD;
    [|vm_compute in HD; discriminate].
  vm_compute in HD. injection HD as <-. split.
  - apply (@X9_no_coercion_off_numeric FloatFree).
    intros col Hf. vm_compute in Hf. injection Hf as <-. discriminate.
  - apply (@X9_no_coercion_off_numeric FloatFree).
    intros col Hf. vm_compute in Hf. discriminate.
Defined.

(** X10: whatever the text, a filter the parser returns has a filled
    value: a scalar that is not the empty string, or a tuple of at least two
    such scalars; and the parser returns nothing when no dataset is
    selected. *)
Theorem X10_parsed_filter_shape (F : PyFloat) (C : Collaborators)
    (c : ConversationContext) (text column : string) (v : FilterValue) :
  _parse_filter text c = Some (column, v) ->
  parsed_shape v /\ dataset (agent c) <> None.
Proof.
  unfold _parse_filter. destruct (dataset (agent c)) as [D|]; [|discriminate].
  intros H. split; [|discriminate].
  destruct (Re.search_between text) as [[[col st] en]|] eqn:Es.
  - injection H as <- <-.
    destruct (search_between_tokens _ _ _ _ Es) as [Hs He].
    now apply (proj2 (cast_value_shape D col)).
  - destruct (if Text.str_in "=" text then Text.split_once "=" text
              else if Text.str_in ":" text then Text.split_once ":" text else None)
      as [[a b]|]; [|discriminate].
    pose proof (comma_list_nonempty (Text.strip b)) as Hall.
    destruct (Text.comma_list (Text.strip b)) as [|v0 [|v1 vs]]; [discriminate| |].
    + injection H as <- <-. inversion Hall; subst.
      now apply (proj1 (cast_value_shape D (Text.strip a))).
    + injection H as <- <-. split; [simpl; lia|].
      exact (cast_items_filled D (Text.strip a) _ Hall).
Qed.

Lemma X10_parsed_filter_shape_witness :
  let c := @after_turns FloatFree ConstantBackend ["payments"]
             (snd (start new_context)) in
  exists column v,
    _parse_filter " currency = usd, ,eur,, " c = Some (column, v) /\
    parsed_shape v /\ dataset (agent c) <> None.
Proof.
  cbv zeta. exists "currency", (VTuple [SStr "usd"; SStr "eur"]).
  split; [vm_compute; reflexivity|].
  apply (@X10_parsed_filter_shape FloatFree ConstantBackend _
           " currency = usd, ,eur,, " "currency").
  vm_compute. reflexivity.
Defined.

(* ================================================================== *)
(** * Further properties of the visualization parser *)
(* ================================================================== *)

Lemma lower_not_upper (s : string) : all_chars not_upper (Text.lower s) = true.
Proof.
  induction s as [|c r IH]; [reflexivity|].
  change (Text.lower (String c r)) with (String (Text.lower_char c) (Text.lower r)).
  cbn [all_chars]. rewrite IH, andb_true_r.
  destruct c as [[] [] [] [] [] [] [] []]; reflexivity.
Qed.

Lemma lower_id (s : string) : all_chars not_upper s = true -> Text.lower s = s.
Proof.
  induction s as [|c r IH]; [reflexivity|].
  change (Text.lower (String c r)) with (String (Text.lower_char c) (Text.lower r)).
  cbn [all_chars]. rewrite andb_true_iff. intros [Hc Hr]. rewrite (IH Hr).
  unfold Text.lower_char. unfold not_upper in Hc. apply negb_true_iff in Hc.
  now rewrite Hc.
Qed.

Lemma span_fst_sat (q : ascii -> bool) (s : string) :
  all_chars q (fst (Re.span q s)) = true.
Proof.
  induction s as [|c r IH]; simpl; [reflexivity|].
  destruct (q c) eqn:E; [|reflexivity].
  destruct (Re.span q r). simpl in *. now rewrite E, IH.
Qed.

Lemma span_fst_chars (p q : ascii -> bool) (s : string) :
  all_chars p s = true -> all_chars p (fst (Re.span q s)) = true.
Proof.
  induction s as [|c r IH]; simpl; [reflexivity|].
  rewrite andb_true_iff. intros [Hc Hr]. destruct (q c); [|reflexivity].
  specialize (IH Hr). destruct (Re.span q r). simpl in *. now rewrite Hc, IH.
Qed.

Lemma plus_parts (q : ascii -> bool) (s a b : string) :
  Re.plus q s = Some (a, b) -> a = fst (Re.span q s) /\ b = snd (Re.span q s).
Proof.
  unfold Re.plus. destruct (Re.span q s) as [[|c a'] b']; [discriminate|].
  now intros [= <- <-].
Qed.

(** A pair matched in [s]: the key is a directive key, the value a token,
    and both are made of characters of [s]. *)
Lemma match_kv_chars (p : ascii -> bool) (s key value rest : string) :
  all_chars p s = true ->
  Re.match_kv s = Some (key, value, rest) ->
  directive_key key = true /\ token value = true /\
  all_chars p key = true /\ all_chars p value = true.
Proof.
  intros Hp H. revert H. unfold Re.match_kv.
  destruct (Re.plus Re.iskey s) as [[k r1]|] eqn:Ek; [|discriminate].
  assert (Hk : Text.nonempty k = true)
    by (unfold Re.plus in Ek; destruct (Re.span Re.iskey s) as [[|? ?] ?];
        [discriminate | now injection Ek as <- _]).
  destruct (plus_parts _ _ _ _ Ek) as [Ek1 Er1].
  pose proof (span_suffix p Re.iskey s Hp) as Hr1. rewrite <- Er1 in Hr1.
  pose proof (span_suffix p Text.isspace _ Hr1) as Hr1'.
  destruct (snd (Re.span Text.isspace r1)) as [|ch r2]; [discriminate|].
  destruct ch as [[] [] [] [] [] [] [] []]; try discriminate.
  simpl in Hr1'. apply andb_true_iff in Hr1'. destruct Hr1' as [_ Hr2].
  pose proof (span_suffix p Text.isspace _ Hr2) as Hr3.
  destruct (Re.plus Re.nonspace _) as [[v r3]|] eqn:Ev; [|discriminate].
  assert (Hv : Text.nonempty v = true)
    by (unfold Re.plus in Ev; destruct (Re.span Re.nonspace _) as [[|? ?] ?];
        [discriminate | now injection Ev as <- _]).
  destruct (plus_parts _ _ _ _ Ev) as [Ev1 _].
  intros [= <- <- _]. unfold directive_key, token. rewrite Hk, Hv.
  rewrite Ek1, Ev1. rewrite !span_fst_sat. repeat split.
  - now apply span_fst_chars.
  - now apply span_fst_chars.
Qed.

Lemma findall_kv_chars (p : ascii -> bool) (s : string) :
  all_chars p s = true ->
  forall skip,
    Forall (fun kv => directive_key (fst kv) = true /\ token (snd kv) = true /\
                      all_chars p (fst kv) = true /\ all_chars p (snd kv) = true)
           (Re.findall_kv_from skip s).
Proof.
  induction s as [|ch r IH]; intros Hp skip; simpl; [constructor|].
  assert (Hr : all_chars p r = true)
    by (simpl in Hp; apply andb_true_iff in Hp; tauto).
  destruct skip as [|k]; [|now apply IH].
  destruct (Re.match_kv (String ch r)) as [[[key value] rest]|] eqn:E;
    [|now apply IH].
  constructor; [|now apply IH].
  exact (match_kv_chars p _ _ _ _ Hp E).
Qed.

Lemma lstrip_chars (p : ascii -> bool) (s : string) :
  all_chars p s = true -> all_chars p (Text.lstrip s) = true.
Proof.
  induction s as [|c r IH]; simpl; [reflexivity|].
  intros H. destruct (Text.isspace c); [|exact H].
  apply andb_true_iff in H. now apply IH.
Qed.

Lemma rstrip_chars (p : ascii -> bool) (s : string) :
  all_chars p s = true -> all_chars p (Text.rstrip s) = true.
Proof.
  induction s as [|c r IH]; simpl; [reflexivity|].
  rewrite andb_true_iff. intros [Hc Hr]. specialize (IH Hr).
  destruct (Text.rstrip r).
  - destruct (Text.isspace c); simpl; [reflexivity | now rewrite Hc].
  - simpl in *. now rewrite Hc, IH.
Qed.

Lemma strip_chars (p : ascii -> bool) (s : string) :
  all_chars p s = true -> all_chars p (Text.strip s) = true.
Proof. intros H. now apply rstrip_chars, lstrip_chars. Qed.

Lemma split_chars (p : ascii -> bool) (sep : ascii) (s : string) :
  all_chars p s = true -> Forall (fun v => all_chars p v = true) (Text.split sep s).
Proof.
  induction s as [|c r IH]; simpl; [repeat constructor|].
  rewrite andb_true_iff. intros [Hc Hr]. specialize (IH Hr).
  destruct (Ascii.eqb c sep); [constructor; [reflexivity | exact IH]|].
  destruct (Text.split sep r) as [|h t]; [repeat constructor; simpl; now rewrite Hc|].
  inversion IH; subst. constructor; [simpl; now rewrite Hc | assumption].
Qed.

Lemma split_no_sep_pieces (sep : ascii) (s : string) :
  Forall (fun v => all_chars (is_not sep) v = true) (Text.split sep s).
Proof.
  induction s as [|c r IH]; simpl; [repeat constructor|].
  destruct (Ascii.eqb c sep) eqn:E; [constructor; [reflexivity | exact IH]|].
  destruct (Text.split sep r) as [|h t];
    [repeat constructor; simpl; unfold is_not; now rewrite E|].
  inversion IH; subst. constructor; [|assumption].
  simpl. unfold is_not at 1. now rewrite E.
Qed.

(** The items read from a token without upper-case letters are lowered
    items. *)
Lemma comma_list_items (v : string) :
  all_chars Re.nonspace v = true -> all_chars not_upper v = true ->
  Forall (fun x => lowered_item x = true) (Text.comma_list v).
Proof.
  intros Hs Hu. unfold Text.comma_list.
  pose proof (split_chars Re.nonspace "," v Hs) as H1.
  pose proof (split_chars not_upper "," v Hu) as H2.
  pose proof (split_no_sep_pieces "," v) as H3.
  induction (Text.split "," v) as [|x l IH]; simpl; [constructor|].
  inversion H1; inversion H2; inversion H3; subst.
  destruct (Text.nonempty (Text.strip x)) eqn:E; [|now apply IH].
  simpl. constructor; [|now apply IH].
  unfold lowered_item, list_item, token.
  rewrite E. now rewrite !strip_chars.
Qed.

Section VisualisationShape.
Context {F : PyFloat} {C : Collaborators}.

Lemma chosen_In (primary secondary v : string) (parts : list (string * string)) :
  chosen primary secondary parts = Some v ->
  In (primary, v) parts \/ In (secondary, v) parts.
Proof.
  unfold chosen. destruct (last_value primary parts) eqn:E.
  - intros [= <-]. left. now apply last_value_In.
  - intros H. right. now apply last_value_In.
Qed.

End VisualisationShape.

(** X11: a payload the visualization parser returns has a chart type among
    bar, line, pie, heatmap, custom; every x-field, y-measure and breakdown
    is a non-empty item without white space, comma or upper-case letter;
    breakdowns and options, when present, are not empty; and every option
    has a key of letters a-z and underscores outside the reserved keys and
    a value without white space or upper-case letter. *)
Theorem X11_payload_shape (F : PyFloat) (C : Collaborators) (text : string)
    (p : payload) :
  _parse_visualisation text = Some p ->
  In (p_chart_type p) chart_types /\
  Forall (fun x => lowered_item x = true) (p_x_fields p) /\
  Forall (fun y => lowered_item y = true) (p_y_measures p) /\
  (forall bs, p_breakdowns p = Some bs ->
              bs <> [] /\ Forall (fun b => lowered_item b = true) bs) /\
  (forall os, p_options p = Some os ->
              os <> [] /\
              forall k v, In (k, v) os ->
                          ~ In k recognised_keys /\ directive_key k = true /\
                          token v = true /\ all_chars not_upper v = true).
Proof.
  intros H. unfold _parse_visualisation, payload_of_parts in H.
  pose proof (findall_kv_chars not_upper _ (lower_not_upper text) 0) as Hparts.
  fold (Re.findall_kv (Text.lower text)) in Hparts.
  rewrite Forall_forall in Hparts.
  assert (Hval : forall a b v,
             chosen a b (Re.findall_kv (Text.lower text)) = Some v ->
             Forall (fun x => lowered_item x = true) (Text.comma_list v)).
  { intros a b v Hc. apply chosen_In in Hc.
    destruct Hc as [Hc|Hc]; destruct (Hparts _ Hc) as [_ [Ht [_ Hu]]];
      destruct (token_parts _ Ht) as [_ Hs]; now apply comma_list_items. }
  destruct (Re.findall_kv (Text.lower text)) as [|kv parts'] eqn:Eparts;
    [discriminate|].
  rewrite <- Eparts in *. clear kv parts' Eparts.
  rewrite !get_or_chosen in H.
  destruct (chosen "chart" "type" _) as [[|c0 ct]|]; try discriminate.
  destruct (chosen "x" "dimensions" _) as [[|x0 xv]|] eqn:Ex; try discriminate.
  destruct (chosen "y" "metrics" _) as [[|y0 yv]|] eqn:Ey; try discriminate.
  destruct (Text.mem (String c0 ct) chart_types) eqn:Ect; [|discriminate].
  cbn [negb] in H. injection H as <-.
  cbn [p_chart_type p_x_fields p_y_measures p_breakdowns p_options].
  split; [now apply mem_In|].
  split; [exact (Hval _ _ _ Ex)|]. split; [exact (Hval _ _ _ Ey)|]. split.
  - intros bs.
    destruct (chosen "breakdowns" "group_by" _) as [[|b0 bv]|] eqn:Eb;
      try discriminate.
    pose proof (Hval _ _ _ Eb) as Hb.
    destruct (Text.comma_list (String b0 bv)); [discriminate|].
    intros [= <-]. split; [discriminate | exact Hb].
  - intros os.
    destruct (filter _ (PyDict.items (PyDict.of_pairs _))) as [|o os'] eqn:Ef;
      [discriminate|].
    intros [= <-]. split; [discriminate|]. rewrite <- Ef. intros k v Hin.
    apply filter_In in Hin. destruct Hin as [Hin Hk].
    apply negb_true_iff in Hk.
    change (Text.mem k recognised_keys = false) in Hk.
    apply mem_not_In in Hk. split; [exact Hk|].
    assert (Hsrc : forall d : PyDict.t string,
               In (k, v) (PyDict.of_pairs d) -> In (k, v) d).
    { clear. intros d. unfold PyDict.of_pairs.
      assert (Hgen : forall acc,
                 In (k, v) (fold_left (fun d kv => PyDict.set (fst kv) (snd kv) d) d acc) ->
                 In (k, v) acc \/ In (k, v) d).
      { induction d as [|[k0 v0] d IH]; intros acc H; simpl in H; [now left|].
        apply IH in H. destruct H as [H|H]; [|right; now right].
        cbn [fst snd] in H.
        assert (Hset : forall acc', In (k, v) (PyDict.set k0 v0 acc') ->
                                    In (k, v) acc' \/ (k, v) = (k0, v0)).
        { clear. induction acc' as [|[k1 v1] acc' IH]; simpl.
          - intros [H|[]]; right; now symmetry.
          - destruct (String.eqb_spec k0 k1) as [->|].
            + intros [H|H]; [right; now symmetry | left; now right].
            + intros [H|H]; [left; now left|].
              destruct (IH H) as [H'|H']; [left; now right | now right]. }
        destruct (Hset _ H) as [H'|H']; [now left | right; left; now symmetry]. }
      intros H. destruct (Hgen [] H) as [[]|H']; exact H'. }
    apply Hsrc in Hin. destruct (Hparts _ Hin) as [Hk' [Hv [_ Hu]]].
    repeat split; assumption.
Qed.

Lemma X11_payload_shape_witness :
  exists p,
    @_parse_visualisation "Chart=LINE X=Region,,Plan_Type metrics=AVG:Login_Count Title=Q3"
    = Some p /\
    p_x_fields p = ["region"; "plan_type"] /\
    p_options p = Some [("title", "q3")] /\
    In (p_chart_type p) chart_types /\
    Forall (fun x => lowered_item x = true) (p_x_fields p).
Proof.
  eexists. split; [vm_compute; reflexivity|].
  split; [reflexivity|]. split; [reflexivity|].
  pose proof (@X11_payload_shape FloatFree ConstantBackend
                "Chart=LINE X=Region,,Plan_Type metrics=AVG:Login_Count Title=Q3"
                _ eq_refl) as [H1 [H2 _]].
  split; [exact H1 | exact H2].
Defined.

Lemma lower_app (a b : string) :
  Text.lower (a ++ b) = Text.lower a ++ Text.lower b.
Proof.
  induction a as [|c a IH]; [reflexivity|].
  change (Text.lower (String c a ++ b))
    with (String (Text.lower_char c) (Text.lower (a ++ b))).
  now rewrite IH.
Qed.

Lemma lower_join (sep : string) (items : list string) :
  Text.lower (Text.join sep items) =
  Text.join (Text.lower sep) (map Text.lower items).
Proof.
  induction items as [|v items IH]; [reflexivity|].
  destruct items as [|w items]; [reflexivity|].
  change (Text.join sep (v :: w :: items))
    with (v ++ sep ++ Text.join sep (w :: items)).
  change (Text.join (Text.lower sep) (map Text.lower (v :: w :: items)))
    with (Text.lower v ++ Text.lower sep ++
          Text.join (Text.lower sep) (map Text.lower (w :: items))).
  now rewrite !lower_app, IH.
Qed.

Lemma lower_char_is_not_comma (c : ascii) :
  is_not "," (Text.lower_char c) = is_not "," c.
Proof. destruct c as [[] [] [] [] [] [] [] []]; reflexivity. Qed.

Lemma lower_char_nonspace (c : ascii) :
  Re.nonspace (Text.lower_char c) = Re.nonspace c.
Proof. destruct c as [[] [] [] [] [] [] [] []]; reflexivity. Qed.

Lemma all_chars_lower (p : ascii -> bool) (s : string) :
  (forall c, p (Text.lower_char c) = p c) ->
  all_chars p (Text.lower s) = all_chars p s.
Proof.
  intros Hp. induction s as [|c r IH]; [reflexivity|].
  change (Text.lower (String c r)) with (String (Text.lower_char c) (Text.lower r)).
  cbn [all_chars]. now rewrite Hp, IH.
Qed.

(** Lower-casing keeps list items. *)
Lemma list_item_lower (s : string) : list_item (Text.lower s) = list_item s.
Proof.
  unfold list_item, token.
  rewrite (all_chars_lower _ s lower_char_nonspace).
  rewrite (all_chars_lower _ s lower_char_is_not_comma).
  now destruct s.
Qed.

Lemma space_not_key (c : ascii) : Text.isspace c = true -> Re.iskey c = false.
Proof. destruct c as [[] [] [] [] [] [] [] []]; (reflexivity || discriminate). Qed.

Lemma findall_kv_from_skip (m rest : string) :
  Re.findall_kv_from (String.length m) (m ++ rest) = Re.findall_kv rest.
Proof. induction m as [|c m IH]; [reflexivity | exact IH]. Qed.

(** The tokenizer on a pair followed by the end of the text or white
    space. *)
Lemma findall_kv_pair (key value rest : string) :
  directive_key key = true -> token value = true ->
  stops Re.nonspace rest = true ->
  Re.findall_kv (key ++ String "=" (value ++ rest)) =
  (key, value) :: Re.findall_kv rest.
Proof.
  intros Hk Hv Hr. unfold directive_key in Hk. apply andb_true_iff in Hk.
  destruct Hk as [Hkn Hkc].
  assert (Hm : Re.match_kv (key ++ String "=" (value ++ rest)) =
               Some (key, value, rest)).
  { unfold Re.match_kv.
    rewrite (plus_app Re.iskey key (String "=" (value ++ rest)) Hkn Hkc eq_refl).
    change (snd (Re.span Text.isspace (String "=" (value ++ rest))))
      with (String "=" (value ++ rest)).
    cbv iota beta.
    assert (Hs : Re.span Text.isspace (value ++ rest) = ("", value ++ rest)).
    { pose proof (token_stops_space value rest Hv) as Hst.
      exact (span_app Text.isspace "" (value ++ rest) eq_refl Hst). }
    rewrite Hs. cbn [snd]. now rewrite (plus_token value rest Hv Hr). }
  destruct key as [|k0 key]; [discriminate|].
  unfold Re.findall_kv.
  change (String k0 key ++ String "=" (value ++ rest))
    with (String k0 (key ++ String "=" (value ++ rest))) in *.
  cbn [Re.findall_kv_from]. rewrite Hm. f_equal.
  replace (key ++ String "=" (value ++ rest))
    with ((key ++ String "=" value) ++ rest)
    by (rewrite append_assoc; reflexivity).
  rewrite length_append.
  replace (String.length (key ++ String "=" value) + String.length rest
           - String.length rest)
    with (String.length (key ++ String "=" value)) by lia.
  apply findall_kv_from_skip.
Qed.

Lemma findall_kv_space (c : ascii) (rest : string) :
  Text.isspace c = true ->
  Re.findall_kv (String c rest) = Re.findall_kv rest.
Proof.
  intros Hc. unfold Re.findall_kv. cbn [Re.findall_kv_from].
  unfold Re.match_kv, Re.plus. cbn [Re.span]. now rewrite (space_not_key c Hc).
Qed.

Lemma join_items_token (items : list string) :
  items <> [] -> Forall (fun v => list_item v = true) items ->
  token (Text.join "," items) = true.
Proof.
  intros Hne Hall. unfold token. rewrite join_nonspace; [| reflexivity |].
  - destruct items as [|v items]; [contradiction|].
    inversion Hall as [|? ? Hv _]; subst.
    destruct (list_item_parts v Hv) as [Hn _].
    destruct v; [discriminate|]. now destruct items.
  - eapply Forall_impl; [|exact Hall]. intros v Hv.
    now destruct (list_item_parts v Hv) as [_ [H _]].
Qed.

Section DirectiveRoundTrip.
Context {F : PyFloat} {C : Collaborators}.

Lemma payload_of_parts_directive (ct X Y B : string) :
  In ct chart_types -> Text.nonempty X = true -> Text.nonempty Y = true ->
  payload_of_parts
    ([("chart", ct); ("x", X); ("y", Y)] ++
     match B with EmptyString => [] | _ => [("breakdowns", B)] end) =
  Some (mkPayload ct (Text.comma_list X) (Text.comma_list Y)
          (match B with
           | EmptyString => None
           | _ => match Text.comma_list B with
                  | [] => None
                  | _ => Some (Text.comma_list B)
                  end
           end) None).
Proof.
  intros Hct HX HY.
  destruct X as [|x0 X]; [discriminate|]. destruct Y as [|y0 Y]; [discriminate|].
  unfold chart_types in Hct. simpl in Hct.
  destruct Hct as [<-|[<-|[<-|[<-|[<-|[]]]]]]; destruct B; reflexivity.
Qed.

(** The directive on text that is already in lower case. *)
Lemma parse_directive_lower (ct : string) (xs ys bs : list string) :
  In ct chart_types -> xs <> [] -> ys <> [] ->
  Forall (fun v => list_item v = true) xs ->
  Forall (fun v => list_item v = true) ys ->
  Forall (fun v => list_item v = true) bs ->
  payload_of_parts (Re.findall_kv (directive ct xs ys bs)) =
  Some (mkPayload ct xs ys (match bs with [] => None | _ => Some bs end) None).
Proof.
  intros Hct Hxs Hys Hx Hy Hb.
  pose proof (join_items_token xs Hxs Hx) as HX.
  pose proof (join_items_token ys Hys Hy) as HY.
  assert (Hc : token ct = true).
  { unfold chart_types in Hct. simpl in Hct.
    destruct Hct as [<-|[<-|[<-|[<-|[<-|[]]]]]]; reflexivity. }
  set (tail := match bs with
               | [] => ""
               | _ => " breakdowns=" ++ Text.join "," bs
               end).
  assert (Htail : stops Re.nonspace tail = true /\
                  Re.findall_kv tail =
                  match bs with
                  | [] => []
                  | _ => [("breakdowns", Text.join "," bs)]
                  end).
  { unfold tail. destruct bs as [|b bs]; [split; reflexivity|].
    split; [reflexivity|].
    replace (" breakdowns=" ++ Text.join "," (b :: bs))
      with (String " " ("breakdowns" ++ String "=" (Text.join "," (b :: bs) ++ "")))
      by (now rewrite append_nil_r).
    rewrite (findall_kv_space " " _ eq_refl).
    now rewrite (findall_kv_pair "breakdowns" _ "" eq_refl
                   (join_items_token (b :: bs) ltac:(discriminate) Hb) eq_refl). }
  destruct Htail as [Hstop Hparts].
  assert (Hfind : Re.findall_kv (directive ct xs ys bs) =
                  ([("chart", ct); ("x", Text.join "," xs); ("y", Text.join "," ys)]
                     ++ match bs with
                        | [] => []
                        | _ => [("breakdowns", Text.join "," bs)]
                        end)%list).
  { unfold directive. fold tail.
    change ("chart=" ++ ct ++ " x=" ++ Text.join "," xs ++ " y=" ++
            Text.join "," ys ++ tail)
      with ("chart" ++ String "="
              (ct ++ String " " ("x" ++ String "="
                 (Text.join "," xs ++ String " " ("y" ++ String "="
                    (Text.join "," ys ++ tail)))))).
    rewrite (findall_kv_pair "chart" ct); [|reflexivity | exact Hc | reflexivity].
    rewrite (findall_kv_space " " _ eq_refl).
    rewrite (findall_kv_pair "x"); [|reflexivity | exact HX | reflexivity].
    rewrite (findall_kv_space " " _ eq_refl).
    rewrite (findall_kv_pair "y" _ _ eq_refl HY Hstop).
    now rewrite Hparts. }
  rewrite Hfind. clear Hfind Hparts Hstop tail.
  assert (Hshape : match bs with
                   | [] => []
                   | _ => [("breakdowns", Text.join "," bs)]
                   end =
                   match (match bs with [] => "" | _ => Text.join "," bs end) with
                   | EmptyString => []
                   | _ => [("breakdowns",
                            match bs with [] => "" | _ => Text.join "," bs end)]
                   end).
  { destruct bs as [|b bs]; [reflexivity|].
    pose proof (join_items_token (b :: bs) ltac:(discriminate) Hb) as HB.
    apply token_parts in HB. destruct HB as [HB _].
    now destruct (Text.join "," (b :: bs)). }
  rewrite Hshape.
  rewrite payload_of_parts_directive;
    [| assumption | now apply token_parts in HX | now apply token_parts in HY].
  rewrite (comma_list_join xs Hxs Hx), (comma_list_join ys Hys Hy).
  f_equal. f_equal. destruct bs as [|b bs]; [reflexivity|].
  pose proof (join_items_token (b :: bs) ltac:(discriminate) Hb) as HB.
  apply token_parts in HB. destruct HB as [HB _].
  rewrite (comma_list_join (b :: bs) ltac:(discriminate) Hb).
  now destruct (Text.join "," (b :: bs)).
Qed.

End DirectiveRoundTrip.

(** X12: the visualization parser reads back an ASCII directive spelled
    as the usage hint shows it, with the keys as written there and the chart
    type and the items in any letter case: for a chart type among the five
    and non-empty lists of items without white space or comma, the text
    chart=<type> x=<items> y=<items>, with breakdowns=<items> appended when
    there are any, parses to exactly these lists in lower case, with no
    options. *)
Theorem X12_directive_round_trip (F : PyFloat) (C : Collaborators)
    (ct : string) (xs ys bs : list string) :
  ascii_text (directive ct xs ys bs) = true ->
  In (Text.lower ct) chart_types -> xs <> [] -> ys <> [] ->
  Forall (fun v => list_item v = true) xs ->
  Forall (fun v => list_item v = true) ys ->
  Forall (fun v => list_item v = true) bs ->
  _parse_visualisation (directive ct xs ys bs) =
  Some (mkPayload (Text.lower ct) (map Text.lower xs) (map Text.lower ys)
          (match bs with [] => None | _ => Some (map Text.lower bs) end) None).
Proof.
  intros _ Hct Hxs Hys Hx Hy Hb. unfold _parse_visualisation.
  assert (Hlow : Text.lower (directive ct xs ys bs) =
                 directive (Text.lower ct) (map Text.lower xs)
                   (map Text.lower ys) (map Text.lower bs)).
  { unfold directive. rewrite !lower_app, !lower_join.
    destruct bs as [|b bs]; [reflexivity|].
    now rewrite lower_app, lower_join. }
  rewrite Hlow.
  assert (Hitems : forall l, Forall (fun v => list_item v = true) l ->
                             Forall (fun v => list_item v = true) (map Text.lower l)).
  { intros l Hl. induction Hl as [|v l Hv Hl IH]; constructor; [|exact IH].
    now rewrite list_item_lower. }
  rewrite parse_directive_lower; auto.
  - now destruct bs.
  - now destruct xs.
  - now destruct ys.
Qed.

Lemma X12_directive_round_trip_witness :
  @_parse_visualisation
    (directive "Bar" ["Region"; "plan_type"] ["SUM:monthly_spend"] ["status"]) =
  Some (mkPayload "bar" ["region"; "plan_type"] ["sum:monthly_spend"]
          (Some ["status"]) None).
Proof.
  apply (@X12_directive_round_trip FloatFree ConstantBackend "Bar"
           ["Region"; "plan_type"] ["SUM:monthly_spend"] ["status"]).
  - reflexivity.
  - vm_compute. tauto.
  - discriminate.
  - discriminate.
  - repeat constructor.
  - repeat constructor.
  - repeat constructor.
Defined.

(* ================================================================== *)
(** * Further properties of the dialogue *)
(* ================================================================== *)

(** X13: the dataset an ASCII message names is the first of its words,
    after lower-casing and splitting at every character other than a-z, 0-9
    and the underscore, that is a name of the catalog; the look-up of the
    whole text that follows in the code never adds a match. *)
Theorem X13_match_dataset_first_word (text : string) :
  ascii_text text = true ->
  _match_dataset text =
  find (fun word => Text.mem word list_datasets)
       (Re.split_tokens (Text.lower text)).
Proof.
  intros _. unfold _match_dataset.
  set (options := PyDict.of_pairs
                    (map (fun name => (Text.lower name, name)) get_domain_options)).
  assert (Hk : PyDict.keys options = list_datasets) by (vm_compute; reflexivity).
  rewrite Hk.
  assert (Hget : forall w, In w list_datasets -> PyDict.get w options = Some w).
  { intros w Hw. vm_compute in Hw.
    repeat (destruct Hw as [<-|Hw]; [vm_compute; reflexivity|]). contradiction. }
  destruct (find _ (Re.split_tokens (Text.lower text))) as [w|] eqn:E.
  - apply find_some in E. destruct E as [_ Hw]. apply mem_In in Hw. now apply Hget.
  - destruct (Text.mem (Text.lower text) list_datasets) eqn:Em.
    + exfalso. apply mem_In in Em.
      let l := eval vm_compute in list_datasets in
      change list_datasets with l in Em.
      cbn [In] in Em.
      repeat (destruct Em as [Em|Em];
              [rewrite <- Em in E; vm_compute in E; discriminate|]).
      contradiction.
    + apply mem_not_In in Em. rewrite <- Hk in Em.
      now apply PyDictFacts.get_None_not_In.
Qed.

Lemma X13_match_dataset_first_word_witness :
  _match_dataset "Compare Logins with the TICKETS table" = Some "logins".
Proof.
  rewrite (X13_match_dataset_first_word
             "Compare Logins with the TICKETS table" eq_refl).
  vm_compute. reflexivity.
Defined.

Lemma catalog_entry (name : string) (D : Dataset.t) :
  PyDict.get name DATASETS = Some D ->
  Dataset.name D = name /\ name <> EmptyString.
Proof.
  unfold DATASETS. cbn [PyDict.get].
  repeat match goal with
         | |- context [String.eqb ?a ?b] =>
             destruct (String.eqb_spec a b) as [->|_];
             [intros [= <-]; split; [reflexivity | discriminate]|]
         end.
  discriminate.
Qed.

(** X14: a turn in the DATASET stage on an ASCII message that is not
    blank and not a global command never fails. When the message names a
    dataset, the turn selects the catalog entry of that name, empties
    filters, visualization, dimensions and measures, moves the stage to
    FILTERS and answers with the suggestions of that dataset; otherwise it
    answers with the list of the catalog and leaves the context as it
    was. *)
Theorem X14_dataset_turn (F : PyFloat) (C : Collaborators)
    (c : ConversationContext) (message : string) :
  ascii_text message = true ->
  stage c = DATASET -> dispatched message = true ->
  match _match_dataset (Text.strip message) with
  | Some name =>
      exists D suggestions,
        PyDict.get name DATASETS = Some D /\ Dataset.name D = name /\
        suggest_filters (mkAgentState (Some D) [] None [] []) =
          (Ok suggestions, mkAgentState (Some D) [] None [] []) /\
        handle_input message c =
        (Ok (DatasetChosen name suggestions
               (map (fun related => "Compare with " ++ related) (Dataset.related D))),
         mkContext (mkAgentState (Some D) [] None [] []) FILTERS (chart_path c))
  | None =>
      handle_input message c =
      (Ok (Text ("I couldn't find that dataset." ++ Text.nl ++
                 "Available options: " ++ Text.join ", " list_datasets ++ "." ++
                 Text.nl ++ "Please type one of the dataset names.")), c)
  end.
Proof.
  intros _ Hst Hd. rewrite (handle_input_dispatched _ c Hd), Hst.
  unfold _handle_dataset_selection.
  destruct (_match_dataset (Text.strip message)) as [name|] eqn:Em; [|reflexivity].
  pose proof (_match_dataset_known _ Em) as Hk.
  destruct (PyDict.get name DATASETS) as [D|] eqn:Eg; [clear Hk|congruence].
  destruct (catalog_entry name D Eg) as [Hn Hne].
  destruct name as [|ch name]; [congruence|].
  exists D. eexists. split; [reflexivity|]. split; [exact Hn|].
  split.
  - unfold suggest_filters, _require_dataset. run_monad. reflexivity.
  - unfold bind at 1. unfold with_agent at 1.
    rewrite (select_dataset_known (agent c) _ Eg).
    unfold suggest_filters, suggest_enrichments, _require_dataset, with_agent.
    run_monad. cbn [agent set_agent set_stage dataset stage chart_path].
    rewrite Hn. reflexivity.
Qed.

Lemma X14_dataset_turn_witness :
  exists suggestions enrichment c',
    @handle_input FloatFree ConstantBackend "  show me the Payments table "
      (mkContext new_state DATASET None) =
    (Ok (DatasetChosen "payments" suggestions enrichment), c') /\
    stage c' = FILTERS.
Proof.
  pose proof (@X14_dataset_turn FloatFree ConstantBackend
                (mkContext new_state DATASET None)
                "  show me the Payments table " eq_refl eq_refl eq_refl) as H.
  assert (Hm : _match_dataset (Text.strip "  show me the Payments table ")
               = Some "payments")
    by (vm_compute; reflexivity).
  rewrite Hm in H. destruct H as [D [suggestions [_ [_ [_ H]]]]].
  exists suggestions. do 2 eexists. split; [exact H | reflexivity].
Defined.

Section StageMoves.
Context {F : PyFloat} {C : Collaborators}.

Ltac move_close :=
  cbn [agent stage chart_path set_agent set_stage set_chart_path new_context] in *;
  repeat match goal with
         | H : stage ?c = _ |- context [stage ?c] => rewrite H
         end;
  try exact Logic.I; try reflexivity;
  try match goal with
      | |- stage_move (stage ?c) _ = true => now destruct (stage c)
      end.

Lemma handle_input_moves message (c : ConversationContext) :
  wp (handle_input message)
     (fun _ c' => stage_move (stage c) (stage c') = true) (fun _ _ => True) c.
Proof.
  unfold handle_input, _handle_summary_follow_up, _handle_adjustment,
    _handle_visualisation, _handle_filtering, _handle_dataset_selection.
  repeat (first [wp_step | progress move_close]).
Qed.

End StageMoves.

(** X15: over a turn that returns, the stage moves only along the
    dialogue: it stays, goes back to DATASET, or goes from DATASET to
    FILTERS, from FILTERS to VISUALISATION, from VISUALISATION, SUMMARY or
    ADJUST to ADJUST, or from SUMMARY or ADJUST to VISUALISATION. In
    particular FILTERS is entered from DATASET only, and no turn returns to
    GREETING. *)
Theorem X15_stage_moves (F : PyFloat) (C : Collaborators)
    (c c' : ConversationContext) (message : string) (r : reply) :
  handle_input message c = (Ok r, c') ->
  stage_move (stage c) (stage c') = true /\
  (stage c' = FILTERS -> stage c = DATASET \/ stage c = FILTERS) /\
  (stage c' = GREETING -> stage c = GREETING).
Proof.
  intros H. pose proof (handle_input_moves message c) as Hwp.
  unfold wp in Hwp. rewrite H in Hwp. split; [exact Hwp|].
  revert Hwp. destruct (stage c), (stage c'); simpl; intros Hwp;
    try discriminate Hwp; split; intros E; try discriminate E; auto.
Qed.

Lemma X15_stage_moves_witness :
  exists r c',
    @handle_input FloatFree ConstantBackend "done"
      (mkContext (mkAgentState (PyDict.get "logins" DATASETS) [] None [] [])
         FILTERS None) = (Ok r, c') /\
    stage c' = VISUALISATION /\
    stage_move FILTERS (stage c') = true.
Proof.
  do 2 eexists. split; [vm_compute; reflexivity|]. split; [reflexivity|].
  refine (proj1 (@X15_stage_moves FloatFree ConstantBackend
                   (mkContext (mkAgentState (PyDict.get "logins" DATASETS) [] None [] [])
                      FILTERS None) _ "done" _ _)).
  vm_compute. reflexivity.
Defined.

Section OneOperation.
Context {F : PyFloat} {C : Collaborators}.

Lemma wp_pure {A} (m : M AgentState A) (Q : A -> ConversationContext -> Prop) E
    (c : ConversationContext) :
  (forall s, snd (m s) = s) ->
  (forall a, Q a c) -> (forall e, E e c) -> wp (with_agent m) Q E c.
Proof.
  intros Hm HQ HE. unfold wp, with_agent. specialize (Hm (agent c)).
  destruct (m (agent c)) as [[a|e] s']; simpl in Hm; subst s';
    rewrite set_agent_same; auto.
Qed.

Lemma wp_select name (Q : Dataset.t -> ConversationContext -> Prop) E
    (c : ConversationContext) :
  (forall D, PyDict.get name DATASETS = Some D ->
             Q D (set_agent (mkAgentState (Some D) [] None [] []) c)) ->
  (forall e, E e c) -> wp (with_agent (select_dataset name)) Q E c.
Proof.
  intros HQ HE. unfold wp, with_agent.
  destruct (PyDict.get name DATASETS) as [D|] eqn:Eg.
  - rewrite (select_dataset_known (agent c) name Eg). now apply HQ.
  - rewrite (select_dataset_unknown (agent c) name Eg), set_agent_same. apply HE.
Qed.

Lemma wp_add column v (Q : unit -> ConversationContext -> Prop) E
    (c : ConversationContext) :
  (forall D, dataset (agent c) = Some D -> In column (column_names D) ->
             Q tt (set_agent (set_filters (PyDict.set column v (filters (agent c)))
                                (agent c)) c)) ->
  (forall e, E e c) -> wp (with_agent (add_filter column v)) Q E c.
Proof.
  intros HQ HE. unfold wp, with_agent.
  destruct (dataset (agent c)) as [D|] eqn:HD.
  - destruct (in_dec string_dec column (column_names D)) as [Hin|Hout].
    + rewrite (add_filter_known (agent c) column v HD Hin). now apply HQ with D.
    + rewrite (add_filter_unknown (agent c) column v HD Hout), set_agent_same.
      apply HE.
  - rewrite (add_filter_no_dataset (agent c) column v HD), set_agent_same. apply HE.
Qed.

Lemma wp_viz ct xs ys bs os (Q : VizSpec.t -> ConversationContext -> Prop) E
    (c : ConversationContext) :
  (forall spec s', set_visualization ct xs ys bs os (agent c) = (Ok spec, s') ->
                   Q spec (set_agent s' c)) ->
  (forall e, E e c) -> wp (with_agent (set_visualization ct xs ys bs os)) Q E c.
Proof.
  intros HQ HE. unfold wp, with_agent.
  destruct (set_visualization ct xs ys bs os (agent c)) as [[spec|e] s'] eqn:Es.
  - now apply HQ.
  - rewrite (set_visualization_raise _ _ _ _ _ _ Es), set_agent_same. apply HE.
Qed.

Ltac op_step :=
  lazymatch goal with
  | |- wp (with_agent (select_dataset _)) _ _ _ =>
      apply wp_select; [intros ? ? | intros ?]
  | |- wp (with_agent (add_filter _ _)) _ _ _ =>
      apply wp_add; [intros ? ? ? | intros ?]
  | |- wp (with_agent (set_visualization _ _ _ _ _)) _ _ _ =>
      apply wp_viz; [intros ? ? ? | intros ?]
  | |- wp (with_agent suggest_filters) _ _ _ =>
      apply wp_pure; [apply suggest_filters_pure | intros ? | intros ?]
  | |- wp (with_agent suggest_enrichments) _ _ _ =>
      apply wp_pure; [apply suggest_enrichments_pure | intros ? | intros ?]
  | _ => wp_step
  end; cbv beta zeta.

Ltac op_close :=
  cbn [agent stage chart_path set_agent set_stage set_chart_path new_context] in *;
  first [ apply turn_none
        | apply turn_reset
        | eapply turn_select; [reflexivity | eassumption]
        | eapply turn_filter; [simpl; auto | eassumption | eassumption]
        | eapply turn_visualization; [simpl; auto | eassumption] ].

Lemma handle_input_one_operation message (c : ConversationContext) :
  wp (handle_input message)
     (fun _ c' => turn_effect (stage c) (agent c) (agent c'))
     (fun _ c' => turn_effect (stage c) (agent c) (agent c')) c.
Proof.
  unfold handle_input, _handle_summary_follow_up, _handle_adjustment,
    _handle_visualisation, _handle_filtering, _handle_dataset_selection.
  repeat (first [op_step | progress op_close]).
Qed.

End OneOperation.

(** X16: a turn, returned or raised, performs at most one operation on
    the session state, and which one depends on the stage: nothing, a
    reset, the selection of a catalog dataset (in DATASET only), one filter
    on a column of the active dataset (in FILTERS, SUMMARY and ADJUST only),
    or one accepted visualization (in VISUALISATION, SUMMARY and ADJUST
    only). So a turn in FILTERS never touches the chart settings, and a turn
    in VISUALISATION never touches the filters, short of a reset. *)
Theorem X16_one_operation_per_turn (F : PyFloat) (C : Collaborators)
    (c : ConversationContext) (message : string) :
  let s := agent c in
  let s' := agent (snd (handle_input message c)) in
  turn_effect (stage c) s s' /\
  (stage c = FILTERS ->
   s' = new_state \/
   (dataset s' = dataset s /\ visualization s' = visualization s /\
    dimensions s' = dimensions s /\ measure_specs s' = measure_specs s)) /\
  (stage c = VISUALISATION ->
   s' = new_state \/ (dataset s' = dataset s /\ filters s' = filters s)) /\
  (stage c = GREETING -> s' = new_state \/ s' = s).
Proof.
  cbv zeta.
  assert (H : turn_effect (stage c) (agent c) (agent (snd (handle_input message c)))).
  { pose proof (handle_input_one_operation message c) as Hwp. unfold wp in Hwp.
    now destruct (handle_input message c) as [[r|e] c']. }
  split; [exact H|].
  set (s' := agent (snd (handle_input message c))) in *. clearbody s'.
  repeat split; intros Hst; rewrite Hst in H;
    destruct H as [ | | name D Hd Hg | D col v Hin HD Hc
                  | ct xs ys bs os spec s'' Hin Hs];
    try discriminate Hd;
    try (simpl in Hin; destruct Hin as [Hin|[Hin|[Hin|[]]]]; discriminate Hin);
    auto.
  - right. apply set_visualization_ok in Hs.
    destruct Hs as [d [ms [Hd [_ [-> _]]]]]. simpl. now rewrite Hd.
Qed.

Section EscapingExceptions.
Context {F : PyFloat} {C : Collaborators}.

(** With an active dataset [_summarise_results] raises only what the
    backend raised on the statement of the state, and then leaves the
    context as it was. *)
Lemma wp_summarise_raised (Q : summary_data -> ConversationContext -> Prop)
    (c : ConversationContext) (D : Dataset.t) :
  dataset (agent c) = Some D ->
  (forall d p, Q d (set_stage ADJUST (set_chart_path p c))) ->
  wp _summarise_results Q backend_raised c.
Proof.
  intros HD HQ. unfold wp, _summarise_results.
  unfold bind at 1. unfold with_agent.
  assert (Hdesc : exists summary, describe_state (agent c) = (Ok summary, agent c)).
  { unfold describe_state, build_sql_query, _require_dataset. run_monad.
    rewrite HD. run_monad. rewrite HD.
    destruct (measure_specs (agent c)); eexists; reflexivity. }
  destruct Hdesc as [summary Hs]. rewrite Hs, set_agent_same.
  unfold bind at 1. unfold lift_outcome at 1.
  destruct (execute_query (d_sql summary)) as [rows0|e] eqn:Eq;
    [|exists summary; split; assumption].
  unfold bind at 1. unfold get_state at 1.
  destruct (render_chart _ _ _ _ _) as [[p|]|[cls [|ch msg]]];
    run_monad; apply HQ.
Qed.

Lemma visualisation_raises text (c : ConversationContext) (D : Dataset.t) :
  dataset (agent c) = Some D ->
  wp (_handle_visualisation text) (fun _ _ => True) backend_raised c.
Proof.
  intros HD. unfold _handle_visualisation.
  destruct (_parse_visualisation text) as [parsed|]; [|apply wp_ret; exact Logic.I].
  apply wp_bind, wp_try, wp_bind, wp_with_agent_exact.
  apply wp_set_visualization with D; [exact HD| |].
  - intros spec s' Hs'. apply wp_ret. cbv beta. apply wp_bind, wp_modify, wp_bind.
    apply wp_summarise_raised with D; [exact Hs'|].
    intros d p. apply wp_ret. exact Logic.I.
  - intros msg. rewrite set_agent_same. apply wp_ret. cbv beta.
    apply wp_ret. exact Logic.I.
Qed.

Lemma adjustment_raises text (c : ConversationContext) :
  dataset (agent c) <> None ->
  wp (_handle_adjustment text) (fun _ _ => True) backend_raised c.
Proof.
  intros HD. destruct (dataset (agent c)) as [D|] eqn:ED; [clear HD|congruence].
  unfold _handle_adjustment.
  destruct (Text.mem _ ["again"; "restart"; "reset"; "new"]).
  { apply wp_bind, wp_modify. unfold start. apply wp_bind, wp_modify, wp_ret.
    exact Logic.I. }
  destruct (Text.mem _ ["refresh"; "show"; "show chart"; "render"; "update"]).
  { apply wp_bind. apply wp_summarise_raised with D; [assumption|].
    intros d p. apply wp_ret. exact Logic.I. }
  destruct (existsb _ visualisation_tokens).
  { apply wp_bind, wp_modify. now apply visualisation_raises with D. }
  destruct (Text.startswith "filter " (Text.lower text)) eqn:Ef.
  { destruct (startswith_filter_split text Ef) as [head [ft ->]].
    apply wp_bind, wp_get_state.
    destruct (_parse_filter ft c) as [[column value]|].
    - apply wp_bind, wp_try, wp_bind, wp_with_agent_exact.
      apply wp_add_filter with D; [exact ED| |].
      + intros s' Hs'. apply wp_ret. cbv beta. apply wp_bind.
        apply wp_summarise_raised with D; [assumption|].
        intros d p. apply wp_ret. exact Logic.I.
      + intros msg. rewrite set_agent_same. apply wp_ret. cbv beta.
        apply wp_ret. exact Logic.I.
    - apply wp_ret. exact Logic.I. }
  destruct (String.eqb _ "filters");
    [apply wp_bind, wp_get_state, wp_ret; exact Logic.I|].
  destruct (String.eqb _ "chart").
  { apply wp_bind, wp_get_state. destruct (chart_path c); apply wp_ret; exact Logic.I. }
  apply wp_ret. exact Logic.I.
Qed.

Lemma handle_input_raises message (c : ConversationContext) :
  ready c ->
  wp (handle_input message) (fun _ _ => True) backend_raised c.
Proof.
  intros Hr. unfold handle_input.
  destruct (negb _); [apply wp_ret; exact Logic.I|].
  destruct (Text.mem _ ["quit"; "exit"]); [apply wp_ret; exact Logic.I|].
  destruct (Text.mem _ ["help"; "?"]); [apply wp_ret; exact Logic.I|].
  destruct (Text.mem _ ["reset"; "restart"]).
  { apply wp_bind, wp_modify. unfold start. apply wp_bind, wp_modify, wp_ret.
    exact Logic.I. }
  apply wp_bind, wp_get_state. unfold ready in Hr.
  destruct (stage c) eqn:Est.
  - apply wp_ret. exact Logic.I.
  - (* DATASET *)
    unfold _handle_dataset_selection.
    destruct (_match_dataset _) as [[|ch name]|] eqn:Em;
      try (apply wp_ret; exact Logic.I).
    apply _match_dataset_known in Em.
    destruct (PyDict.get (String ch name) DATASETS) as [d|] eqn:Eg; [|congruence].
    apply wp_bind, wp_with_agent_exact. unfold wp.
    rewrite (select_dataset_known (agent c) _ Eg). cbv beta.
    apply wp_bind, wp_modify, wp_bind, wp_with_agent_exact.
    unfold wp at 1, suggest_filters, _require_dataset. run_monad.
    cbn [agent set_stage set_agent dataset].
    apply wp_bind, wp_with_agent_exact.
    unfold wp at 1, suggest_enrichments, _require_dataset. run_monad.
    cbn [agent set_stage set_agent dataset].
    apply wp_ret. exact Logic.I.
  - (* FILTERS *)
    destruct (dataset (agent c)) as [D|] eqn:ED; [clear Hr|congruence].
    unfold _handle_filtering.
    destruct (Text.mem _ ["done"; "next"; "visual"]).
    { apply wp_bind, wp_modify, wp_bind, wp_get_state, wp_ret. exact Logic.I. }
    apply wp_bind, wp_get_state.
    destruct (_parse_filter _ c) as [[column value]|].
    + apply wp_bind, wp_try, wp_bind, wp_with_agent_exact.
      apply wp_add_filter with D; [exact ED| |].
      * intros s' Hs'. apply wp_ret. cbv beta. apply wp_bind, wp_get_state, wp_ret.
        exact Logic.I.
      * intros msg. rewrite set_agent_same. apply wp_ret. cbv beta.
        apply wp_ret. exact Logic.I.
    + apply wp_ret. exact Logic.I.
  - (* VISUALISATION *)
    destruct (dataset (agent c)) as [D|] eqn:ED; [clear Hr|congruence].
    now apply visualisation_raises with D.
  - (* SUMMARY *)
    unfold _handle_summary_follow_up.
    destruct (Text.mem _ ["again"; "restart"; "reset"; "new"]).
    { apply wp_bind, wp_modify. unfold start. apply wp_bind, wp_modify, wp_ret.
      exact Logic.I. }
    now apply adjustment_raises.
  - now apply adjustment_raises.
Qed.

End EscapingExceptions.

(** X17: a turn of a session lets out no exception of its own. From a
    context in which a dataset is active past the DATASET stage, as in every
    context a session reaches, an exception that leaves handle_input is the
    one the query backend raised on the statement of the session state at
    that point; the errors of the session model are answered as messages, a
    failure of the renderer is reported in the summary, and the index error
    of the filter command cannot occur. (The layout of the preview is not
    part of the model.) *)
Theorem X17_only_backend_exceptions (F : PyFloat) (C : Collaborators)
    (c c' : ConversationContext) (message : string) (e : exn) :
  ready c ->
  handle_input message c = (Raise e, c') ->
  backend_raised e c' /\ dataset (agent c') <> None.
Proof.
  intros Hr H. pose proof (handle_input_raises message c Hr) as Hwp.
  unfold wp in Hwp. rewrite H in Hwp. split; [exact Hwp|].
  destruct Hwp as [summary [Hd _]]. revert Hd.
  unfold describe_state, _require_dataset. run_monad.
  destruct (dataset (agent c')); [discriminate 2 | discriminate 1].
Qed.

Lemma X17_only_backend_exceptions_witness :
  let c := mkContext (mkAgentState (PyDict.get "tickets" DATASETS)
                        [("status", VScalar (SStr "open"))] None [] [])
             ADJUST None in
  @handle_input FloatFree FailingBackend "refresh" c =
    (Raise (Exn OtherError "unable to open database file"), c) /\
  @backend_raised FloatFree FailingBackend
    (Exn OtherError "unable to open database file") c.
Proof.
  cbv zeta. split; [vm_compute; reflexivity|].
  refine (proj1 (@X17_only_backend_exceptions FloatFree FailingBackend
                   (mkContext (mkAgentState (PyDict.get "tickets" DATASETS)
                                 [("status", VScalar (SStr "open"))] None [] [])
                      ADJUST None)
                   _ "refresh" _ _ _)).
  - vm_compute. intros H. discriminate H.
  - vm_compute. reflexivity.
Defined.

Lemma lower_char_is_not_eq (c : ascii) :
  is_not "=" (Text.lower_char c) = is_not "=" c.
Proof. destruct c as [[] [] [] [] [] [] [] []]; reflexivity. Qed.

(** A text with a character that no word of [l] holds is not in [l]. *)
Lemma mem_other_char (ch : ascii) (s : string) (l : list string) :
  all_chars (is_not ch) s = false ->
  Forall (fun w => all_chars (is_not ch) w = true) l ->
  Text.mem s l = false.
Proof.
  intros Hs Hl. apply mem_not_In. intros Hin.
  rewrite Forall_forall in Hl. specialize (Hl s Hin). congruence.
Qed.

Lemma assignment_has_eq (column rest : string) :
  all_chars (is_not "=") (Text.lower (column ++ "=" ++ rest)) = false.
Proof.
  rewrite (all_chars_lower _ _ lower_char_is_not_eq), all_chars_app.
  apply andb_false_r.
Qed.

Section FilterTurn.
Context {F : PyFloat} {C : Collaborators}.

Lemma assignment_dispatched (column : string) (values : list string) :
  all_chars Re.nonspace column = true ->
  values <> [] -> Forall (fun v => list_item v = true) values ->
  let message := column ++ "=" ++ Text.join "," values in
  Text.strip message = message /\ dispatched message = true /\
  Text.mem (Text.lower message) ["done"; "next"; "visual"] = false.
Proof.
  intros Hc Hne Hall message.
  assert (Hs : Text.strip message = message).
  { apply strip_nonspace. unfold message. rewrite !all_chars_app, Hc.
    pose proof (join_items_token values Hne Hall) as Ht.
    apply token_parts in Ht. now rewrite (proj2 Ht). }
  split; [exact Hs|].
  pose proof (assignment_has_eq column (Text.join "," values)) as Heq.
  fold message in Heq. unfold dispatched. rewrite Hs.
  rewrite !(mem_other_char "=" _ _ Heq) by (repeat constructor).
  split; [|reflexivity]. unfold message. now destruct column.
Qed.

End FilterTurn.

(** X18: in the FILTERS stage of a session on a dataset, the ASCII message
    column=v1,...,vn (a column without white space or equals sign, n >= 1
    items that are non-empty and free of white space and commas) is applied
    as typed: when the column is one of the dataset the turn stores the cast
    value under it, leaves the rest of the context as it was and answers
    with the filters so updated; otherwise it answers that the column is not
    available and changes nothing. *)
Theorem X18_typed_filter_is_applied (F : PyFloat) (C : Collaborators)
    (c : ConversationContext) (D : Dataset.t) (column : string)
    (values : list string) :
  stage c = FILTERS -> dataset (agent c) = Some D ->
  ascii_text (column ++ "=" ++ Text.join "," values) = true ->
  all_chars Re.nonspace column = true -> all_chars (is_not "=") column = true ->
  values <> [] -> Forall (fun v => list_item v = true) values ->
  let value :=
    match values with
    | [v] => _cast_value D column (RawStr v)
    | _ => VTuple (map (cast_item D column) values)
    end in
  let updated := PyDict.set column value (filters (agent c)) in
  handle_input (column ++ "=" ++ Text.join "," values) c =
  if Text.mem column (column_names D)
  then (Ok (FilterAdded column updated),
        set_agent (set_filters updated (agent c)) c)
  else (Ok (Text ("Column '" ++ column ++ "' is not available on dataset '"
                  ++ Dataset.name D ++ "'.")), c).
Proof.
  intros Hst HD _ Hc Hceq Hne Hall value updated.
  destruct (assignment_dispatched column values Hc Hne Hall) as [Hs [Hd Hm]].
  rewrite (handle_input_dispatched _ c Hd), Hst, Hs.
  unfold _handle_filtering. rewrite Hm.
  unfold bind at 1. unfold get_state at 1.
  change (column ++ "=" ++ Text.join "," values)
    with (column ++ String "=" (Text.join "," values)).
  rewrite (parse_filter_listed c D "=" column values HD (or_introl eq_refl)
             eq_refl Hc Hceq Hne Hall).
  fold value. unfold try_ValueError, bind, with_agent.
  destruct (Text.mem column (column_names D)) eqn:Em.
  - apply mem_In in Em. rewrite (add_filter_known (agent c) column value HD Em).
    reflexivity.
  - apply mem_not_In in Em.
    rewrite (add_filter_unknown (agent c) column value HD Em).
    cbn. now rewrite set_agent_same.
Qed.

Lemma X18_typed_filter_is_applied_witness :
  let c := mkContext (mkAgentState (PyDict.get "payments" DATASETS) [] None [] [])
             FILTERS None in
  @handle_input FloatFree ConstantBackend "currency=USD,EUR,GBP" c =
    (Ok (FilterAdded "currency"
           [("currency", VTuple [SStr "USD"; SStr "EUR"; SStr "GBP"])]),
     mkContext (mkAgentState (PyDict.get "payments" DATASETS)
                  [("currency", VTuple [SStr "USD"; SStr "EUR"; SStr "GBP"])]
                  None [] [])
       FILTERS None).
Proof.
  cbv zeta.
  destruct (PyDict.get "payments" DATASETS) as [D|] eqn:ED;
    [|vm_compute in ED; discriminate].
  vm_compute in ED. injection ED as <-.
  match goal with
  | |- handle_input _ ?c = _ =>
      pose proof (H := fun D HD =>
                  @X18_typed_filter_is_applied FloatFree ConstantBackend c D
                    "currency" ["USD"; "EUR"; "GBP"] eq_refl HD eq_refl eq_refl
                    eq_refl ltac:(discriminate) ltac:(repeat constructor))
  end.
  exact (H _ eq_refl).
Defined.

Section SummaryDescribes.
Context {F : PyFloat} {C : Collaborators}.

Lemma wp_summarise_describes (Q : summary_data -> ConversationContext -> Prop) E
    (c : ConversationContext) :
  (forall d c', describes d c' -> Q d c') ->
  (forall e, E e c) ->
  wp _summarise_results Q E c.
Proof.
  intros HQ HE. unfold wp, _summarise_results.
  unfold bind at 1. unfold with_agent.
  pose proof (describe_state_pure (agent c)) as Hpure.
  destruct (describe_state (agent c)) as [[summary|e] s'] eqn:Hd;
    simpl in Hpure; subst s'; rewrite set_agent_same; [|apply HE].
  unfold bind at 1. unfold lift_outcome at 1.
  destruct (execute_query (d_sql summary)) as [rows0|e] eqn:Eq; [|apply HE].
  unfold bind at 1. unfold get_state at 1.
  destruct (render_chart _ _ _ _ _) as [[p|]|[cls [|ch msg]]];
    run_monad; apply HQ; unfold describes;
    cbn [sm_summary sm_rows sm_chart agent stage chart_path set_stage
         set_chart_path]; auto.
Qed.

Ltac summary_step :=
  lazymatch goal with
  | |- wp _summarise_results _ _ _ =>
      apply wp_summarise_describes; [intros ? ? ? | intros ?]
  | _ => wp_step
  end; cbv beta zeta.

Ltac summary_close :=
  cbn [summary_of] in *;
  first [ exact Logic.I | assumption
        | match goal with
          | |- forall d, Some _ = Some d -> _ =>
              let E := fresh in intros ? E; injection E as <-; assumption
          | |- forall d, None = Some d -> _ => intros ? ?; discriminate
          end ].

Lemma handle_input_describes message (c : ConversationContext) :
  wp (handle_input message)
     (fun r c' => forall d, summary_of r = Some d -> describes d c')
     (fun _ _ => True) c.
Proof.
  unfold handle_input, _handle_summary_follow_up, _handle_adjustment,
    _handle_visualisation, _handle_filtering, _handle_dataset_selection.
  repeat (first [summary_step | progress summary_close]).
Qed.

End SummaryDescribes.

(** X19: a summary is never stale. When a turn answers with a summary,
    alone or after a filter tweak, the description in it is that of the
    session state the turn leaves, its rows are the answer of the backend to
    the SQL statement of that description, the chart path of the context is
    the path the summary reports (none when the renderer failed or drew
    nothing), and the stage is ADJUST. *)
Theorem X19_summary_describes_state (F : PyFloat) (C : Collaborators)
    (c c' : ConversationContext) (message : string) (r : reply)
    (d : summary_data) :
  handle_input message c = (Ok r, c') ->
  summary_of r = Some d ->
  describes d c'.
Proof.
  intros H Hr. pose proof (handle_input_describes message c) as Hwp.
  unfold wp in Hwp. rewrite H in Hwp. now apply Hwp.
Qed.

Lemma X19_summary_describes_state_witness :
  let c := mkContext (mkAgentState (PyDict.get "logins" DATASETS)
                        [("region", VScalar (SStr "EMEA"))] None [] [])
             VISUALISATION None in
  exists d c',
    @handle_input FloatFree ConstantBackend
      "chart=line x=login_date y=avg:login_count" c = (Ok (Summary d), c') /\
    d_sql (sm_summary d) =
      "SELECT login_date, AVG(login_count) AS avg_login_count FROM logins WHERE region = 'EMEA' GROUP BY login_date ORDER BY login_date LIMIT 100;" /\
    @describes FloatFree ConstantBackend d c'.
Proof.
  cbv zeta. do 2 eexists. split; [vm_compute; reflexivity|].
  split; [reflexivity|].
  eapply (@X19_summary_describes_state FloatFree ConstantBackend
            (mkContext (mkAgentState (PyDict.get "logins" DATASETS)
                          [("region", VScalar (SStr "EMEA"))] None [] [])
               VISUALISATION None)
            _ "chart=line x=login_date y=avg:login_count").
  - vm_compute. reflexivity.
  - reflexivity.
Defined.

(* ================================================================== *)
(** * Further properties of the result rows *)
(* ================================================================== *)

Lemma length_replicate (n : nat) (c : ascii) : String.length (replicate n c) = n.
Proof. induction n as [|n IH]; simpl; [reflexivity | now rewrite IH]. Qed.

Lemma length_ljust (w : nat) (s : string) :
  String.length s <= w -> String.length (ljust w s) = w.
Proof.
  intros H. unfold ljust. rewrite length_append, length_replicate. lia.
Qed.

Lemma length_join (sep : string) (l : list string) :
  String.length (Text.join sep l) =
  list_sum (map String.length l) + String.length sep * (List.length l - 1).
Proof.
  induction l as [|x l IH]; [simpl; lia|].
  destruct l as [|y l]; [simpl; lia|].
  change (Text.join sep (x :: y :: l)) with (x ++ sep ++ Text.join sep (y :: l)).
  rewrite !length_append, IH. simpl. lia.
Qed.

Lemma max_of_le (n : nat) (ns : list nat) :
  n <= max_of n ns /\ Forall (fun m => m <= max_of n ns) ns.
Proof.
  unfold max_of. revert n. induction ns as [|m ns IH]; intros n; simpl.
  - split; [lia | constructor].
  - destruct (IH (Nat.max n m)) as [H1 H2]. split; [lia|].
    constructor; [lia | exact H2].
Qed.

Lemma map_outcome_ok {A B} (f : A -> outcome B) (g : A -> B) (l : list A) :
  (forall x, In x l -> f x = Ok (g x)) -> map_outcome f l = Ok (map g l).
Proof.
  induction l as [|x l IH]; intros H; simpl; [reflexivity|].
  rewrite (H x (or_introl eq_refl)), IH; [reflexivity|].
  intros y Hy. apply H. now right.
Qed.

Section PreviewFacts.
Variable cell : Type.
Variable str_cell : cell -> string.

Lemma item_ok (r : row cell) (column : string) :
  PyDict.get column r <> None ->
  exists v, item r column = Ok v /\ str_value str_cell v = cell_text str_cell r column.
Proof.
  unfold item, cell_text. destruct (PyDict.get column r) as [v|]; [|congruence].
  intros _. now exists v.
Qed.

Lemma column_widths_ok (columns : list string) (truncated : list (row cell)) :
  forall some widths,
    (forall column, In column some -> In column columns) ->
    complete columns truncated ->
    column_widths str_cell some truncated widths =
    Ok (fold_left (fun w column =>
                     PyDict.set column (shown_width str_cell truncated column) w)
                  some widths).
Proof.
  induction some as [|column rest IH]; intros widths Hsub Hc; [reflexivity|].
  cbn [column_widths fold_left].
  rewrite (map_outcome_ok _ (fun r => String.length (cell_text str_cell r column))).
  - apply IH; [|exact Hc]. intros k Hk. apply Hsub. now right.
  - intros r Hr.
    destruct (item_ok r column (Hc r column Hr (Hsub column (or_introl eq_refl))))
      as [v [-> Hv]].
    now rewrite Hv.
Qed.

Lemma get_widths (truncated : list (row cell)) (some : list string) :
  forall (widths : PyDict.t nat) (column : string),
    In column some \/
    PyDict.get column widths = Some (shown_width str_cell truncated column) ->
    PyDict.get column
      (fold_left (fun w column =>
                    PyDict.set column (shown_width str_cell truncated column) w)
                 some widths) =
    Some (shown_width str_cell truncated column).
Proof.
  induction some as [|k rest IH]; intros widths column H; simpl.
  - destruct H as [[]|H]; exact H.
  - apply IH. destruct (string_dec column k) as [->|Hne].
    + right. apply PyDictFacts.get_set_same.
    + destruct H as [[H|H]|H]; [congruence | now left |].
      right. now rewrite PyDictFacts.get_set_other.
Qed.

Lemma joined_ok (sep : string) (columns : list string) (widths : PyDict.t nat)
    (W : string -> nat) (text : string -> nat -> outcome string)
    (t : string -> string) :
  (forall column, In column columns -> PyDict.get column widths = Some (W column)) ->
  (forall column, In column columns -> text column (W column) = Ok (t column)) ->
  joined sep columns widths text = Ok (Text.join sep (map t columns)).
Proof.
  intros Hw Ht. unfold joined. rewrite (map_outcome_ok _ t); [reflexivity|].
  intros column Hc. unfold width. rewrite (Hw column Hc). now apply Ht.
Qed.

Lemma line_length (columns : list string) (W : string -> nat) (t : string -> string) :
  (forall column, In column columns -> String.length (t column) = W column) ->
  String.length (Text.join " | " (map t columns)) =
  list_sum (map W columns) + 3 * (List.length columns - 1).
Proof.
  intros H. rewrite length_join, !length_map, map_map. f_equal.
  f_equal. apply map_ext_in. exact H.
Qed.

Lemma shown_width_column (truncated : list (row cell)) (column : string) :
  String.length column <= shown_width str_cell truncated column.
Proof. unfold shown_width. apply max_of_le. Qed.

Lemma shown_width_cell (truncated : list (row cell)) (column : string) (r : row cell) :
  In r truncated ->
  String.length (cell_text str_cell r column) <= shown_width str_cell truncated column.
Proof.
  intros Hr. unfold shown_width.
  destruct (max_of_le (String.length column)
              (map (fun r => String.length (cell_text str_cell r column)) truncated))
    as [_ H].
  rewrite Forall_forall in H. apply H.
  now apply (in_map (fun r => String.length (cell_text str_cell r column))).
Qed.

End PreviewFacts.


(** X21: the preview is a rectangular table. For a non-empty result, a
    positive number of rows to show, and rows that all hold the columns of
    the first one, the preview does not fail; its lines are a header, a
    separator and one line per row shown (at most max_rows), all of the same
    length: the widths of the columns, each the longest of the column name
    and its cells, and three characters between two columns; a last line
    counts the rows left out when there are more than max_rows. (Lengths
    count the characters of ASCII text.) *)
Theorem X21_preview_is_rectangular (cell : Type) (str_cell : cell -> string)
    (rows : list (row cell)) (max_rows : nat) (first : row cell)
    (rest : list (row cell)) :
  rows = first :: rest -> 0 < max_rows ->
  let truncated := firstn max_rows rows in
  let columns := PyDict.keys first in
  complete columns truncated ->
  exists header separator body,
    preview_lines str_cell rows max_rows =
    Ok (header :: separator ::
        app body
          (if Nat.ltb max_rows (List.length rows)
           then ["… (" ++ Text.str_nat (List.length rows - max_rows) ++ " more rows)"]
           else [])) /\
    List.length body = Nat.min max_rows (List.length rows) /\
    Forall (fun line => String.length line = table_width str_cell columns truncated)
           (header :: separator :: body).
Proof.
  intros Hrows Hmax truncated columns Hc.
  set (W := shown_width str_cell truncated).
  assert (Htr : exists more, truncated = first :: more).
  { unfold truncated. rewrite Hrows. destruct max_rows as [|k]; [lia|].
    simpl. eauto. }
  destruct Htr as [more Htr].
  assert (Hw : forall column, In column columns ->
                 PyDict.get column
                   (fold_left (fun w column => PyDict.set column (W column) w)
                              columns []) = Some (W column)).
  { intros column Hin. apply get_widths. now left. }
  exists (Text.join " | " (map (fun column => ljust (W column) column) columns)).
  exists (Text.join "-+-" (map (fun column => replicate (W column) "-") columns)).
  exists (map (fun r =>
                 Text.join " | "
                   (map (fun column => ljust (W column) (cell_text str_cell r column))
                        columns)) truncated).
  split; [|split].
  - unfold preview_lines. fold truncated. rewrite Htr. rewrite <- Htr.
    fold columns.
    rewrite (column_widths_ok cell str_cell columns truncated columns []
               (fun _ H => H) Hc).
    fold W.
    rewrite (joined_ok " | " columns _ W _
               (fun column => ljust (W column) column) Hw (fun _ _ => eq_refl)).
    rewrite (joined_ok "-+-" columns _ W _
               (fun column => replicate (W column) "-") Hw (fun _ _ => eq_refl)).
    rewrite (map_outcome_ok _
               (fun r => Text.join " | "
                           (map (fun column =>
                                   ljust (W column) (cell_text str_cell r column))
                                columns))); [reflexivity|].
    intros r Hr. apply (joined_ok " | " columns _ W); [exact Hw|].
    intros column Hin.
    destruct (item_ok cell str_cell r column (Hc r column Hr Hin)) as [v [-> Hv]].
    now rewrite Hv.
  - rewrite length_map. unfold truncated. apply length_firstn.
  - unfold table_width. fold W. constructor; [|constructor].
    + apply line_length. intros column _. apply length_ljust.
      apply shown_width_column.
    + rewrite length_join, !length_map, map_map. f_equal.
      * f_equal. apply map_ext. intros column. apply length_replicate.
    + apply Forall_forall. intros line Hl. apply in_map_iff in Hl.
      destruct Hl as [r [<- Hr]]. apply line_length. intros column _.
      apply length_ljust. now apply shown_width_cell.
Qed.

Lemma X21_preview_is_rectangular_witness :
  let rows := [ [("region", Some "EMEA"); ("sum_monthly_spend", Some "1200.5")];
                [("region", None); ("sum_monthly_spend", Some "80")] ] in
  _format_preview (fun s : string => s) rows 1 =
    Ok ("region | sum_monthly_spend" ++ Text.nl ++
        "-------+------------------" ++ Text.nl ++
        "EMEA   | 1200.5           " ++ Text.nl ++
        "… (1 more rows)") /\
  exists header separator body,
    preview_lines (fun s : string => s) rows 5 = Ok (header :: separator :: body) /\
    List.length body = 2 /\
    Forall (fun line => String.length line = 26) (header :: separator :: body).
Proof.
  cbv zeta. split; [vm_compute; reflexivity|].
  destruct (@X21_preview_is_rectangular string (fun s => s)
              [ [("region", Some "EMEA"); ("sum_monthly_spend", Some "1200.5")];
                [("region", None); ("sum_monthly_spend", Some "80")] ]
              5 _ _ eq_refl ltac:(lia))
    as [header [separator [body [H1 [H2 H3]]]]].
  - intros r column Hr Hcol. simpl in Hr, Hcol.
    destruct Hr as [<-|[<-|[]]]; destruct Hcol as [<-|[<-|[]]]; discriminate.
  - exists header, separator, body. cbn [Nat.ltb Nat.leb List.length] in H1.
    rewrite app_nil_r in H1. split; [exact H1|]. split; [exact H2 | exact H3].
Defined.

(* ================================================================== *)
(** * Filter commands and directive tokens in the adjustment *)
(* ================================================================== *)

Lemma prefix_chars (p : ascii -> bool) (t s : string) :
  prefix t s = true -> all_chars p s = true -> all_chars p t = true.
Proof.
  revert s. induction t as [|a t IH]; intros s; [reflexivity|].
  destruct s as [|b s]; simpl; [discriminate|].
  destruct (ascii_dec a b) as [->|]; [|discriminate].
  intros Hp. rewrite andb_true_iff. intros [Hb Hs]. rewrite Hb. simpl.
  now apply IH with s.
Qed.

Lemma str_in_chars (p : ascii -> bool) (t s : string) :
  Text.str_in t s = true -> all_chars p s = true -> all_chars p t = true.
Proof.
  induction s as [|c s IH]; cbn [Text.str_in]; rewrite orb_true_iff.
  - intros [H|H]; [|discriminate]. now apply prefix_chars.
  - intros [H|H] Hs; [now apply prefix_chars with (String c s)|].
    apply IH; [exact H|]. simpl in Hs. apply andb_true_iff in Hs. tauto.
Qed.

Section DirectiveTokens.
Context {F : PyFloat} {C : Collaborators}.

(** A text with a directive token holds an equals sign. *)
Lemma token_has_eq (s : string) :
  has_visualisation_token s = true -> all_chars (is_not "=") s = false.
Proof.
  unfold has_visualisation_token. intros H. apply existsb_exists in H.
  destruct H as [t [Ht Hin]].
  destruct (all_chars (is_not "=") s) eqn:E; [|reflexivity].
  pose proof (str_in_chars (is_not "=") t s Hin E) as Hc.
  unfold visualisation_tokens in Ht. simpl in Ht.
  repeat (destruct Ht as [<-|Ht]; [discriminate Hc|]). contradiction.
Qed.

Lemma token_dispatched (message : string) :
  has_visualisation_token (Text.lower (Text.strip message)) = true ->
  dispatched message = true /\
  adjusting (Text.lower (Text.strip message)) = true.
Proof.
  intros H. apply token_has_eq in H. unfold dispatched, adjusting.
  rewrite !(mem_other_char "=" _ _ H) by (repeat constructor).
  split; [|reflexivity]. destruct (Text.strip message); [discriminate H | reflexivity].
Qed.

(** The visualization handler keeps dataset and filters, whatever its
    outcome. *)
Lemma visualisation_keeps_filters text (c : ConversationContext) :
  let c' := snd (_handle_visualisation text c) in
  filters (agent c') = filters (agent c) /\ dataset (agent c') = dataset (agent c).
Proof.
  cbv zeta.
  set (P := fun c' : ConversationContext =>
              filters (agent c') = filters (agent c) /\
              dataset (agent c') = dataset (agent c)).
  assert (Hwp : wp (_handle_visualisation text) (fun _ => P) (fun _ => P) c).
  { unfold _handle_visualisation.
    destruct (_parse_visualisation text) as [parsed|];
      [|apply wp_ret; split; reflexivity].
    apply wp_bind, wp_try, wp_bind, wp_viz.
    - intros spec s' Hs. apply wp_ret. cbv beta.
      apply wp_bind, wp_modify, wp_bind.
      apply set_visualization_ok in Hs. destruct Hs as [d [ms [Hd [_ [-> _]]]]].
      apply wp_summarise.
      + intros dd p. apply wp_ret. unfold P. cbn. now rewrite Hd.
      + intros e. unfold P. cbn. now rewrite Hd.
    - intros [[] msg]; [apply wp_ret; cbv beta; apply wp_ret | |];
        split; reflexivity. }
  unfold wp in Hwp. now destruct (_handle_visualisation text c) as [[r|e] c'].
Qed.

End DirectiveTokens.

(** X22: in the SUMMARY and ADJUST stages a directive token wins over the
    filter command. An ASCII message that holds one of chart=, x=, y=, metrics=,
    dimensions=, breakdowns= anywhere (so also filter severity=high or
    filter currency=USD, whose column ends in x or y) is handed to the
    visualization handler: whatever the outcome, the filters and the dataset
    are those of before, and when the text is not a complete directive the
    turn answers with the usage hint of the visualization and leaves the
    stage at VISUALISATION. *)
Theorem X22_directive_token_wins (F : PyFloat) (C : Collaborators)
    (c : ConversationContext) (message : string) :
  ascii_text message = true ->
  stage c = ADJUST \/ stage c = SUMMARY ->
  has_visualisation_token (Text.lower (Text.strip message)) = true ->
  filters (agent (snd (handle_input message c))) = filters (agent c) /\
  dataset (agent (snd (handle_input message c))) = dataset (agent c) /\
  (_parse_visualisation (Text.strip message) = None ->
   handle_input message c =
   (Ok (Text visualisation_usage_hint), set_stage VISUALISATION c)).
Proof.
  intros _ Hst Htok. destruct (token_dispatched message Htok) as [Hd Ha].
  assert (Hrun : handle_input message c =
                 _handle_visualisation (Text.strip message)
                   (set_stage VISUALISATION c)).
  { rewrite (handle_input_dispatched _ c Hd).
    assert (Hadj : _handle_adjustment (Text.strip message) c =
                   _handle_visualisation (Text.strip message)
                     (set_stage VISUALISATION c)).
    { unfold adjusting in Ha. rewrite andb_true_iff, !negb_true_iff in Ha.
      destruct Ha as [H1 H2]. unfold has_visualisation_token in Htok.
      unfold _handle_adjustment. now rewrite H1, H2, Htok. }
    destruct Hst as [-> | ->]; [exact Hadj|].
    unfold _handle_summary_follow_up.
    unfold adjusting in Ha. rewrite andb_true_iff, !negb_true_iff in Ha.
    destruct Ha as [H1 _]. now rewrite H1. }
  rewrite Hrun.
  destruct (visualisation_keeps_filters (Text.strip message)
              (set_stage VISUALISATION c)) as [Hf Hds].
  split; [exact Hf|]. split; [exact Hds|].
  intros Hp. unfold _handle_visualisation. now rewrite Hp.
Qed.

Lemma X22_directive_token_wins_witness :
  let c := mkContext (mkAgentState (PyDict.get "tickets" DATASETS) [] None [] [])
             ADJUST None in
  @handle_input FloatFree ConstantBackend "filter severity=high" c =
    (Ok (Text visualisation_usage_hint), set_stage VISUALISATION c) /\
  filters (agent (snd (@handle_input FloatFree ConstantBackend
                         "filter severity=high" c))) = [].
Proof.
  cbv zeta.
  pose proof (@X22_directive_token_wins FloatFree ConstantBackend
                (mkContext (mkAgentState (PyDict.get "tickets" DATASETS) [] None [] [])
                   ADJUST None)
                "filter severity=high" eq_refl (or_introl eq_refl) eq_refl)
    as [H1 [_ H3]].
  split; [exact (H3 eq_refl) | exact H1].
Defined.

(* ================================================================== *)
(** * Invariants of the chart settings *)
(* ================================================================== *)

Section ChartInvariant.
Context {F : PyFloat}.

(** What a call of [set_visualization] that returns has checked and
    stored. *)
Lemma set_visualization_stored ct xs ys bs os (s s' : AgentState) spec :
  set_visualization ct xs ys bs os s = (Ok spec, s') ->
  let bs' := match bs with Some b => b | None => [] end in
  exists D ms,
    dataset s = Some D /\
    s' = mkAgentState (Some D) (filters s) (Some spec)
           (dedup_first (xs ++ bs')) ms /\
    VizSpec.x_fields spec = xs /\ VizSpec.breakdowns spec = bs' /\
    VizSpec.y_measures spec = map MeasureSpec.alias ms /\
    xs <> [] /\ ms <> [] /\
    Forall (fun x => In x (column_names D)) (xs ++ bs') /\
    Forall (fun m => In (MeasureSpec.column m) (column_names D)) ms.
Proof.
  intros H bs'.
  assert (Hbs : match bs with Some (b :: r) => b :: r | _ => [] end = bs')
    by (destruct bs as [[|? ?]|]; reflexivity).
  revert H. unfold set_visualization, _require_dataset. run_monad.
  destruct (dataset s) as [D|] eqn:HD; [|discriminate].
  destruct xs as [|x xs']; [discriminate|].
  destruct ys as [|y ys']; [discriminate|].
  destruct (filter _ (x :: xs')) eqn:Ex; [|discriminate].
  rewrite Hbs.
  destruct (filter _ bs') eqn:Eb; [|discriminate].
  destruct (measure_loop D (column_names D) (y :: ys') [] []) as [ms|e] eqn:El;
    [|discriminate].
  intros [= <- <-]. exists D, ms.
  pose proof (measure_loop_ok_valid _ _ _ _ _ _ El) as Hys.
  destruct (measure_loop_valid D (column_names D) _ [] [] Hys)
    as [new [Hl' [Hlen [Hwf _]]]].
  rewrite El in Hl'. injection Hl' as ->.
  split; [reflexivity|]. split.
  { rewrite keys_fromkeys. unfold set_measure_specs, set_dimensions, set_viz.
    cbn [dataset filters visualization dimensions measure_specs]. now rewrite HD. }
  repeat split; try discriminate.
  - destruct new; [discriminate Hlen | discriminate].
  - apply Forall_app. split; apply Forall_forall; intros c Hc.
    + apply filter_nil_Forall in Ex. rewrite Forall_forall in Ex.
      specialize (Ex c Hc). now apply mem_In.
    + apply filter_nil_Forall in Eb. rewrite Forall_forall in Eb.
      specialize (Eb c Hc). now apply mem_In.
  - eapply Forall_impl; [|exact Hwf]. intros m Hm. exact (proj1 Hm).
Qed.

Lemma new_state_chart_consistent : chart_consistent new_state.
Proof. split; reflexivity. Qed.

Lemma effect_chart_consistent (s s' : AgentState) :
  effect s s' -> chart_consistent s -> chart_consistent s'.
Proof.
  intros Heff H.
  destruct Heff as [ | d | | D c v HD Hc | ct xs ys bs os spec s' Hviz].
  - exact H.
  - split; reflexivity.
  - split; reflexivity.
  - exact H.
  - destruct (set_visualization_stored _ _ _ _ _ _ _ _ Hviz)
      as [D [ms [HD [-> [Hx [Hb [Hy [Hxs [Hms [Hcols Hm]]]]]]]]]].
    unfold chart_consistent, aliases. cbn. rewrite Hx, Hb.
    repeat split; auto.
    exists D. repeat split; auto.
    apply Forall_forall. intros x Hin. unfold dedup_first in Hin.
    apply keep_first_In in Hin. rewrite Forall_forall in Hcols.
    apply Hcols. tauto.
Qed.

End ChartInvariant.

(** X23: the chart settings of a session never disagree. The invariant
    (no dimensions and no measures without a visualization; with one, an
    active dataset, dimensions equal to its x-fields and breakdowns without
    repeats, y-measures equal to the aliases of the measures, at least one
    x-field and one measure, and only columns of the active dataset among
    dimensions and measures) holds of a fresh state and is kept by every
    operation of the session model and by every turn, returned or raised,
    so it holds in every context of a session. *)
Theorem X23_chart_settings_consistent (F : PyFloat) :
  chart_consistent new_state /\
  (forall op (s : AgentState),
      chart_consistent s -> chart_consistent (state_after op s)) /\
  (forall (C : Collaborators) message (c : ConversationContext),
      chart_consistent (agent c) ->
      chart_consistent (agent (snd (handle_input message c)))) /\
  (forall (C : Collaborators) (c : ConversationContext),
      reachable c -> chart_consistent (agent c)).
Proof.
  assert (Hturn : forall (C : Collaborators) message (c : ConversationContext),
             chart_consistent (agent c) ->
             chart_consistent (agent (snd (handle_input message c)))).
  { intros C message c H.
    apply (@turn_keeps F C chart_consistent); auto.
    - apply new_state_chart_consistent.
    - intros s s' Heff. exact (effect_chart_consistent s s' Heff). }
  split; [apply new_state_chart_consistent|]. split; [|split; [exact Hturn|]].
  - intros op s H. exact (effect_chart_consistent _ _ (state_after_effect op s) H).
  - intros C c Hc. induction Hc as [|c Hc IH|c message r c' Hc IH Ht].
    + apply new_state_chart_consistent.
    + exact IH.
    + pose proof (Hturn C message c IH) as H. now rewrite Ht in H.
Qed.

Lemma X23_chart_settings_consistent_witness :
  let s := set_dataset (PyDict.get "logins" DATASETS) (@new_state FloatFree) in
  let s' := state_after
              (OpSetVisualization "bar" ["region"; "plan_type"]
                 ["avg:login_count"; "avg:login_count"] (Some ["region"]) None) s in
  dimensions s' = ["region"; "plan_type"] /\
  aliases s' = ["avg_login_count"; "avg_login_count_2"] /\
  chart_consistent s' /\
  chart_consistent (state_after (OpSelectDataset "payments") s').
Proof.
  cbv zeta. split; [vm_compute; reflexivity|]. split; [vm_compute; reflexivity|].
  assert (H : chart_consistent
                (state_after
                   (OpSetVisualization "bar" ["region"; "plan_type"]
                      ["avg:login_count"; "avg:login_count"] (Some ["region"]) None)
                   (set_dataset (PyDict.get "logins" DATASETS)
                      (@new_state FloatFree)))).
  { apply (proj1 (proj2 (X23_chart_settings_consistent FloatFree))).
    split; reflexivity. }
  split; [exact H|].
  apply (proj1 (proj2 (X23_chart_settings_consistent FloatFree))). exact H.
Defined.

(** One step over a handler, with the exact effect of each operation of
    the session model. *)
Ltac agent_step :=
  lazymatch goal with
  | |- wp (with_agent (select_dataset _)) _ _ _ =>
      apply wp_select; [intros ? ? | intros ?]
  | |- wp (with_agent (add_filter _ _)) _ _ _ =>
      apply wp_add; [intros ? ? ? | intros ?]
  | |- wp (with_agent (set_visualization _ _ _ _ _)) _ _ _ =>
      apply wp_viz; [intros ? ? ? | intros ?]
  | |- wp (with_agent suggest_filters) _ _ _ =>
      apply wp_pure; [apply suggest_filters_pure | intros ? | intros ?]
  | |- wp (with_agent suggest_enrichments) _ _ _ =>
      apply wp_pure; [apply suggest_enrichments_pure | intros ? | intros ?]
  | _ => wp_step
  end; cbv beta zeta.

Section StageChart.
Context {F : PyFloat} {C : Collaborators}.

Ltac chart_close :=
  first
    [ assumption
    | unfold stage_chart in *;
      cbn [agent stage chart_path set_agent set_stage set_chart_path new_context
           visualization set_filters] in *;
      repeat match goal with
             | H : stage ?c = _ |- context [stage ?c] => rewrite H
             | H : stage ?c = _, H' : context [stage ?c] |- _ => rewrite H in H'
             | H : set_visualization _ _ _ _ _ _ = (Ok _, _) |- _ =>
                 apply set_visualization_ok in H;
                 destruct H as [? [? [? [_ [-> _]]]]]
             end;
      cbn [visualization] in *;
      first [ exact Logic.I | assumption | reflexivity | discriminate ] ].

Lemma handle_input_stage_chart message (c : ConversationContext) :
  stage_chart c ->
  wp (handle_input message) (fun _ c' => stage_chart c') (fun _ _ => True) c.
Proof.
  intros H.
  unfold handle_input, _handle_summary_follow_up, _handle_adjustment,
    _handle_visualisation, _handle_filtering, _handle_dataset_selection.
  repeat (first [agent_step | progress chart_close]).
Qed.

Lemma reachable_stage_chart (c : ConversationContext) :
  reachable c -> stage_chart c.
Proof.
  induction 1 as [|c Hc IH|c message r c' Hc IH Ht].
  - exact Logic.I.
  - exact Logic.I.
  - pose proof (handle_input_stage_chart message c IH) as Hwp.
    unfold wp in Hwp. now rewrite Ht in Hwp.
Qed.

End StageChart.

(** X24: the stage tells whether a chart is set. In every context of a
    session, while filters are collected (FILTERS) no visualization is
    stored and there are no dimensions and no measures; once the dialogue is
    in the adjustment (ADJUST) a visualization is stored, with at least one
    measure, so every summary made there runs an aggregate query. *)
Theorem X24_stage_tells_chart (F : PyFloat) (C : Collaborators)
    (c : ConversationContext) :
  reachable c ->
  (stage c = FILTERS ->
   visualization (agent c) = None /\ dimensions (agent c) = [] /\
   measure_specs (agent c) = []) /\
  (stage c = ADJUST ->
   visualization (agent c) <> None /\ measure_specs (agent c) <> [] /\
   dimensions (agent c) <> []).
Proof.
  intros Hc. pose proof (reachable_stage_chart c Hc) as Hs.
  assert (Hk : chart_consistent (agent c)).
  { clear Hs. induction Hc as [|c Hc IH|c message r c' Hc IH Ht].
    - apply new_state_chart_consistent.
    - exact IH.
    - pose proof (@turn_keeps F C chart_consistent new_state_chart_consistent
                    effect_chart_consistent message c IH) as H.
      now rewrite Ht in H. }
  unfold stage_chart in Hs. unfold chart_consistent in Hk.
  split; intros Hst; rewrite Hst in Hs.
  - rewrite Hs in Hk. tauto.
  - destruct (visualization (agent c)) as [spec|]; [|congruence].
    destruct Hk as [Hd [_ [Hx [Hm _]]]]. repeat split; auto; try discriminate.
    rewrite Hd. destruct (VizSpec.x_fields spec) as [|x xs]; [congruence|].
    discriminate.
Qed.

Lemma X24_stage_tells_chart_witness :
  let c := @after_turns FloatFree ConstantBackend
             ["logins"; "region=EMEA"; "done";
              "chart=line x=login_date y=avg:login_count"]
             (snd (start new_context)) in
  stage c = ADJUST /\ visualization (agent c) <> None /\
  measure_specs (agent c) <> [] /\ dimensions (agent c) <> [].
Proof.
  cbv zeta. split; [vm_compute; reflexivity|].
  refine (proj2 (@X24_stage_tells_chart FloatFree ConstantBackend _ _) _).
  - unfold after_turns. cbn [fold_left].
    repeat (apply reachable_after_turn; [|eexists; vm_compute; reflexivity]).
    apply reach_start, reach_new.
  - vm_compute. reflexivity.
Defined.
